(** * Pumasi: task lifecycle, transaction handshake, conversations, ratings

    A shallow embedding of the server side of the repository:
    - [shared/schema.ts]   the tables (records below, one module per table);
    - [server/storage.ts]  class [DatabaseStorage] (functions in the [DB] monad);
    - [server/routes.ts]   the Express handlers of [registerRoutes].

    Modelling conventions.
    - A table is the list of its rows in insertion order.  [db.select()...where(c)]
      is [filter c]; the destructuring [const [x] = ...] is [head].
    - [gen_random_uuid()] is a counter [nextId] kept in the store; a uuid is
      a [nat].  User ids are the strings handed over by the identity provider.
    - [new Date()] and [defaultNow()] read a clock value [now] passed to the
      handler.
    - A statement that the database rejects (a NOT NULL column receiving
      null, a value that does not fit its numeric column) throws; every
      handler is wrapped in [try ... catch] and answers 500, keeping the
      writes made before the throw (no statement group is transactional).
      Foreign keys are not modelled.
    - Request bodies are modelled at their parsed type; a key of a JSON body
      is [absent], [null] or a [value]. *)

From Stdlib Require Import ZArith Lia SpecFloat.
From stdpp Require Import base tactics option list strings sorting.

Open Scope string_scope.
Open Scope list_scope.

(** ** Basic types *)

Definition Uuid := nat.
Definition UserId := string.
Definition Timestamp := Z.
Bind Scope Z_scope with Timestamp.

(** A key of a JSON request body. *)
Inductive field (A : Type) : Type :=
| absent
| null
| value (a : A).
Arguments absent {A}.
Arguments null {A}.
Arguments value {A} a.

(** JavaScript truthiness of a body key holding a string. *)
Definition truthy (v : field string) : bool :=
  match v with
  | value s => negb (bool_decide (s = ""))
  | _ => false
  end.

(** [v === s] for a body key [v] and a string [s]. *)
Definition strict_eq (v : field string) (s : string) : bool :=
  match v with
  | value s' => bool_decide (s' = s)
  | _ => false
  end.

(** ** shared/schema.ts *)

Module User.
(** [rating] is the [decimal(3,2)] column, held in hundredths; the profile
    columns and the three counters, which no statement below touches, are
    left out. *)
Record t := mk { id : UserId; rating : Z }.
End User.

Module Task.
Record t := mk {
  id : Uuid;
  title : string;
  description : string;
  category : string;
  reward : string;
  timeEstimate : option string;
  location : option string;
  status : option string;
  authorId : UserId;
  helperId : option UserId;
  communityId : Uuid;
  createdAt : Timestamp;
  updatedAt : Timestamp
}.
End Task.

Module Conversation.
Record t := mk {
  id : Uuid;
  taskId : Uuid;
  authorId : UserId;
  participantId : UserId;
  lastMessageAt : option Timestamp;
  createdAt : Timestamp
}.
End Conversation.

(** [status] and the four flags are nullable columns with a default; the
    statements below never write null into them, and JavaScript reads a null
    flag as false. *)
Module Transaction.
Record t := mk {
  id : Uuid;
  taskId : Uuid;
  payerId : UserId;
  payeeId : UserId;
  amount : string;
  status : string;
  payerStartRequested : bool;
  payeeStartRequested : bool;
  payerConfirmed : bool;
  payeeConfirmed : bool;
  createdAt : Timestamp;
  completedAt : option Timestamp
}.
End Transaction.

Module Rating.
Record t := mk {
  id : Uuid;
  taskId : Uuid;
  raterId : UserId;
  ratedId : UserId;
  rating : Z;
  comment : option string;
  createdAt : Timestamp
}.
End Rating.

(** [InsertTransaction]: what the route hands to [createTransaction].  The
    route passes [task.helperId!], which is null at run time when the task has
    no helper. *)
Module InsertTransaction.
Record t := mk {
  taskId : Uuid;
  payerId : UserId;
  payeeId : option UserId;
  amount : string
}.
End InsertTransaction.

(** [InsertRating], after [insertRatingSchema.parse]. *)
Module InsertRating.
Record t := mk {
  taskId : Uuid;
  raterId : UserId;
  ratedId : UserId;
  rating : Z;
  comment : option string
}.
End InsertRating.

(** [Partial<Task>]: the body of [PATCH /api/tasks/:id], column keys only
    (the keys [id], [createdAt] and [updatedAt] are left out). *)
Module TaskPatch.
Record t := mk {
  title : field string;
  description : field string;
  category : field string;
  reward : field string;
  timeEstimate : field string;
  location : field string;
  status : field string;
  authorId : field UserId;
  helperId : field UserId;
  communityId : field Uuid
}.
(** [{ status: s }], the body the storage layer and the chat page send. *)
Definition only_status (s : string) : t :=
  mk absent absent absent absent absent absent (value s) absent absent absent.
(** [{ helperId: user.id, status: "accepted" }], the body the task page
    sends to accept a task. *)
Definition accept (helper : UserId) : t :=
  mk absent absent absent absent absent absent (value "accepted") absent
     (value helper) absent.
End TaskPatch.

(** [Partial<Transaction>]: the object [updates] the two handshake handlers
    build key by key. *)
Module TxUpdates.
Record t := mk {
  payerStartRequested : option bool;
  payeeStartRequested : option bool;
  payerConfirmed : option bool;
  payeeConfirmed : option bool;
  status : option string;
  completedAt : option Timestamp
}.
Definition empty : t := mk None None None None None None.
End TxUpdates.

(** ** The database *)

Record Store := mkStore {
  users : list User.t;
  tasks : list Task.t;
  conversations : list Conversation.t;
  transactions : list Transaction.t;
  ratings : list Rating.t;
  nextId : Uuid
}.

(** A storage call: it either returns or throws, and leaves a store. *)
Definition DB (A : Type) : Type := Store -> option A * Store.

Definition ret {A} (a : A) : DB A := fun st => (Some a, st).
Definition throw {A} : DB A := fun st => (None, st).
Definition bind {A B} (m : DB A) (k : A -> DB B) : DB B :=
  fun st =>
    match m st with
    | (Some a, st') => k a st'
    | (None, st') => (None, st')
    end.

Notation "'let*' x ':=' m 'in' k" := (bind m (fun x => k))
  (at level 10, x name, m at level 100, k at level 200).
Notation "'do' m 'then' k" := (bind m (fun _ => k))
  (at level 10, m at level 100, k at level 200).

Definition gen_random_uuid : DB Uuid :=
  fun st =>
    (Some (nextId st),
     mkStore (users st) (tasks st) (conversations st) (transactions st)
             (ratings st) (S (nextId st))).

Definition set_users (us : list User.t) : DB unit :=
  fun st => (Some tt, mkStore us (tasks st) (conversations st)
                              (transactions st) (ratings st) (nextId st)).
Definition set_tasks (ts : list Task.t) : DB unit :=
  fun st => (Some tt, mkStore (users st) ts (conversations st)
                              (transactions st) (ratings st) (nextId st)).
Definition set_conversations (cs : list Conversation.t) : DB unit :=
  fun st => (Some tt, mkStore (users st) (tasks st) cs
                              (transactions st) (ratings st) (nextId st)).
Definition set_transactions (xs : list Transaction.t) : DB unit :=
  fun st => (Some tt, mkStore (users st) (tasks st) (conversations st)
                              xs (ratings st) (nextId st)).
Definition set_ratings (rs : list Rating.t) : DB unit :=
  fun st => (Some tt, mkStore (users st) (tasks st) (conversations st)
                              (transactions st) rs (nextId st)).

Definition select {A} (table : Store -> list A) (where_ : A -> bool)
  : DB (list A) :=
  fun st => (Some (List.filter where_ (table st)), st).

Definition insert {A} (table : Store -> list A)
    (set_table : list A -> DB unit) (row : A) : DB unit :=
  fun st => set_table (table st ++ [row]) st.

(** [UPDATE ... SET ... WHERE ... RETURNING *] on a list of rows: the new
    table and the rows returned, or [None] when a row is rejected. *)
Fixpoint update_rows {A} (where_ : A -> bool) (set : A -> option A)
    (rows : list A) : option (list A * list A) :=
  match rows with
  | [] => Some ([], [])
  | r :: rest =>
      if where_ r then
        r' ← set r;
        '(rest', returning) ← update_rows where_ set rest;
        Some (r' :: rest', r' :: returning)
      else
        '(rest', returning) ← update_rows where_ set rest;
        Some (r :: rest', returning)
  end.

Definition update {A} (table : Store -> list A)
    (set_table : list A -> DB unit) (where_ : A -> bool)
    (set : A -> option A) : DB (list A) :=
  fun st =>
    match update_rows where_ set (table st) with
    | None => (None, st)
    | Some (rows', returning) =>
        (do set_table rows' then ret returning) st
    end.

(** Writing a body key into a nullable column, and into a NOT NULL column
    ([None]: the database rejects the row). *)
Definition set_nullable {A} (f : field A) (old : option A) : option A :=
  match f with
  | absent => old
  | null => None
  | value a => Some a
  end.

Definition set_required {A} (f : field A) (old : A) : option A :=
  match f with
  | absent => Some old
  | null => None
  | value a => Some a
  end.

(** ** server/storage.ts: class DatabaseStorage *)

(** [getTask]: the row; the joined [author] and [helper] profiles, which
    only decorate the JSON answer, are left out. *)
Definition getTask (id : Uuid) : DB (option Task.t) :=
  let* rows := select tasks (fun t => bool_decide (Task.id t = id)) in
  ret (head rows).

(** [.set({ ...updates, updatedAt: new Date() })] on one row. *)
Definition setTask (now : Timestamp) (updates : TaskPatch.t) (t : Task.t)
  : option Task.t :=
  title ← set_required (TaskPatch.title updates) (Task.title t);
  description ← set_required (TaskPatch.description updates) (Task.description t);
  category ← set_required (TaskPatch.category updates) (Task.category t);
  reward ← set_required (TaskPatch.reward updates) (Task.reward t);
  authorId ← set_required (TaskPatch.authorId updates) (Task.authorId t);
  communityId ← set_required (TaskPatch.communityId updates) (Task.communityId t);
  Some (Task.mk (Task.id t) title description category reward
          (set_nullable (TaskPatch.timeEstimate updates) (Task.timeEstimate t))
          (set_nullable (TaskPatch.location updates) (Task.location t))
          (set_nullable (TaskPatch.status updates) (Task.status t))
          authorId
          (set_nullable (TaskPatch.helperId updates) (Task.helperId t))
          communityId (Task.createdAt t) now).

Definition updateTask (now : Timestamp) (id : Uuid) (updates : TaskPatch.t)
  : DB (option Task.t) :=
  let* returning :=
    update tasks set_tasks (fun t => bool_decide (Task.id t = id))
           (setTask now updates) in
  ret (head returning).

Definition getTaskTransaction (taskId : Uuid) : DB (option Transaction.t) :=
  let* rows :=
    select transactions (fun x => bool_decide (Transaction.taskId x = taskId)) in
  ret (head rows).

(** [insert(transactions).values({ ...transaction, status: 'pending' })]:
    the other columns take their schema defaults; [payee_id] is NOT NULL. *)
Definition createTransaction (now : Timestamp)
    (transaction : InsertTransaction.t) : DB Transaction.t :=
  match InsertTransaction.payeeId transaction with
  | None => throw
  | Some payeeId =>
      let* id := gen_random_uuid in
      let newTransaction :=
        Transaction.mk id
          (InsertTransaction.taskId transaction)
          (InsertTransaction.payerId transaction)
          payeeId
          (InsertTransaction.amount transaction)
          "pending" false false false false now None in
      do insert transactions set_transactions newTransaction then
      ret newTransaction
  end.

(** [.set(updates)] on one row: a key that is present overwrites its column. *)
Definition setTransaction (updates : TxUpdates.t) (x : Transaction.t)
  : Transaction.t :=
  Transaction.mk (Transaction.id x) (Transaction.taskId x)
    (Transaction.payerId x) (Transaction.payeeId x) (Transaction.amount x)
    (default (Transaction.status x) (TxUpdates.status updates))
    (default (Transaction.payerStartRequested x)
             (TxUpdates.payerStartRequested updates))
    (default (Transaction.payeeStartRequested x)
             (TxUpdates.payeeStartRequested updates))
    (default (Transaction.payerConfirmed x) (TxUpdates.payerConfirmed updates))
    (default (Transaction.payeeConfirmed x) (TxUpdates.payeeConfirmed updates))
    (Transaction.createdAt x)
    (match TxUpdates.completedAt updates with
     | Some d => Some d
     | None => Transaction.completedAt x
     end).

Definition updateTransaction (id : Uuid) (updates : TxUpdates.t)
  : DB (option Transaction.t) :=
  let* returning :=
    update transactions set_transactions
           (fun x => bool_decide (Transaction.id x = id))
           (fun x => Some (setTransaction updates x)) in
  ret (head returning).

Definition getOrCreateConversation (now : Timestamp)
    (taskId : Uuid) (authorId participantId : UserId) : DB Conversation.t :=
  let* rows :=
    select conversations
      (fun c => bool_decide (Conversation.taskId c = taskId)
                && bool_decide (Conversation.authorId c = authorId)
                && bool_decide (Conversation.participantId c = participantId)) in
  match head rows with
  | Some existingConversation => ret existingConversation
  | None =>
      let* id := gen_random_uuid in
      let newConversation :=
        Conversation.mk id taskId authorId participantId None now in
      do insert conversations set_conversations newConversation then
      ret newConversation
  end.


(** *** JavaScript numbers

    A Number is an IEEE 754 binary64 value; [+] and [/] are the standard
    library's specification of the correctly rounded operations. *)
Module Number.
Definition prec : Z := 53.
Definition emax : Z := 1024.
Definition t := spec_float.

(** The Number holding an integer read from an [integer] column, or a
    [length]. *)
Definition of_int (z : Z) : t := binary_normalize prec emax z 0 false.
Definition add : t -> t -> t := SFadd prec emax.
Definition div : t -> t -> t := SFdiv prec emax.

(** [x.toFixed(2)], in hundredths: the integer [n] for which [n / 100 - x]
    is as close to zero as possible, the larger one when there are two.
    [None] stands for the answers that are not such a numeral: ["NaN"],
    ["Infinity"], and the exponent notation used from [1e21] on. *)
Definition toFixed2 (x : t) : option Z :=
  match x with
  | S754_zero _ => Some 0%Z
  | S754_finite s m e =>
      let n :=
        if (0 <=? e)%Z then (100 * Z.pos m * 2 ^ e)%Z
        else ((200 * Z.pos m + 2 ^ (- e)) / 2 ^ (- e + 1))%Z in
      if (100 * 10 ^ 21 <=? n)%Z then None
      else Some (if s then (- n)%Z else n)
  | _ => None
  end.
End Number.

(** [.set({ rating: avgRating.toFixed(2) })] on one row of [users]: the
    column is [decimal(3,2)], which holds an absolute value below 10. *)
Definition setUserRating (fixed : option Z) (u : User.t) : option User.t :=
  match fixed with
  | Some n =>
      if (Z.abs n <? 1000)%Z then Some (User.mk (User.id u) n) else None
  | None => None
  end.

(** [userRatings.reduce((sum, r) => sum + r.rating, 0) / userRatings.length] *)
Definition avgRating (userRatings : list Rating.t) : Number.t :=
  Number.div
    (fold_left (fun sum r => Number.add sum (Number.of_int (Rating.rating r)))
               userRatings (Number.of_int 0))
    (Number.of_int (Z.of_nat (length userRatings))).

Definition createRating (now : Timestamp) (rating : InsertRating.t)
  : DB Rating.t :=
  let* id := gen_random_uuid in
  let newRating :=
    Rating.mk id (InsertRating.taskId rating) (InsertRating.raterId rating)
      (InsertRating.ratedId rating) (InsertRating.rating rating)
      (InsertRating.comment rating) now in
  do insert ratings set_ratings newRating then
  let* userRatings :=
    select ratings
      (fun r => bool_decide (Rating.ratedId r = InsertRating.ratedId rating)) in
  do update users set_users
       (fun u => bool_decide (User.id u = InsertRating.ratedId rating))
       (setUserRating (Number.toFixed2 (avgRating userRatings))) then
  ret newRating.

(** ** server/routes.ts: registerRoutes *)

(** What a handler answers: [res.json(body)], or
    [res.status(code).json({ message })]. *)
Inductive Json :=
| JTask (task : option Task.t)
| JTransaction (transaction : option Transaction.t)
| JConversation (conversation : Conversation.t)
| JRating (rating : Rating.t).

Inductive Response :=
| Ok (body : Json)
| Fail (code : nat).

(** The payload of the [transaction_start_request] frame. *)
Module Event.
Record t := mk {
  type : string;
  taskId : Uuid;
  requestedBy : UserId;
  otherUserId : UserId;
  bothRequested : bool
}.
End Event.

(** A socket of [wss.clients]. *)
Record WsClient := mkClient { socket : nat; readyState : nat }.
Definition OPEN : nat := 1.

(** [wss.clients.forEach(client => { if (client.readyState === OPEN)
    client.send(JSON.stringify(ev)) })]: the frames put on the wire. *)
Definition broadcast (clients : list WsClient) (ev : Event.t)
  : list (WsClient * Event.t) :=
  map (fun client => (client, ev))
      (List.filter (fun client => bool_decide (readyState client = OPEN)) clients).

Record Reply := mkReply {
  response : Response;
  sent : list (WsClient * Event.t)
}.

Definition answer (r : Response) : DB Reply := ret (mkReply r []).

(** [try { ... } catch (error) { res.status(500)... }]. *)
Definition route (handler : DB Reply) (st : Store) : Reply * Store :=
  match handler st with
  | (Some reply, st') => (reply, st')
  | (None, st') => (mkReply (Fail 500) [], st')
  end.

(** [app.patch('/api/tasks/:id')]. *)
Definition patch_task (now : Timestamp) (sub : UserId) (id : Uuid)
    (body : TaskPatch.t) : DB Reply :=
  let* task := getTask id in
  match task with
  | None => answer (Fail 404)
  | Some task =>
      if truthy (TaskPatch.helperId body)
         && strict_eq (TaskPatch.helperId body) (Task.authorId task)
      then answer (Fail 400)
      else if negb (bool_decide (Task.authorId task = sub))
              && negb (strict_eq (TaskPatch.helperId body) sub)
      then answer (Fail 403)
      else
        let* updatedTask := updateTask now id body in
        answer (Ok (JTask updatedTask))
  end.

(** [app.delete('/api/tasks/:id')]. *)
Definition delete_task (now : Timestamp) (sub : UserId) (id : Uuid)
  : DB Reply :=
  let* task := getTask id in
  match task with
  | None => answer (Fail 404)
  | Some task =>
      if negb (bool_decide (Task.authorId task = sub))
      then answer (Fail 403)
      else if negb (bool_decide (Task.status task = Some "open"))
              && negb (bool_decide (Task.status task = Some "accepted"))
      then answer (Fail 400)
      else
        let* cancelledTask :=
          updateTask now id (TaskPatch.only_status "cancelled") in
        answer (Ok (JTask cancelledTask))
  end.

(** [app.post('/api/conversations')]: the body gives [taskId] and
    [authorId]; the caller is the participant. *)
Definition post_conversation (now : Timestamp) (sub : UserId)
    (taskId : Uuid) (authorId : UserId) : DB Reply :=
  let* conversation := getOrCreateConversation now taskId authorId sub in
  answer (Ok (JConversation conversation)).

(** [app.post('/api/tasks/:id/transaction')]. *)
Definition post_transaction (now : Timestamp) (sub : UserId) (id : Uuid)
  : DB Reply :=
  let* task := getTask id in
  match task with
  | None => answer (Fail 404)
  | Some task =>
      let* transaction :=
        createTransaction now
          (InsertTransaction.mk id (Task.authorId task) (Task.helperId task)
                                (Task.reward task)) in
      answer (Ok (JTransaction (Some transaction)))
  end.

(** The first [if / else if / else] of both handshake handlers: which key of
    [updates] the caller may set, and the caller's role. *)
Definition set_payerStartRequested (u : TxUpdates.t) : TxUpdates.t :=
  TxUpdates.mk (Some true) (TxUpdates.payeeStartRequested u)
    (TxUpdates.payerConfirmed u) (TxUpdates.payeeConfirmed u)
    (TxUpdates.status u) (TxUpdates.completedAt u).
Definition set_payeeStartRequested (u : TxUpdates.t) : TxUpdates.t :=
  TxUpdates.mk (TxUpdates.payerStartRequested u) (Some true)
    (TxUpdates.payerConfirmed u) (TxUpdates.payeeConfirmed u)
    (TxUpdates.status u) (TxUpdates.completedAt u).
Definition set_payerConfirmed (u : TxUpdates.t) : TxUpdates.t :=
  TxUpdates.mk (TxUpdates.payerStartRequested u)
    (TxUpdates.payeeStartRequested u) (Some true) (TxUpdates.payeeConfirmed u)
    (TxUpdates.status u) (TxUpdates.completedAt u).
Definition set_payeeConfirmed (u : TxUpdates.t) : TxUpdates.t :=
  TxUpdates.mk (TxUpdates.payerStartRequested u)
    (TxUpdates.payeeStartRequested u) (TxUpdates.payerConfirmed u) (Some true)
    (TxUpdates.status u) (TxUpdates.completedAt u).
Definition set_status (s : string) (u : TxUpdates.t) : TxUpdates.t :=
  TxUpdates.mk (TxUpdates.payerStartRequested u)
    (TxUpdates.payeeStartRequested u) (TxUpdates.payerConfirmed u)
    (TxUpdates.payeeConfirmed u) (Some s) (TxUpdates.completedAt u).
Definition set_completedAt (d : Timestamp) (u : TxUpdates.t) : TxUpdates.t :=
  TxUpdates.mk (TxUpdates.payerStartRequested u)
    (TxUpdates.payeeStartRequested u) (TxUpdates.payerConfirmed u)
    (TxUpdates.payeeConfirmed u) (TxUpdates.status u) (Some d).

(** Truthiness of a key of [updates] that may be missing. *)
Definition is_set (k : option bool) : bool := default false k.

(** The [updates] object of [start-request] for the row read and the caller,
    with the caller's role; [None] is the 403 branch. *)
Definition startRequestUpdates (transaction : Transaction.t) (sub : UserId)
  : option (TxUpdates.t * string) :=
  let updates := TxUpdates.empty in
  let branch :=
    if bool_decide (Transaction.payerId transaction = sub)
    then Some (set_payerStartRequested updates, "payer")
    else if bool_decide (Transaction.payeeId transaction = sub)
    then Some (set_payeeStartRequested updates, "payee")
    else None in
  '(updates, userRole) ← branch;
  let updates :=
    if (is_set (TxUpdates.payerStartRequested updates)
        && Transaction.payeeStartRequested transaction)
       || (is_set (TxUpdates.payeeStartRequested updates)
           && Transaction.payerStartRequested transaction)
    then set_status "in_progress" updates
    else set_status "start_requested" updates in
  Some (updates, userRole).

(** [app.patch('/api/transactions/:id/start-request')]; the body gives
    [taskId]. *)
Definition patch_start_request (clients : list WsClient) (sub : UserId)
    (id : Uuid) (taskId : Uuid) : DB Reply :=
  let* transaction := getTaskTransaction taskId in
  match transaction with
  | None => answer (Fail 404)
  | Some transaction =>
      match startRequestUpdates transaction sub with
      | None => answer (Fail 403)
      | Some (updates, userRole) =>
          let* updatedTransaction :=
            updateTransaction (Transaction.id transaction) updates in
          let otherUserId :=
            if bool_decide (userRole = "payer")
            then Transaction.payeeId transaction
            else Transaction.payerId transaction in
          ret (mkReply (Ok (JTransaction updatedTransaction))
                 (broadcast clients
                    (Event.mk "transaction_start_request" taskId sub
                       otherUserId
                       (bool_decide (TxUpdates.status updates
                                     = Some "in_progress")))))
      end
  end.

(** The [updates] object of [confirm]; [None] is the 403 branch. *)
Definition confirmUpdates (now : Timestamp) (transaction : Transaction.t)
    (sub : UserId) : option TxUpdates.t :=
  let updates := TxUpdates.empty in
  updates ←
    (if bool_decide (Transaction.payerId transaction = sub)
     then Some (set_payerConfirmed updates)
     else if bool_decide (Transaction.payeeId transaction = sub)
     then Some (set_payeeConfirmed updates)
     else None);
  Some
    (if (is_set (TxUpdates.payerConfirmed updates)
         && Transaction.payeeConfirmed transaction)
        || (is_set (TxUpdates.payeeConfirmed updates)
            && Transaction.payerConfirmed transaction)
     then set_completedAt now (set_status "completed" updates)
     else updates).

(** [app.patch('/api/transactions/:id/confirm')]; the body gives [taskId]. *)
Definition patch_confirm (now : Timestamp) (sub : UserId)
    (id : Uuid) (taskId : Uuid) : DB Reply :=
  let* transaction := getTaskTransaction taskId in
  match transaction with
  | None => answer (Fail 404)
  | Some transaction =>
      match confirmUpdates now transaction sub with
      | None => answer (Fail 403)
      | Some updates =>
          let* updatedTransaction :=
            updateTransaction (Transaction.id transaction) updates in
          answer (Ok (JTransaction updatedTransaction))
      end
  end.

(** [app.post('/api/ratings')]: the body gives [taskId], [ratedId],
    [rating] and [comment]; the caller is the rater. *)
Definition post_rating (now : Timestamp) (sub : UserId) (taskId : Uuid)
    (ratedId : UserId) (rating : Z) (comment : option string) : DB Reply :=
  let* rating :=
    createRating now (InsertRating.mk taskId sub ratedId rating comment) in
  answer (Ok (JRating rating)).

(** The requests of the slice, each with its path parameter and body. *)
Inductive Request :=
| PatchTask (id : Uuid) (body : TaskPatch.t)
| DeleteTask (id : Uuid)
| PostConversation (taskId : Uuid) (authorId : UserId)
| PostTransaction (id : Uuid)
| PatchStartRequest (id : Uuid) (taskId : Uuid)
| PatchConfirm (id : Uuid) (taskId : Uuid)
| PostRating (taskId : Uuid) (ratedId : UserId) (rating : Z)
             (comment : option string).

(** One authenticated request served at time [now] for the user [sub], with
    the sockets [clients] connected. *)
Definition handle (clients : list WsClient) (now : Timestamp) (sub : UserId)
    (req : Request) : Store -> Reply * Store :=
  route
    match req with
    | PatchTask id body => patch_task now sub id body
    | DeleteTask id => delete_task now sub id
    | PostConversation taskId authorId =>
        post_conversation now sub taskId authorId
    | PostTransaction id => post_transaction now sub id
    | PatchStartRequest id taskId => patch_start_request clients sub id taskId
    | PatchConfirm id taskId => patch_confirm now sub id taskId
    | PostRating taskId ratedId rating comment =>
        post_rating now sub taskId ratedId rating comment
    end.


(** Serving a list of requests one after the other, each with the sockets
    connected, its time and its caller. *)
Definition serve
    (script : list (list WsClient * Timestamp * UserId * Request))
    (st : Store) : Store :=
  fold_left (fun st '(clients, now, sub, req) =>
               (handle clients now sub req st).2) script st.

(** ** Views of the store used in the statements *)

(** The row [getTask id] returns. *)
Definition taskById (st : Store) (id : Uuid) : option Task.t :=
  head (List.filter (fun t => bool_decide (Task.id t = id)) (tasks st)).

(** The row [getTaskTransaction taskId] returns. *)
Definition transactionOfTask (st : Store) (taskId : Uuid)
  : option Transaction.t :=
  head (List.filter (fun x => bool_decide (Transaction.taskId x = taskId))
                    (transactions st)).

(** The row with a given primary key. *)
Definition transactionById (st : Store) (id : Uuid) : option Transaction.t :=
  head (List.filter (fun x => bool_decide (Transaction.id x = id))
                    (transactions st)).

(** A body key written over a NOT NULL column that accepts it. *)
Definition overwrite {A} (f : field A) (old : A) : A :=
  match f with
  | value a => a
  | _ => old
  end.

Definition is_null {A} (f : field A) : bool :=
  match f with
  | null => true
  | _ => false
  end.

(** The patch puts null into a NOT NULL column of [tasks]. *)
Definition null_in_required (updates : TaskPatch.t) : bool :=
  is_null (TaskPatch.title updates) || is_null (TaskPatch.description updates)
  || is_null (TaskPatch.category updates) || is_null (TaskPatch.reward updates)
  || is_null (TaskPatch.authorId updates)
  || is_null (TaskPatch.communityId updates).

(** The row [setTask] writes when the database accepts it. *)
Definition patched (now : Timestamp) (updates : TaskPatch.t) (t : Task.t)
  : Task.t :=
  Task.mk (Task.id t)
    (overwrite (TaskPatch.title updates) (Task.title t))
    (overwrite (TaskPatch.description updates) (Task.description t))
    (overwrite (TaskPatch.category updates) (Task.category t))
    (overwrite (TaskPatch.reward updates) (Task.reward t))
    (set_nullable (TaskPatch.timeEstimate updates) (Task.timeEstimate t))
    (set_nullable (TaskPatch.location updates) (Task.location t))
    (set_nullable (TaskPatch.status updates) (Task.status t))
    (overwrite (TaskPatch.authorId updates) (Task.authorId t))
    (set_nullable (TaskPatch.helperId updates) (Task.helperId t))
    (overwrite (TaskPatch.communityId updates) (Task.communityId t))
    (Task.createdAt t) now.

(** The [tasks] table after [updateTask now id updates] went through. *)
Definition tasks_patched (now : Timestamp) (id : Uuid)
    (updates : TaskPatch.t) (st : Store) : Store :=
  mkStore (users st)
    (map (fun t => if bool_decide (Task.id t = id)
                   then patched now updates t else t) (tasks st))
    (conversations st) (transactions st) (ratings st) (nextId st).

(** The [transactions] table after [updateTransaction id updates]. *)
Definition transactions_updated (id : Uuid) (updates : TxUpdates.t)
    (st : Store) : Store :=
  mkStore (users st) (tasks st) (conversations st)
    (map (fun x => if bool_decide (Transaction.id x = id)
                   then setTransaction updates x else x) (transactions st))
    (ratings st) (nextId st).









(** The store [POST /api/ratings] leaves, whether it answers 200 or 500:
    the rating is appended, and the rated user's rows carry the new average
    when the database accepts it. *)
Definition rating_posted (now : Timestamp) (sub : UserId) (taskId : Uuid)
    (ratedId : UserId) (rating : Z) (comment : option string) (st : Store)
  : Store :=
  let all :=
    ratings st
    ++ [Rating.mk (nextId st) taskId sub ratedId rating comment now] in
  let fixed :=
    Number.toFixed2
      (avgRating
         (List.filter (fun r => bool_decide (Rating.ratedId r = ratedId)) all)) in
  mkStore
    (match fixed with
     | Some n =>
         if (Z.abs n <? 1000)%Z
         then map (fun u => if bool_decide (User.id u = ratedId)
                            then User.mk (User.id u) n else u) (users st)
         else users st
     | None => users st
     end)
    (tasks st) (conversations st) (transactions st) all (S (nextId st)).



(** ** Sample data: a task of alice's in community 7, and its helper bob *)

Module Sample.
Definition people : list User.t :=
  [User.mk "alice" 0; User.mk "bob" 0; User.mk "carol" 0].

Definition task (status : option string) (helper : option UserId)
  : Task.t :=
  Task.mk 0 "Move a sofa" "Two flights of stairs" "moving" "15000.00"
          None None status "alice" helper 7 100 100.

Definition store_with (t : Task.t) : Store :=
  mkStore people [t] [] [] [] 1.

(** Scenario 2 and 3 of the specification: create, both parties request
    the start, both confirm. *)
Definition handshake
  : list (list WsClient * Timestamp * UserId * Request) :=
  [([], 110%Z, "alice", PostTransaction 0);
   ([], 120%Z, "bob", PatchStartRequest 1 0);
   ([], 130%Z, "alice", PatchStartRequest 1 0);
   ([], 140%Z, "alice", PatchConfirm 1 0);
   ([], 150%Z, "bob", PatchConfirm 1 0)].
End Sample.

(** * The rest of the storage layer and of the routes

    The tables the slice above leaves out are added around its store.  The
    statements of this part check the foreign keys [shared/schema.ts]
    declares: an insert throws when a row it references is missing, a delete
    throws when a row it removes is still referenced.  [ORDER BY] is a merge
    sort on the column; rows with equal keys come in the order the sort
    leaves them. *)

Module Community.
(** [memberCount] is a nullable column with default 0 that only
    [joinCommunity] writes. *)
Record t := mk {
  id : Uuid;
  name : string;
  description : option string;
  verificationMethod : string;
  verificationData : option string;
  showRealNames : option bool;
  showAddresses : option bool;
  memberCount : nat;
  creatorId : option UserId;
  createdAt : Timestamp
}.
End Community.

(** [InsertCommunity], after [insertCommunitySchema.parse]. *)
Module InsertCommunity.
Record t := mk {
  name : string;
  description : option string;
  verificationMethod : string;
  verificationData : option string;
  showRealNames : field bool;
  showAddresses : field bool;
  creatorId : option UserId
}.
End InsertCommunity.

Module CommunityMember.
Record t := mk {
  id : Uuid;
  userId : UserId;
  communityId : Uuid;
  joinedAt : Timestamp
}.
End CommunityMember.

Module Message.
Record t := mk {
  id : Uuid;
  content : string;
  senderId : UserId;
  taskId : option Uuid;
  conversationId : option Uuid;
  messageType : option string;
  createdAt : Timestamp
}.
End Message.

(** [InsertMessage], after [insertMessageSchema.parse]. *)
Module InsertMessage.
Record t := mk {
  content : string;
  senderId : UserId;
  taskId : option Uuid;
  conversationId : option Uuid;
  messageType : field string
}.
End InsertMessage.

(** [InsertTask], after [insertTaskSchema.parse]. *)
Module InsertTask.
Record t := mk {
  title : string;
  description : string;
  category : string;
  reward : string;
  timeEstimate : option string;
  location : option string;
  authorId : UserId;
  communityId : Uuid
}.
End InsertTask.

(** [Task & { author: User; helper?: User }]. *)
Module TaskWithUsers.
Record t := mk {
  task : Task.t;
  author : option User.t;
  helper : option User.t
}.
End TaskWithUsers.

(** [Message & { sender: User }]. *)
Module MessageWithSender.
Record t := mk {
  message : Message.t;
  sender : User.t
}.
End MessageWithSender.

(** One entry of [GET /api/conversations]. *)
Module ConversationView.
Record t := mk {
  conversation : Conversation.t;
  task : option Task.t;
  author : option User.t;
  participant : option User.t;
  lastMessage : option Message.t
}.
End ConversationView.

(** One entry of [GET /api/chats]: a task with its people, its last
    message and, when it comes from a conversation, the conversation id. *)
Module Chat.
Record t := mk {
  task : Task.t;
  author : option User.t;
  helper : option User.t;
  lastMessage : option Message.t;
  conversationId : option Uuid
}.
Definition id (c : t) : Uuid := Task.id (task c).
End Chat.

(** ** The whole database *)

Record Database := mkDatabase {
  core : Store;
  communities : list Community.t;
  communityMembers : list CommunityMember.t;
  messages : list Message.t
}.

Definition Query (A : Type) : Type := Database -> option A * Database.

Definition qret {A} (a : A) : Query A := fun d => (Some a, d).
Definition qthrow {A} : Query A := fun d => (None, d).
Definition qbind {A B} (m : Query A) (k : A -> Query B) : Query B :=
  fun d =>
    match m d with
    | (Some a, d') => k a d'
    | (None, d') => (None, d')
    end.

Notation "'let+' x ':=' m 'in' k" := (qbind m (fun x => k))
  (at level 10, x name, m at level 100, k at level 200).
Notation "'run' m 'then' k" := (qbind m (fun _ => k))
  (at level 10, m at level 100, k at level 200).

(** A storage call of the slice above, run on the whole database. *)
Definition lift {A} (m : DB A) : Query A :=
  fun d =>
    let '(a, st) := m (core d) in
    (a, mkDatabase st (communities d) (communityMembers d) (messages d)).

(** A table: how to read its rows and how to write them back. *)
Record Table (A : Type) := mkTable {
  rows : Database -> list A;
  put : list A -> Database -> Database
}.
Arguments mkTable {A} _ _.
Arguments rows {A} _ _.
Arguments put {A} _ _ _.

Definition in_core {A} (get : Store -> list A) (set : list A -> DB unit)
  : Table A :=
  mkTable (fun d => get (core d))
          (fun l d => mkDatabase (set l (core d)).2 (communities d)
                                 (communityMembers d) (messages d)).

Definition users_ : Table User.t := in_core users set_users.
Definition tasks_ : Table Task.t := in_core tasks set_tasks.
Definition conversations_ : Table Conversation.t :=
  in_core conversations set_conversations.
Definition transactions_ : Table Transaction.t :=
  in_core transactions set_transactions.
Definition ratings_ : Table Rating.t := in_core ratings set_ratings.
Definition communities_ : Table Community.t :=
  mkTable communities
          (fun l d => mkDatabase (core d) l (communityMembers d) (messages d)).
Definition communityMembers_ : Table CommunityMember.t :=
  mkTable communityMembers
          (fun l d => mkDatabase (core d) (communities d) l (messages d)).
Definition messages_ : Table Message.t :=
  mkTable messages
          (fun l d => mkDatabase (core d) (communities d) (communityMembers d) l).

Definition from {A} (T : Table A) (where_ : A -> bool) : Query (list A) :=
  fun d => (Some (List.filter where_ (rows T d)), d).

(** [INSERT]; [references_ok] is the foreign-key check of the new row. *)
Definition insert_into {A} (T : Table A) (references_ok : Database -> bool)
    (row : A) : Query unit :=
  fun d =>
    if references_ok d then (Some tt, put T (rows T d ++ [row]) d)
    else (None, d).

Definition update_where {A} (T : Table A) (where_ : A -> bool)
    (set : A -> option A) : Query (list A) :=
  fun d =>
    match update_rows where_ set (rows T d) with
    | None => (None, d)
    | Some (rows', returning) => (Some returning, put T rows' d)
    end.

(** [DELETE]; [referenced d r] says that a row of another table points to
    [r], in which case the statement throws and removes nothing. *)
Definition delete_from {A} (T : Table A) (where_ : A -> bool)
    (referenced : Database -> A -> bool) : Query unit :=
  fun d =>
    if existsb (fun r => where_ r && referenced d r) (rows T d)
    then (None, d)
    else (Some tt, put T (List.filter (fun r => negb (where_ r)) (rows T d)) d).

(** [for (const x of xs) { await body(x) }] *)
Fixpoint for_each {A} (xs : list A) (body : A -> Query unit) : Query unit :=
  match xs with
  | [] => qret tt
  | x :: rest => run body x then for_each rest body
  end.

(** [ORDER BY key] and [ORDER BY key DESC] on a timestamp column. *)
Definition earlier {A} (key : A -> Timestamp) (a b : A) : Prop :=
  (key a <= key b)%Z.
Definition later {A} (key : A -> Timestamp) (a b : A) : Prop :=
  (key b <= key a)%Z.

#[global] Instance earlier_dec {A} (key : A -> Timestamp)
  : RelDecision (earlier key) :=
  fun a b => decide (key a <= key b)%Z.
#[global] Instance later_dec {A} (key : A -> Timestamp)
  : RelDecision (later key) :=
  fun a b => decide (key b <= key a)%Z.

Definition order_by {A} (key : A -> Timestamp) (l : list A) : list A :=
  merge_sort (earlier key) l.
Definition order_by_desc {A} (key : A -> Timestamp) (l : list A) : list A :=
  merge_sort (later key) l.

(** The foreign keys of the schema, as seen from the referenced row. *)
Definition user_exists (d : Database) (id : UserId) : bool :=
  existsb (fun u => bool_decide (User.id u = id)) (users (core d)).
Definition community_exists (d : Database) (id : Uuid) : bool :=
  existsb (fun c => bool_decide (Community.id c = id)) (communities d).
Definition task_exists (d : Database) (id : Uuid) : bool :=
  existsb (fun t => bool_decide (Task.id t = id)) (tasks (core d)).
Definition conversation_exists (d : Database) (id : Uuid) : bool :=
  existsb (fun c => bool_decide (Conversation.id c = id))
          (conversations (core d)).

(** A nullable reference is checked only when it is set. *)
Definition if_set {K} (exists_ : K -> bool) (ref : option K) : bool :=
  match ref with
  | Some k => exists_ k
  | None => true
  end.

Definition community_referenced (d : Database) (c : Community.t) : bool :=
  existsb (fun m => bool_decide (CommunityMember.communityId m = Community.id c))
          (communityMembers d)
  || existsb (fun t => bool_decide (Task.communityId t = Community.id c))
             (tasks (core d)).

Definition task_referenced (d : Database) (t : Task.t) : bool :=
  existsb (fun m => bool_decide (Message.taskId m = Some (Task.id t)))
          (messages d)
  || existsb (fun c => bool_decide (Conversation.taskId c = Task.id t))
             (conversations (core d))
  || existsb (fun x => bool_decide (Transaction.taskId x = Task.id t))
             (transactions (core d))
  || existsb (fun r => bool_decide (Rating.taskId r = Task.id t))
             (ratings (core d)).

Definition conversation_referenced (d : Database) (c : Conversation.t)
  : bool :=
  existsb (fun m => bool_decide (Message.conversationId m
                                 = Some (Conversation.id c)))
          (messages d).

Definition unreferenced {A} (d : Database) (r : A) : bool := false.

(** ** server/storage.ts: the remaining calls *)

Definition getUser (id : UserId) : Query (option User.t) :=
  let+ rows := from users_ (fun u => bool_decide (User.id u = id)) in
  qret (head rows).

Definition isCommunityMember (userId : UserId) (communityId : Uuid)
  : Query bool :=
  let+ rows :=
    from communityMembers_
      (fun m => bool_decide (CommunityMember.userId m = userId)
                && bool_decide (CommunityMember.communityId m = communityId)) in
  qret (bool_decide (is_Some (head rows))).

Definition getCommunities : Query (list Community.t) :=
  let+ rows := from communities_ (fun _ => true) in
  qret (order_by_desc Community.createdAt rows).

(** A column with a default, written from a key that may be missing. *)
Definition or_default {A} (f : field A) (default_ : A) : option A :=
  match f with
  | absent => Some default_
  | null => None
  | value a => Some a
  end.

Definition createCommunity (now : Timestamp) (community : InsertCommunity.t)
  : Query Community.t :=
  let+ id := lift gen_random_uuid in
  let newCommunity :=
    Community.mk id
      (InsertCommunity.name community)
      (InsertCommunity.description community)
      (InsertCommunity.verificationMethod community)
      (InsertCommunity.verificationData community)
      (or_default (InsertCommunity.showRealNames community) false)
      (or_default (InsertCommunity.showAddresses community) false)
      0 (InsertCommunity.creatorId community) now in
  run insert_into communities_
        (fun d => if_set (user_exists d) (InsertCommunity.creatorId community))
        newCommunity then
  qret newCommunity.

Definition setMemberCount (n : nat) (c : Community.t) : Community.t :=
  Community.mk (Community.id c) (Community.name c) (Community.description c)
    (Community.verificationMethod c) (Community.verificationData c)
    (Community.showRealNames c) (Community.showAddresses c) n
    (Community.creatorId c) (Community.createdAt c).

Definition joinCommunity (now : Timestamp) (userId : UserId)
    (communityId : Uuid) : Query CommunityMember.t :=
  let+ id := lift gen_random_uuid in
  let membership := CommunityMember.mk id userId communityId now in
  run insert_into communityMembers_
        (fun d => user_exists d userId && community_exists d communityId)
        membership then
  let+ count :=
    from communityMembers_
      (fun m => bool_decide (CommunityMember.communityId m = communityId)) in
  run update_where communities_
        (fun c => bool_decide (Community.id c = communityId))
        (fun c => Some (setMemberCount (length count) c)) then
  qret membership.

(** [communityMembers INNER JOIN communities ON communityId = id WHERE
    userId = ...], read membership by membership. *)
Definition getUserCommunities (userId : UserId) : Query (list Community.t) :=
  let+ memberships :=
    from communityMembers_
      (fun m => bool_decide (CommunityMember.userId m = userId)) in
  fun d =>
    (Some (flat_map
             (fun m => List.filter
                         (fun c => bool_decide (CommunityMember.communityId m
                                                = Community.id c))
                         (communities d))
             memberships), d).

Definition deleteCommunity (id : Uuid) : Query unit :=
  run delete_from communityMembers_
        (fun m => bool_decide (CommunityMember.communityId m = id))
        unreferenced then
  let+ communityTasks :=
    from tasks_ (fun t => bool_decide (Task.communityId t = id)) in
  run for_each communityTasks (fun task =>
        let+ taskConversations :=
          from conversations_
            (fun c => bool_decide (Conversation.taskId c = Task.id task)) in
        run for_each taskConversations (fun conversation =>
              delete_from messages_
                (fun m => bool_decide (Message.conversationId m
                                       = Some (Conversation.id conversation)))
                unreferenced) then
        run delete_from messages_
              (fun m => bool_decide (Message.taskId m = Some (Task.id task)))
              unreferenced then
        run delete_from conversations_
              (fun c => bool_decide (Conversation.taskId c = Task.id task))
              conversation_referenced then
        run delete_from transactions_
              (fun x => bool_decide (Transaction.taskId x = Task.id task))
              unreferenced then
        delete_from ratings_
          (fun r => bool_decide (Rating.taskId r = Task.id task))
          unreferenced) then
  run delete_from tasks_
        (fun t => bool_decide (Task.communityId t = id))
        task_referenced then
  delete_from communities_
    (fun c => bool_decide (Community.id c = id))
    community_referenced.

(** [ne(column, s)] on a nullable column: a null never passes. *)
Definition ne (column : option string) (s : string) : bool :=
  match column with
  | Some v => negb (bool_decide (v = s))
  | None => false
  end.

(** [task.helperId ? ... : undefined] and the two look-ups in [users]. *)
Definition withUsers (d : Database) (task : Task.t) : TaskWithUsers.t :=
  TaskWithUsers.mk task
    (head (List.filter (fun u => bool_decide (User.id u = Task.authorId task))
                       (users (core d))))
    (match Task.helperId task with
     | Some helperId =>
         if bool_decide (helperId = "") then None
         else head (List.filter (fun u => bool_decide (User.id u = helperId))
                                (users (core d)))
     | None => None
     end).

Definition getTasks (communityId : Uuid) : Query (list TaskWithUsers.t) :=
  let+ rows :=
    from tasks_
      (fun t => bool_decide (Task.communityId t = communityId)
                && ne (Task.status t) "cancelled"
                && ne (Task.status t) "completed") in
  let tasksList := order_by_desc Task.createdAt rows in
  fun d => (Some (map (withUsers d) tasksList), d).

(** [getTask] with the two joined profiles. *)
Definition getTaskWithUsers (id : Uuid) : Query (option TaskWithUsers.t) :=
  let+ task := lift (getTask id) in
  fun d => (Some (withUsers d <$> task), d).

Definition createTask (now : Timestamp) (task : InsertTask.t) : Query Task.t :=
  let+ id := lift gen_random_uuid in
  let newTask :=
    Task.mk id (InsertTask.title task) (InsertTask.description task)
      (InsertTask.category task) (InsertTask.reward task)
      (InsertTask.timeEstimate task) (InsertTask.location task)
      (Some "open") (InsertTask.authorId task) None
      (InsertTask.communityId task) now now in
  run insert_into tasks_
        (fun d => user_exists d (InsertTask.authorId task)
                  && community_exists d (InsertTask.communityId task))
        newTask then
  qret newTask.

(** [messages INNER JOIN users ON senderId = users.id]. *)
Definition joinSender (d : Database) (ms : list Message.t)
  : list MessageWithSender.t :=
  flat_map
    (fun m => map (MessageWithSender.mk m)
                  (List.filter (fun u => bool_decide (Message.senderId m
                                                      = User.id u))
                               (users (core d))))
    ms.

Definition getTaskMessages (taskId : Uuid)
  : Query (list MessageWithSender.t) :=
  let+ rows :=
    from messages_ (fun m => bool_decide (Message.taskId m = Some taskId)) in
  fun d =>
    (Some (order_by (fun ms => Message.createdAt (MessageWithSender.message ms))
                    (joinSender d rows)), d).

Definition getConversationMessages (conversationId : Uuid)
  : Query (list MessageWithSender.t) :=
  let+ rows :=
    from messages_
      (fun m => bool_decide (Message.conversationId m = Some conversationId)) in
  fun d =>
    (Some (order_by (fun ms => Message.createdAt (MessageWithSender.message ms))
                    (joinSender d rows)), d).

Definition createMessage (now : Timestamp) (message : InsertMessage.t)
  : Query Message.t :=
  let+ id := lift gen_random_uuid in
  let newMessage :=
    Message.mk id (InsertMessage.content message)
      (InsertMessage.senderId message) (InsertMessage.taskId message)
      (InsertMessage.conversationId message)
      (or_default (InsertMessage.messageType message) "text") now in
  run insert_into messages_
        (fun d => user_exists d (InsertMessage.senderId message)
                  && if_set (task_exists d) (InsertMessage.taskId message)
                  && if_set (conversation_exists d)
                            (InsertMessage.conversationId message))
        newMessage then
  qret newMessage.

Definition getUserRatings (userId : UserId) : Query (list Rating.t) :=
  let+ rows := from ratings_ (fun r => bool_decide (Rating.ratedId r = userId)) in
  qret (order_by_desc Rating.createdAt rows).

Definition getTaskRating (taskId : Uuid) (raterId : UserId)
  : Query (option Rating.t) :=
  let+ rows :=
    from ratings_ (fun r => bool_decide (Rating.taskId r = taskId)
                            && bool_decide (Rating.raterId r = raterId)) in
  qret (head rows).

(** [.orderBy(desc(messages.createdAt)).limit(1)] and [const [lastMessage]]. *)
Definition lastMessageOf (d : Database) (where_ : Message.t -> bool)
  : option Message.t :=
  head (order_by_desc Message.createdAt (List.filter where_ (messages d))).

(** [GROUP BY tasks.id]: one row for each id, the first one met. *)
Fixpoint group_by_id (seen : list Uuid) (ts : list Task.t) : list Task.t :=
  match ts with
  | [] => []
  | t :: rest =>
      if bool_decide (Task.id t ∈ seen) then group_by_id seen rest
      else t :: group_by_id (Task.id t :: seen) rest
  end.

(** [truthy] for a nullable string column. *)
Definition is_truthy (v : option string) : bool :=
  match v with
  | Some s => negb (bool_decide (s = ""))
  | None => false
  end.

Definition getUserChats (userId : UserId) : Query (list Chat.t) :=
  fun d =>
    let joined :=
      List.filter
        (fun t => (bool_decide (Task.authorId t = userId)
                   || bool_decide (Task.helperId t = Some userId))
                  && existsb (fun m => bool_decide (Message.taskId m
                                                    = Some (Task.id t)))
                             (messages d))
        (tasks (core d)) in
    let userTasks := order_by_desc Task.updatedAt (group_by_id [] joined) in
    (Some (map (fun task =>
                  let w := withUsers d task in
                  Chat.mk task (TaskWithUsers.author w) (TaskWithUsers.helper w)
                    (lastMessageOf d
                       (fun m => bool_decide (Message.taskId m
                                              = Some (Task.id task))))
                    None)
               userTasks), d).

Definition getUserConversations (userId : UserId)
  : Query (list ConversationView.t) :=
  let+ userConversations :=
    from conversations_
      (fun c => bool_decide (Conversation.authorId c = userId)
                || bool_decide (Conversation.participantId c = userId)) in
  fun d =>
    (Some (map (fun conversation =>
                  ConversationView.mk conversation
                    (head (List.filter
                             (fun t => bool_decide
                                         (Task.id t
                                          = Conversation.taskId conversation))
                             (tasks (core d))))
                    (head (List.filter
                             (fun u => bool_decide
                                         (User.id u
                                          = Conversation.authorId conversation))
                             (users (core d))))
                    (head (List.filter
                             (fun u => bool_decide
                                         (User.id u
                                          = Conversation.participantId
                                              conversation))
                             (users (core d))))
                    (lastMessageOf d
                       (fun m => bool_decide
                                   (Message.conversationId m
                                    = Some (Conversation.id conversation)))))
               userConversations), d).

(** ** server/routes.ts: the remaining handlers *)

Inductive Body :=
| BCore (body : Json)
| BUser (user : option User.t)
| BCommunity (community : Community.t)
| BCommunities (communities : list Community.t)
| BMembership (membership : CommunityMember.t)
| BDeleted
| BTasks (tasks : list TaskWithUsers.t)
| BTask (task : TaskWithUsers.t)
| BNewTask (task : Task.t)
| BMessages (messages : list MessageWithSender.t)
| BMessage (message : Message.t)
| BRating (rating : option Rating.t)
| BTransaction (transaction : option Transaction.t)
| BConversations (conversations : list ConversationView.t)
| BChats (chats : list Chat.t).

Inductive Answer :=
| Sent (body : Body)
| Refused (code : nat).

(** What goes over a socket. *)
Inductive Frame :=
| StartRequestFrame (ev : Event.t)
| NewTaskMessage (taskId : Uuid) (message : Message.t)
| NewConversationMessage (conversationId : Uuid) (message : Message.t).

Definition broadcast_frame (clients : list WsClient) (f : Frame)
  : list (WsClient * Frame) :=
  map (fun client => (client, f))
      (List.filter (fun client => bool_decide (readyState client = OPEN)) clients).

Record Outcome := mkOutcome {
  returned : Answer;
  frames : list (WsClient * Frame)
}.

Definition reply (a : Answer) : Query Outcome := qret (mkOutcome a []).

(** [try { ... } catch (error) { res.status(500)... }]. *)
Definition endpoint (handler : Query Outcome) (d : Database)
  : Outcome * Database :=
  match handler d with
  | (Some o, d') => (o, d')
  | (None, d') => (mkOutcome (Refused 500) [], d')
  end.

(** A request of the slice above, served on the whole database. *)
Definition serve_core (clients : list WsClient) (now : Timestamp)
    (sub : UserId) (req : Request) (d : Database) : Outcome * Database :=
  let '(r, st) := handle clients now sub req (core d) in
  (mkOutcome
     (match response r with
      | Ok body => Sent (BCore body)
      | Fail code => Refused code
      end)
     (map (fun '(client, ev) => (client, StartRequestFrame ev)) (sent r)),
   mkDatabase st (communities d) (communityMembers d) (messages d)).

(** [app.get('/api/auth/user')]. *)
Definition get_auth_user (sub : UserId) : Query Outcome :=
  let+ user := getUser sub in
  reply (Sent (BUser user)).

(** [app.get('/api/communities')]. *)
Definition get_communities : Query Outcome :=
  let+ communities := getCommunities in
  reply (Sent (BCommunities communities)).

(** The body of [POST /api/communities], before [creatorId] is added. *)
Module CommunityBody.
Record t := mk {
  name : string;
  description : option string;
  verificationMethod : string;
  verificationData : option string;
  showRealNames : field bool;
  showAddresses : field bool
}.
End CommunityBody.

(** [app.post('/api/communities')]. *)
Definition post_community (now : Timestamp) (sub : UserId)
    (body : CommunityBody.t) : Query Outcome :=
  let communityData :=
    InsertCommunity.mk (CommunityBody.name body)
      (CommunityBody.description body)
      (CommunityBody.verificationMethod body)
      (CommunityBody.verificationData body)
      (CommunityBody.showRealNames body)
      (CommunityBody.showAddresses body) (Some sub) in
  let+ community := createCommunity now communityData in
  run joinCommunity now sub (Community.id community) then
  reply (Sent (BCommunity community)).

(** [app.post('/api/communities/:id/join')]. *)
Definition post_join (now : Timestamp) (sub : UserId) (id : Uuid)
  : Query Outcome :=
  let+ membership := joinCommunity now sub id in
  reply (Sent (BMembership membership)).

(** [app.delete('/api/communities/:id')]. *)
Definition delete_community (sub : UserId) (id : Uuid) : Query Outcome :=
  let+ communities := getCommunities in
  match List.find (fun c => bool_decide (Community.id c = id)) communities with
  | None => reply (Refused 404)
  | Some community =>
      if negb (bool_decide (Community.creatorId community = Some sub))
      then reply (Refused 403)
      else
        run deleteCommunity id then
        reply (Sent BDeleted)
  end.

(** [app.get('/api/user/communities')]. *)
Definition get_user_communities (sub : UserId) : Query Outcome :=
  let+ communities := getUserCommunities sub in
  reply (Sent (BCommunities communities)).

(** [app.get('/api/communities/:id/tasks')]. *)
Definition get_community_tasks (sub : UserId) (id : Uuid) : Query Outcome :=
  let+ isMember := isCommunityMember sub id in
  if negb isMember then reply (Refused 403)
  else
    let+ tasks := getTasks id in
    reply (Sent (BTasks tasks)).

(** [app.get('/api/tasks/:id')]. *)
Definition get_task (sub : UserId) (id : Uuid) : Query Outcome :=
  let+ task := getTaskWithUsers id in
  match task with
  | None => reply (Refused 404)
  | Some task =>
      let+ isMember :=
        isCommunityMember sub (Task.communityId (TaskWithUsers.task task)) in
      if negb isMember then reply (Refused 403)
      else reply (Sent (BTask task))
  end.

(** [app.post('/api/tasks')]: the body is an [InsertTask] whose [authorId]
    the handler overwrites with the caller. *)
Definition post_task (now : Timestamp) (sub : UserId) (body : InsertTask.t)
  : Query Outcome :=
  let+ isMember := isCommunityMember sub (InsertTask.communityId body) in
  if negb isMember then reply (Refused 403)
  else
    let taskData :=
      InsertTask.mk (InsertTask.title body) (InsertTask.description body)
        (InsertTask.category body) (InsertTask.reward body)
        (InsertTask.timeEstimate body) (InsertTask.location body)
        sub (InsertTask.communityId body) in
    let+ task := createTask now taskData in
    reply (Sent (BNewTask task)).

(** [app.get('/api/conversations')]. *)
Definition get_conversations (sub : UserId) : Query Outcome :=
  let+ conversations := getUserConversations sub in
  reply (Sent (BConversations conversations)).

(** [app.get('/api/conversations/:id/messages')]. *)
Definition get_conversation_messages (id : Uuid) : Query Outcome :=
  let+ messages := getConversationMessages id in
  reply (Sent (BMessages messages)).

(** [app.post('/api/conversations/:id/messages')]: the body is an
    [InsertMessage] whose [conversationId] and [senderId] the handler
    overwrites. *)
Definition post_conversation_message (clients : list WsClient)
    (now : Timestamp) (sub : UserId) (id : Uuid) (body : InsertMessage.t)
  : Query Outcome :=
  let messageData :=
    InsertMessage.mk (InsertMessage.content body) sub
      (InsertMessage.taskId body) (Some id)
      (InsertMessage.messageType body) in
  let+ message := createMessage now messageData in
  qret (mkOutcome (Sent (BMessage message))
          (broadcast_frame clients (NewConversationMessage id message))).

(** [app.get('/api/tasks/:id/messages')]. *)
Definition get_task_messages (id : Uuid) : Query Outcome :=
  let+ messages := getTaskMessages id in
  reply (Sent (BMessages messages)).

(** [app.post('/api/tasks/:id/messages')]: the handler overwrites [taskId]
    and [senderId]. *)
Definition post_task_message (clients : list WsClient) (now : Timestamp)
    (sub : UserId) (id : Uuid) (body : InsertMessage.t) : Query Outcome :=
  let messageData :=
    InsertMessage.mk (InsertMessage.content body) sub (Some id)
      (InsertMessage.conversationId body)
      (InsertMessage.messageType body) in
  let+ message := createMessage now messageData in
  qret (mkOutcome (Sent (BMessage message))
          (broadcast_frame clients (NewTaskMessage id message))).

(** [app.get('/api/tasks/:id/transaction')]. *)
Definition get_transaction (id : Uuid) : Query Outcome :=
  let+ transaction := lift (getTaskTransaction id) in
  reply (Sent (BTransaction transaction)).

(** [app.get('/api/tasks/:taskId/rating')]. *)
Definition get_task_rating (sub : UserId) (taskId : Uuid) : Query Outcome :=
  let+ rating := getTaskRating taskId sub in
  reply (Sent (BRating rating)).

(** A JavaScript [Map] keyed by task id: [set] overwrites the value of a key
    that is present, where it stands, and appends a new key. *)
Fixpoint map_set (k : Uuid) (v : Chat.t) (m : list (Uuid * Chat.t))
  : list (Uuid * Chat.t) :=
  match m with
  | [] => [(k, v)]
  | (k', v') :: rest =>
      if bool_decide (k' = k) then (k, v) :: rest
      else (k', v') :: map_set k v rest
  end.

(** [chats.forEach(chat => { chatMap.set(chat.id, chat) })] *)
Definition set_all (chats : list Chat.t) (m : list (Uuid * Chat.t))
  : list (Uuid * Chat.t) :=
  fold_left (fun m chat => map_set (Chat.id chat) chat m) chats m.

(** The conversion of one conversation into a chat; reading [authorId] off
    a task that is missing throws. *)
Definition conversationChat (sub : UserId) (conv : ConversationView.t)
  : option Chat.t :=
  task ← ConversationView.task conv;
  Some (Chat.mk task (ConversationView.author conv)
          (if bool_decide (Task.authorId task = sub)
           then ConversationView.participant conv
           else ConversationView.author conv)
          (ConversationView.lastMessage conv)
          (Some (Conversation.id (ConversationView.conversation conv)))).

(** The merge of the two lists in [chatMap], and [Array.from(values())]. *)
Definition mergeChats (taskChats conversationChats : list Chat.t)
  : list Chat.t :=
  map snd (set_all conversationChats (set_all taskChats [])).

(** [app.get('/api/chats')]. *)
Definition get_chats (sub : UserId) : Query Outcome :=
  let+ taskChats := getUserChats sub in
  let+ conversations := getUserConversations sub in
  match mapM (conversationChat sub) conversations with
  | None => qthrow
  | Some conversationChats =>
      reply (Sent (BChats (mergeChats taskChats conversationChats)))
  end.

(** Every request the server answers. *)
Inductive Call :=
| Core (req : Request)
| GetAuthUser
| GetCommunities
| PostCommunity (body : CommunityBody.t)
| PostJoin (id : Uuid)
| DeleteCommunity (id : Uuid)
| GetUserCommunities
| GetCommunityTasks (id : Uuid)
| GetTask (id : Uuid)
| PostTask (body : InsertTask.t)
| GetConversations
| GetConversationMessages (id : Uuid)
| PostConversationMessage (id : Uuid) (body : InsertMessage.t)
| GetTaskMessages (id : Uuid)
| PostTaskMessage (id : Uuid) (body : InsertMessage.t)
| GetTransaction (id : Uuid)
| GetTaskRating (taskId : Uuid)
| GetChats.

Definition answer_call (clients : list WsClient) (now : Timestamp)
    (sub : UserId) (call : Call) : Database -> Outcome * Database :=
  match call with
  | Core req => serve_core clients now sub req
  | GetAuthUser => endpoint (get_auth_user sub)
  | GetCommunities => endpoint get_communities
  | PostCommunity body => endpoint (post_community now sub body)
  | PostJoin id => endpoint (post_join now sub id)
  | DeleteCommunity id => endpoint (delete_community sub id)
  | GetUserCommunities => endpoint (get_user_communities sub)
  | GetCommunityTasks id => endpoint (get_community_tasks sub id)
  | GetTask id => endpoint (get_task sub id)
  | PostTask body => endpoint (post_task now sub body)
  | GetConversations => endpoint (get_conversations sub)
  | GetConversationMessages id => endpoint (get_conversation_messages id)
  | PostConversationMessage id body =>
      endpoint (post_conversation_message clients now sub id body)
  | GetTaskMessages id => endpoint (get_task_messages id)
  | PostTaskMessage id body =>
      endpoint (post_task_message clients now sub id body)
  | GetTransaction id => endpoint (get_transaction id)
  | GetTaskRating taskId => endpoint (get_task_rating sub taskId)
  | GetChats => endpoint (get_chats sub)
  end.

(** ** Further views used in the statements *)

(** A transaction row after some requests: the same transaction, with no
    flag taken back. *)
Definition flags_grow (x x' : Transaction.t) : Prop :=
  Transaction.id x' = Transaction.id x
  /\ Transaction.taskId x' = Transaction.taskId x
  /\ Transaction.payerId x' = Transaction.payerId x
  /\ Transaction.payeeId x' = Transaction.payeeId x
  /\ Transaction.amount x' = Transaction.amount x
  /\ (Transaction.payerStartRequested x = true ->
      Transaction.payerStartRequested x' = true)
  /\ (Transaction.payeeStartRequested x = true ->
      Transaction.payeeStartRequested x' = true)
  /\ (Transaction.payerConfirmed x = true ->
      Transaction.payerConfirmed x' = true)
  /\ (Transaction.payeeConfirmed x = true ->
      Transaction.payeeConfirmed x' = true).

(** What [getOrCreateConversation] looks a conversation up by. *)
Definition conversation_key (c : Conversation.t) : Uuid * UserId * UserId :=
  (Conversation.taskId c, Conversation.authorId c,
   Conversation.participantId c).

(** What [deleteCommunity] removes.  [ks] are the ids of the tasks of the
    community; a message goes with them when its [taskId] is one of them or
    its [conversationId] is a conversation of one of them. *)
Definition about_tasks (ks : list Uuid) (d : Database) (m : Message.t) : bool :=
  existsb (fun k => bool_decide (Message.taskId m = Some k)) ks
  || existsb (fun c => bool_decide (Conversation.taskId c ∈ ks)
                       && bool_decide (Message.conversationId m
                                       = Some (Conversation.id c)))
             (conversations (core d)).

Definition without_tasks (ks : list Uuid) (d : Database) : Database :=
  mkDatabase
    (mkStore (users (core d)) (tasks (core d))
       (List.filter (fun c => negb (bool_decide (Conversation.taskId c ∈ ks)))
                    (conversations (core d)))
       (List.filter (fun x => negb (bool_decide (Transaction.taskId x ∈ ks)))
                    (transactions (core d)))
       (List.filter (fun r => negb (bool_decide (Rating.taskId r ∈ ks)))
                    (ratings (core d)))
       (nextId (core d)))
    (communities d) (communityMembers d)
    (List.filter (fun m => negb (about_tasks ks d m)) (messages d)).

Definition tasks_of (id : Uuid) (d : Database) : list Uuid :=
  map Task.id
      (List.filter (fun t => bool_decide (Task.communityId t = id))
                   (tasks (core d))).

Definition purged (id : Uuid) (d : Database) : Database :=
  let d' := without_tasks (tasks_of id d) d in
  mkDatabase
    (mkStore (users (core d'))
       (List.filter (fun t => negb (bool_decide (Task.communityId t = id)))
                    (tasks (core d')))
       (conversations (core d')) (transactions (core d')) (ratings (core d'))
       (nextId (core d')))
    (List.filter (fun c => negb (bool_decide (Community.id c = id)))
                 (communities d'))
    (List.filter (fun m => negb (bool_decide (CommunityMember.communityId m = id)))
                 (communityMembers d'))
    (messages d').

(** The database after [gen_random_uuid()] was evaluated once. *)
Definition bumped (d : Database) : Database := (lift gen_random_uuid d).2.

(** The rows of [communityMembers] of one community. *)
Definition membersOf (d : Database) (communityId : Uuid)
  : list CommunityMember.t :=
  List.filter (fun m => bool_decide (CommunityMember.communityId m = communityId))
              (communityMembers d).

(** [memberCount] is up to date in every row of [communities]. *)
Definition counts_ok (d : Database) : Prop :=
  forall c, c ∈ communities d ->
    Community.memberCount c = length (membersOf d (Community.id c)).

(** The database after a successful [joinCommunity]. *)
Definition joined (now : Timestamp) (userId : UserId) (communityId : Uuid)
    (d : Database) : Database :=
  let membership :=
    CommunityMember.mk (nextId (core d)) userId communityId now in
  let members := communityMembers d ++ [membership] in
  mkDatabase (core (bumped d))
    (map (fun c => if bool_decide (Community.id c = communityId)
                   then setMemberCount
                          (length (List.filter
                                     (fun m => bool_decide
                                                 (CommunityMember.communityId m
                                                  = communityId))
                                     members)) c
                   else c)
         (communities d))
    members (messages d).

(** The row [createCommunity] inserts. *)
Definition newCommunity (now : Timestamp) (id : Uuid)
    (community : InsertCommunity.t) : Community.t :=
  Community.mk id
    (InsertCommunity.name community)
    (InsertCommunity.description community)
    (InsertCommunity.verificationMethod community)
    (InsertCommunity.verificationData community)
    (or_default (InsertCommunity.showRealNames community) false)
    (or_default (InsertCommunity.showAddresses community) false)
    0 (InsertCommunity.creatorId community) now.

(** The database after a successful [createCommunity]. *)
Definition founded (now : Timestamp) (community : InsertCommunity.t)
    (d : Database) : Database :=
  mkDatabase (core (bumped d))
    (communities d ++ [newCommunity now (nextId (core d)) community])
    (communityMembers d) (messages d).

(** The row [createTask] inserts. *)
Definition newTask (now : Timestamp) (id : Uuid) (task : InsertTask.t)
  : Task.t :=
  Task.mk id (InsertTask.title task) (InsertTask.description task)
    (InsertTask.category task) (InsertTask.reward task)
    (InsertTask.timeEstimate task) (InsertTask.location task)
    (Some "open") (InsertTask.authorId task) None
    (InsertTask.communityId task) now now.

(** The database with one more row in [tasks] and the next id taken. *)
Definition with_task (t : Task.t) (d : Database) : Database :=
  mkDatabase
    (mkStore (users (core d)) (tasks (core d) ++ [t]) (conversations (core d))
             (transactions (core d)) (ratings (core d)) (S (nextId (core d))))
    (communities d) (communityMembers d) (messages d).

(** The row [createMessage] inserts. *)
Definition newMessage (now : Timestamp) (id : Uuid) (message : InsertMessage.t)
  : Message.t :=
  Message.mk id (InsertMessage.content message)
    (InsertMessage.senderId message) (InsertMessage.taskId message)
    (InsertMessage.conversationId message)
    (or_default (InsertMessage.messageType message) "text") now.

(** The database with one more row in [messages] and the next id taken. *)
Definition with_message (m : Message.t) (d : Database) : Database :=
  mkDatabase (core (bumped d)) (communities d) (communityMembers d)
             (messages d ++ [m]).

(** The calls that only read. *)
Definition reads (call : Call) : bool :=
  match call with
  | Core _ | PostCommunity _ | PostJoin _ | DeleteCommunity _ | PostTask _
  | PostConversationMessage _ _ | PostTaskMessage _ _ => false
  | _ => true
  end.

(** A request of the slice served on the whole database leaves this. *)
Definition core_served (clients : list WsClient) (now : Timestamp)
    (sub : UserId) (req : Request) (d : Database) : Database :=
  mkDatabase (handle clients now sub req (core d)).2
             (communities d) (communityMembers d) (messages d).

(** Every membership, every message and every community points to rows
    that exist. *)
Definition references_ok (d : Database) : Prop :=
  (forall m, m ∈ communityMembers d ->
     user_exists d (CommunityMember.userId m) = true
     /\ community_exists d (CommunityMember.communityId m) = true)
  /\ (forall m, m ∈ messages d ->
        user_exists d (Message.senderId m) = true
        /\ if_set (task_exists d) (Message.taskId m) = true
        /\ if_set (conversation_exists d) (Message.conversationId m) = true)
  /\ (forall c, c ∈ communities d ->
        if_set (user_exists d) (Community.creatorId c) = true).

(** The chat a list holds last for a task id. *)
Definition last_for (k : Uuid) (chats : list Chat.t) : option Chat.t :=
  last (List.filter (fun c => bool_decide (Chat.id c = k)) chats).

(** A [Map] whose values are filed under their own task id. *)
Definition keyed (m : list (Uuid * Chat.t)) : Prop :=
  NoDup (map fst m) /\ forall kv, kv ∈ m -> Chat.id kv.2 = kv.1.

(** [userId] has a row in [communityMembers] for [communityId]. *)
Definition is_member (d : Database) (userId : UserId) (communityId : Uuid)
  : Prop :=
  exists m, m ∈ communityMembers d
            /\ CommunityMember.userId m = userId
            /\ CommunityMember.communityId m = communityId.

(** ** Sample data: community 7 with the task of [Sample], a conversation
    about it and two messages *)

Module Village.
Definition daisy : Community.t :=
  Community.mk 7 "Daisy Court" None "password" (Some "tulip")
               (Some false) (Some false) 2 (Some "alice") 50.

Definition members : list CommunityMember.t :=
  [CommunityMember.mk 8 "alice" 7 50; CommunityMember.mk 9 "bob" 7 60].

Definition talk : Conversation.t :=
  Conversation.mk 10 0 "alice" "bob" None 105.

Definition notes : list Message.t :=
  [Message.mk 11 "Can you come at noon?" "alice" (Some 0) None (Some "text") 106;
   Message.mk 12 "I can." "bob" None (Some 10) (Some "text") 107].

Definition db : Database :=
  mkDatabase
    (mkStore Sample.people [Sample.task (Some "open") None] [talk] [] [] 13)
    [daisy] members notes.



End Village.

(** * Proofs *)

(** ** The database layer *)

Lemma getTask_run id st : getTask id st = (Some (taskById st id), st).
Proof. reflexivity. Qed.

Lemma getTaskTransaction_run taskId st :
  getTaskTransaction taskId st = (Some (transactionOfTask st taskId), st).
Proof. reflexivity. Qed.

Lemma update_rows_total {A} (where_ : A -> bool) (set : A -> option A)
    (f : A -> A) (rows : list A) :
  (forall r, where_ r = true -> set r = Some (f r)) ->
  update_rows where_ set rows
  = Some (map (fun r => if where_ r then f r else r) rows,
          map f (List.filter where_ rows)).
Proof.
  intros Hset. induction rows as [|r rows IH]; simpl; [done|].
  destruct (where_ r) eqn:Hw.
  - rewrite (Hset r Hw). simpl. rewrite IH. reflexivity.
  - rewrite IH. reflexivity.
Qed.

(** Selecting by a key that the update leaves alone commutes with the
    update. *)
Lemma head_filter_map {A} (p : A -> bool) (g : A -> A) (rows : list A) :
  (forall r, p (g r) = p r) ->
  head (List.filter p (map g rows)) = g <$> head (List.filter p rows).
Proof.
  intros Hp. induction rows as [|r rows IH]; simpl; [done|].
  rewrite Hp. destruct (p r); simpl; [done|]. apply IH.
Qed.

Lemma head_filter_elem {A} (p : A -> bool) (rows : list A) (r : A) :
  head (List.filter p rows) = Some r -> r ∈ rows /\ p r = true.
Proof.
  induction rows as [|r0 rows IH]; simpl; [done|].
  destruct (p r0) eqn:Hp; simpl.
  - intros [= ->]. split; [apply list_elem_of_here | done].
  - intros H. destruct (IH H) as [? ?]. split; [by apply list_elem_of_further | done].
Qed.

Lemma setTask_eq now updates t :
  setTask now updates t
  = if null_in_required updates then None else Some (patched now updates t).
Proof.
  destruct updates as [ti de ca re te lo sta au he co].
  unfold setTask, null_in_required, patched; simpl.
  destruct ti, de, ca, re, au, co; reflexivity.
Qed.

Lemma taskById_elem st id t :
  taskById st id = Some t -> t ∈ tasks st /\ Task.id t = id.
Proof.
  intros H. apply head_filter_elem in H as [? Hid].
  split; [done | by apply bool_decide_eq_true in Hid].
Qed.

Lemma updateTask_ok now id updates st :
  null_in_required updates = false ->
  updateTask now id updates st
  = (Some (patched now updates <$> taskById st id),
     tasks_patched now id updates st).
Proof.
  intros Hnn. unfold updateTask, bind, update.
  rewrite (update_rows_total _ _ (patched now updates)).
  2:{ intros r _. by rewrite setTask_eq, Hnn. }
  unfold set_tasks, ret, taskById, tasks_patched; simpl.
  f_equal. f_equal.
  generalize (List.filter (fun t => bool_decide (Task.id t = id)) (tasks st)).
  by intros [|? ?].
Qed.

Lemma updateTask_rejected now id updates st t :
  taskById st id = Some t ->
  null_in_required updates = true ->
  updateTask now id updates st = (None, st).
Proof.
  intros Ht Hnull. unfold updateTask, bind, update.
  assert (update_rows (fun t => bool_decide (Task.id t = id))
            (setTask now updates) (tasks st) = None) as ->; [|done].
  unfold taskById in Ht. induction (tasks st) as [|r rows IH]; simpl in *; [done|].
  destruct (bool_decide (Task.id r = id)); simpl in *.
  - by rewrite setTask_eq, Hnull.
  - by rewrite (IH Ht).
Qed.

Lemma taskById_patched now id updates st id' :
  taskById (tasks_patched now id updates st) id'
  = (fun t => if bool_decide (Task.id t = id)
              then patched now updates t else t) <$> taskById st id'.
Proof.
  unfold taskById, tasks_patched; simpl. apply head_filter_map.
  intros r. by destruct (bool_decide (Task.id r = id)).
Qed.

(** ** The task routes *)

Lemma patch_task_run clients now sub id body st :
  handle clients now sub (PatchTask id body) st
  = match taskById st id with
    | None => (mkReply (Fail 404) [], st)
    | Some task =>
        if truthy (TaskPatch.helperId body)
           && strict_eq (TaskPatch.helperId body) (Task.authorId task)
        then (mkReply (Fail 400) [], st)
        else if negb (bool_decide (Task.authorId task = sub))
                && negb (strict_eq (TaskPatch.helperId body) sub)
        then (mkReply (Fail 403) [], st)
        else if null_in_required body
        then (mkReply (Fail 500) [], st)
        else (mkReply (Ok (JTask (Some (patched now body task)))) [],
              tasks_patched now id body st)
    end.
Proof.
  unfold handle, route, patch_task, bind. rewrite getTask_run.
  destruct (taskById st id) as [task|] eqn:Ht; [|done].
  destruct (truthy _ && strict_eq _ _); [done|].
  destruct (negb _ && negb _); [done|].
  destruct (null_in_required body) eqn:Hnull.
  - by rewrite (updateTask_rejected _ _ _ _ _ Ht Hnull).
  - rewrite (updateTask_ok _ _ _ _ Hnull), Ht. done.
Qed.

Lemma delete_task_run clients now sub id st :
  handle clients now sub (DeleteTask id) st
  = match taskById st id with
    | None => (mkReply (Fail 404) [], st)
    | Some task =>
        if negb (bool_decide (Task.authorId task = sub))
        then (mkReply (Fail 403) [], st)
        else if negb (bool_decide (Task.status task = Some "open"))
                && negb (bool_decide (Task.status task = Some "accepted"))
        then (mkReply (Fail 400) [], st)
        else (mkReply (Ok (JTask (Some (patched now
                        (TaskPatch.only_status "cancelled") task)))) [],
              tasks_patched now id (TaskPatch.only_status "cancelled") st)
    end.
Proof.
  unfold handle, route, delete_task, bind. rewrite getTask_run.
  destruct (taskById st id) as [task|] eqn:Ht; [|done].
  destruct (negb (bool_decide (Task.authorId task = sub))); [done|].
  destruct (negb _ && negb _); [done|].
  rewrite updateTask_ok by done. by rewrite Ht.
Qed.

(** C6.  Cancel ([DELETE /api/tasks/:id]) on an existing task: a caller who
    is not the author gets 403 (Forbidden); the author gets 400 (InvalidState)
    unless the status is open or accepted (so for in_progress, completed and
    cancelled); both leave the store as it was.  The author of a task that is
    open or accepted gets the task back with status cancelled, and that is
    the row then stored; nothing else of the task changes but [updatedAt].
    Cancel succeeds in no other case. *)
Theorem cancel_task_spec clients now sub id st t :
  taskById st id = Some t ->
  let out := handle clients now sub (DeleteTask id) st in
  (Task.authorId t <> sub -> out = (mkReply (Fail 403) [], st))
  /\ (Task.authorId t = sub ->
      Task.status t <> Some "open" -> Task.status t <> Some "accepted" ->
      out = (mkReply (Fail 400) [], st))
  /\ (Task.authorId t = sub ->
      Task.status t = Some "open" \/ Task.status t = Some "accepted" ->
      exists t',
        response out.1 = Ok (JTask (Some t'))
        /\ taskById out.2 id = Some t'
        /\ Task.status t' = Some "cancelled"
        /\ t' = Task.mk (Task.id t) (Task.title t) (Task.description t)
                  (Task.category t) (Task.reward t) (Task.timeEstimate t)
                  (Task.location t) (Some "cancelled") (Task.authorId t)
                  (Task.helperId t) (Task.communityId t) (Task.createdAt t)
                  now)
  /\ (forall body, response out.1 = Ok body ->
      Task.authorId t = sub
      /\ (Task.status t = Some "open" \/ Task.status t = Some "accepted")).
Proof.
  intros Ht out. subst out. rewrite delete_task_run, Ht.
  split; [|split; [|split]].
  - intros Hne. by rewrite bool_decide_eq_false_2.
  - intros -> Ho Ha. rewrite bool_decide_eq_true_2 by done. simpl.
    by rewrite !bool_decide_eq_false_2.
  - intros Ha Hst. rewrite (bool_decide_eq_true_2 _ Ha). simpl.
    assert (negb (bool_decide (Task.status t = Some "open"))
            && negb (bool_decide (Task.status t = Some "accepted")) = false)
      as ->.
    { destruct Hst as [-> | ->]; reflexivity. }
    eexists. split; [reflexivity|]. simpl.
    rewrite taskById_patched, Ht. simpl.
    apply taskById_elem in Ht as [_ Hid].
    rewrite (bool_decide_eq_true_2 _ Hid). done.
  - intros body H. destruct (decide (Task.authorId t = sub)) as [Ha|Ha].
    + rewrite (bool_decide_eq_true_2 _ Ha) in H. simpl in H. split; [done|].
      destruct (decide (Task.status t = Some "open")) as [?|Ho]; [by left|].
      destruct (decide (Task.status t = Some "accepted")) as [?|Hacc]; [by right|].
      rewrite !bool_decide_eq_false_2 in H by done. simpl in H. discriminate.
    + rewrite bool_decide_eq_false_2 in H by done. simpl in H. discriminate.
Qed.

(** C5.  An Accept attempt whose [helperId] is the id of the task's author
    (a user id, hence a non-empty string) is answered 400 whoever sends it,
    and the store is left as it was. *)
Theorem no_self_accept clients now sub id body st t :
  taskById st id = Some t ->
  TaskPatch.helperId body = value (Task.authorId t) ->
  Task.authorId t <> "" ->
  handle clients now sub (PatchTask id body) st
  = (mkReply (Fail 400) [], st).
Proof.
  intros Ht Hh Hne. rewrite patch_task_run, Ht, Hh. simpl.
  by rewrite (bool_decide_eq_false_2 _ Hne), bool_decide_eq_true_2.
Qed.

(** C4, as the code has it.  Accept -- the PATCH a user other than the
    author sends with [{ helperId: sub, status: "accepted" }] -- looks at
    neither the status nor the helper of the task: on every existing task it
    is answered 200 with the task, which is stored with [helperId = sub] and
    [status = "accepted"]. *)
Theorem accept_unguarded clients now sub id st t :
  taskById st id = Some t ->
  Task.authorId t <> sub ->
  let out := handle clients now sub (PatchTask id (TaskPatch.accept sub)) st in
  exists t',
    response out.1 = Ok (JTask (Some t'))
    /\ taskById out.2 id = Some t'
    /\ Task.helperId t' = Some sub
    /\ Task.status t' = Some "accepted".
Proof.
  intros Ht Hauthor out. subst out.
  rewrite patch_task_run, Ht. simpl.
  rewrite (bool_decide_eq_false_2 (sub = Task.authorId t)) by congruence.
  rewrite (bool_decide_eq_true_2 (sub = sub)) by done.
  rewrite !andb_false_r. simpl.
  eexists. split; [reflexivity|]. simpl.
  rewrite taskById_patched, Ht. simpl.
  apply taskById_elem in Ht as [_ Hid].
  by rewrite (bool_decide_eq_true_2 _ Hid).
Qed.



(** ** The transaction routes *)

Lemma updateTransaction_run id updates st :
  updateTransaction id updates st
  = (Some (setTransaction updates <$> transactionById st id),
     transactions_updated id updates st).
Proof.
  unfold updateTransaction, bind, update.
  rewrite (update_rows_total _ _ (setTransaction updates)) by done.
  unfold set_transactions, ret, transactionById, transactions_updated; simpl.
  f_equal. f_equal.
  generalize (List.filter (fun x => bool_decide (Transaction.id x = id))
                          (transactions st)).
  by intros [|? ?].
Qed.


Lemma patch_start_request_run clients now sub id taskId st :
  handle clients now sub (PatchStartRequest id taskId) st
  = match transactionOfTask st taskId with
    | None => (mkReply (Fail 404) [], st)
    | Some x =>
        match startRequestUpdates x sub with
        | None => (mkReply (Fail 403) [], st)
        | Some (updates, userRole) =>
            (mkReply
               (Ok (JTransaction
                      (setTransaction updates
                         <$> transactionById st (Transaction.id x))))
               (broadcast clients
                  (Event.mk "transaction_start_request" taskId sub
                     (if bool_decide (userRole = "payer")
                      then Transaction.payeeId x else Transaction.payerId x)
                     (bool_decide (TxUpdates.status updates
                                   = Some "in_progress")))),
             transactions_updated (Transaction.id x) updates st)
        end
    end.
Proof.
  unfold handle, route, patch_start_request, bind.
  rewrite getTaskTransaction_run.
  destruct (transactionOfTask st taskId) as [x|]; [|done].
  destruct (startRequestUpdates x sub) as [[updates userRole]|]; [|done].
  by rewrite updateTransaction_run.
Qed.

Lemma patch_confirm_run clients now sub id taskId st :
  handle clients now sub (PatchConfirm id taskId) st
  = match transactionOfTask st taskId with
    | None => (mkReply (Fail 404) [], st)
    | Some x =>
        match confirmUpdates now x sub with
        | None => (mkReply (Fail 403) [], st)
        | Some updates =>
            (mkReply
               (Ok (JTransaction
                      (setTransaction updates
                         <$> transactionById st (Transaction.id x)))) [],
             transactions_updated (Transaction.id x) updates st)
        end
    end.
Proof.
  unfold handle, route, patch_confirm, bind.
  rewrite getTaskTransaction_run.
  destruct (transactionOfTask st taskId) as [x|]; [|done].
  destruct (confirmUpdates now x sub) as [updates|]; [|done].
  by rewrite updateTransaction_run.
Qed.

Lemma post_transaction_run clients now sub id st :
  handle clients now sub (PostTransaction id) st
  = match taskById st id with
    | None => (mkReply (Fail 404) [], st)
    | Some task =>
        match Task.helperId task with
        | None => (mkReply (Fail 500) [], st)
        | Some helper =>
            let x :=
              Transaction.mk (nextId st) id (Task.authorId task) helper
                (Task.reward task) "pending" false false false false now None in
            (mkReply (Ok (JTransaction (Some x))) [],
             mkStore (users st) (tasks st) (conversations st)
                     (transactions st ++ [x]) (ratings st) (S (nextId st)))
        end
    end.
Proof.
  unfold handle, route, post_transaction, bind. rewrite getTask_run.
  destruct (taskById st id) as [task|]; [|done].
  unfold createTransaction; simpl.
  by destruct (Task.helperId task).
Qed.

(** C7, as the code has it.  [POST /api/tasks/:id/transaction] on an
    existing task, sent by any authenticated user -- the caller need not own
    the task: when the task has no helper the insert is rejected, the answer
    is 500 and nothing is stored; when it has one, the answer and the row
    appended to [transactions] is a transaction with the author as payer, the
    helper as payee, the reward as amount, status pending and the four flags
    false. *)
Theorem create_transaction_spec clients now sub id st t :
  taskById st id = Some t ->
  let out := handle clients now sub (PostTransaction id) st in
  match Task.helperId t with
  | None => out = (mkReply (Fail 500) [], st)
  | Some helper =>
      exists x,
        response out.1 = Ok (JTransaction (Some x))
        /\ transactions out.2 = transactions st ++ [x]
        /\ Transaction.taskId x = id
        /\ Transaction.payerId x = Task.authorId t
        /\ Transaction.payeeId x = helper
        /\ Transaction.amount x = Task.reward t
        /\ Transaction.status x = "pending"
        /\ Transaction.payerStartRequested x = false
        /\ Transaction.payeeStartRequested x = false
        /\ Transaction.payerConfirmed x = false
        /\ Transaction.payeeConfirmed x = false
  end.
Proof.
  intros Ht out. subst out. rewrite post_transaction_run, Ht.
  destruct (Task.helperId t) as [helper|]; [|done].
  eexists. simpl. repeat split.
Qed.


Lemma startRequestUpdates_payer x sub :
  Transaction.payerId x = sub ->
  startRequestUpdates x sub
  = Some (TxUpdates.mk (Some true) None None None
            (Some (if Transaction.payeeStartRequested x
                   then "in_progress" else "start_requested")) None,
          "payer").
Proof.
  intros Hp. unfold startRequestUpdates.
  rewrite (bool_decide_eq_true_2 _ Hp). simpl.
  by destruct (Transaction.payeeStartRequested x).
Qed.

Lemma startRequestUpdates_payee x sub :
  Transaction.payerId x <> sub ->
  Transaction.payeeId x = sub ->
  startRequestUpdates x sub
  = Some (TxUpdates.mk None (Some true) None None
            (Some (if Transaction.payerStartRequested x
                   then "in_progress" else "start_requested")) None,
          "payee").
Proof.
  intros Hp He. unfold startRequestUpdates.
  rewrite (bool_decide_eq_false_2 _ Hp), (bool_decide_eq_true_2 _ He). simpl.
  by destruct (Transaction.payerStartRequested x).
Qed.

Lemma startRequestUpdates_stranger x sub :
  Transaction.payerId x <> sub ->
  Transaction.payeeId x <> sub ->
  startRequestUpdates x sub = None.
Proof.
  intros Hp He. unfold startRequestUpdates.
  by rewrite (bool_decide_eq_false_2 _ Hp), (bool_decide_eq_false_2 _ He).
Qed.


Lemma confirmUpdates_payer now x sub :
  Transaction.payerId x = sub ->
  confirmUpdates now x sub
  = Some (if Transaction.payeeConfirmed x
          then TxUpdates.mk None None (Some true) None
                 (Some "completed") (Some now)
          else TxUpdates.mk None None (Some true) None None None).
Proof.
  intros Hp. unfold confirmUpdates.
  rewrite (bool_decide_eq_true_2 _ Hp). simpl.
  by destruct (Transaction.payeeConfirmed x).
Qed.

Lemma confirmUpdates_payee now x sub :
  Transaction.payerId x <> sub ->
  Transaction.payeeId x = sub ->
  confirmUpdates now x sub
  = Some (if Transaction.payerConfirmed x
          then TxUpdates.mk None None None (Some true)
                 (Some "completed") (Some now)
          else TxUpdates.mk None None None (Some true) None None).
Proof.
  intros Hp He. unfold confirmUpdates.
  rewrite (bool_decide_eq_false_2 _ Hp), (bool_decide_eq_true_2 _ He). simpl.
  by destruct (Transaction.payerConfirmed x).
Qed.

Lemma confirmUpdates_stranger now x sub :
  Transaction.payerId x <> sub ->
  Transaction.payeeId x <> sub ->
  confirmUpdates now x sub = None.
Proof.
  intros Hp He. unfold confirmUpdates.
  by rewrite (bool_decide_eq_false_2 _ Hp), (bool_decide_eq_false_2 _ He).
Qed.



(** ** The handshake invariant *)




(** What one request does to the [transactions] table and the id counter. *)
Lemma handle_transactions clients now sub req st :
  let st' := (handle clients now sub req st).2 in
  nextId st <= nextId st'
  /\ (transactions st' = transactions st
      \/ (exists x,
            transactions st' = transactions st ++ [x]
            /\ Transaction.id x = nextId st
            /\ nextId st' = S (nextId st)
            /\ Transaction.status x = "pending")
      \/ (exists x updates,
            x ∈ transactions st
            /\ transactions st'
               = transactions (transactions_updated (Transaction.id x) updates st)
            /\ ((exists userRole,
                   startRequestUpdates x sub = Some (updates, userRole))
                \/ confirmUpdates now x sub = Some updates))).
Proof.
  destruct req; simpl.
  - rewrite patch_task_run. destruct (taskById st id); [|auto].
    repeat (match goal with
            | |- context [if ?b then _ else _] => destruct b
            end; [auto|]).
    simpl. auto.
  - rewrite delete_task_run. destruct (taskById st id); [|auto].
    repeat (match goal with
            | |- context [if ?b then _ else _] => destruct b
            end; [auto|]).
    simpl. auto.
  - unfold handle, route, post_conversation, getOrCreateConversation, bind,
      select; simpl.
    destruct (head _); simpl; auto.
  - rewrite post_transaction_run. destruct (taskById st id) as [task|]; [|auto].
    destruct (Task.helperId task); simpl; [|auto].
    split; [lia|]. right; left. eexists. repeat split.
  - rewrite patch_start_request_run.
    destruct (transactionOfTask st taskId) as [x|] eqn:Hx; [|auto].
    destruct (startRequestUpdates x sub) as [[updates userRole]|] eqn:Hu;
      [|auto].
    simpl. split; [done|]. right; right. exists x, updates.
    split; [by apply head_filter_elem in Hx as [? _]|]. eauto.
  - rewrite patch_confirm_run.
    destruct (transactionOfTask st taskId) as [x|] eqn:Hx; [|auto].
    destruct (confirmUpdates now x sub) as [updates|] eqn:Hu; [|auto].
    simpl. split; [done|]. right; right. exists x, updates.
    split; [by apply head_filter_elem in Hx as [? _]|]. eauto.
  - unfold handle, route, post_rating, createRating, bind, update; simpl.
    destruct (update_rows _ _ _) as [[? ?]|]; simpl; auto.
Qed.




(** ** JavaScript numbers holding integers

    What [SpecFloat] computes on the Numbers [createRating] meets: a
    positive integer below [2 ^ 53] is held exactly ([of_int_canon]), the
    sum of two of them is exact while it stays below [2 ^ 53] ([add_canon]),
    and the quotient of two of them is within half a unit in the last place
    of the exact quotient ([div_canon]). *)

Section JsNumbers.
Local Open Scope Z_scope.


























(** ** Division *)














End JsNumbers.

(** ** Ratings *)

Lemma update_rows_rejected {A} (where_ : A -> bool) (set : A -> option A)
    (rows : list A) :
  (forall r, set r = None) ->
  update_rows where_ set rows = None
  \/ update_rows where_ set rows = Some (rows, []).
Proof.
  intros Hset. induction rows as [|r rows IH]; simpl; [by right|].
  destruct (where_ r); [rewrite Hset; by left|].
  destruct IH as [-> | ->]; [by left | by right].
Qed.

Lemma post_rating_store clients now sub taskId ratedId rating comment st :
  (handle clients now sub (PostRating taskId ratedId rating comment) st).2
  = rating_posted now sub taskId ratedId rating comment st.
Proof.
  unfold handle, route, post_rating, createRating, bind, update,
    rating_posted; simpl.
  set (fixed := Number.toFixed2 _).
  destruct fixed as [n|]; simpl.
  - destruct (Z.abs n <? 1000)%Z eqn:Hfit.
    + rewrite (update_rows_total _ _
                 (fun u => User.mk (User.id u) n)).
      2:{ intros r _. simpl. by rewrite Hfit. }
      reflexivity.
    + destruct (update_rows_rejected
                  (fun u => bool_decide (User.id u = ratedId))
                  (setUserRating (Some n)) (users st)) as [Hr | Hr].
      { intros r. simpl. by rewrite Hfit. }
      all: rewrite Hr; reflexivity.
  - destruct (update_rows_rejected
                (fun u => bool_decide (User.id u = ratedId))
                (setUserRating None) (users st)) as [Hr | Hr];
      [done | | ]; rewrite Hr; reflexivity.
Qed.


Section Averages.
Local Open Scope Z_scope.




End Averages.


Lemma serve_snoc script call st :
  serve (script ++ [call]) st
  = (let '(clients, now, sub, req) := call in
     (handle clients now sub req (serve script st)).2).
Proof.
  unfold serve. rewrite fold_left_app. by destruct call as [[[? ?] ?] ?].
Qed.






(** ** The claims on the sample data *)


(** What the amended C1 leaves open: a RequestStart that comes after the
    completion writes in_progress over completed, although both confirm flags
    are true. *)
Example request_start_after_completion :
  let st := serve (Sample.handshake
                   ++ [([], 160%Z, "alice", PatchStartRequest 1 0)])
              (Sample.store_with (Sample.task (Some "accepted") (Some "bob"))) in
  exists x,
    transactions st = [x]
    /\ Transaction.status x = "in_progress"
    /\ Transaction.payerConfirmed x = true
    /\ Transaction.payeeConfirmed x = true.
Proof. eexists. by repeat split. Qed.





(** C4 as stated fails: carol accepts a task that bob has already accepted;
    the answer is 200, not a conflict, and carol replaces bob as helper. *)
Lemma taken_task_accepted_again :
  let st := Sample.store_with (Sample.task (Some "accepted") (Some "bob")) in
  let out := handle [] 200 "carol" (PatchTask 0 (TaskPatch.accept "carol")) st in
  Task.helperId <$> taskById st 0 = Some (Some "bob")
  /\ response out.1
     = Ok (JTask (Some (Task.mk 0 "Move a sofa" "Two flights of stairs"
                          "moving" "15000.00" None None (Some "accepted")
                          "alice" (Some "carol") 7 100 200)))
  /\ Task.helperId <$> taskById out.2 0 = Some (Some "carol").
Proof. by repeat split. Qed.

Lemma accept_unguarded_witness :
  let t := Sample.task (Some "completed") (Some "bob") in
  let st := Sample.store_with t in
  let out := handle [] 200 "carol" (PatchTask 0 (TaskPatch.accept "carol")) st in
  taskById st 0 = Some t
  /\ exists t',
       taskById out.2 0 = Some t'
       /\ Task.helperId t' = Some "carol"
       /\ Task.status t' = Some "accepted".
Proof.
  intros t st out. split; [reflexivity|].
  destruct (accept_unguarded [] 200 "carol" 0 st t eq_refl
              ltac:(discriminate))
    as (t' & _ & H1 & H2 & H3).
  exists t'. repeat split; assumption.
Defined.

Lemma no_self_accept_witness :
  let t := Sample.task (Some "open") None in
  let st := Sample.store_with t in
  taskById st 0 = Some t
  /\ handle [] 200 "alice" (PatchTask 0 (TaskPatch.accept "alice")) st
     = (mkReply (Fail 400) [], st).
Proof.
  intros t st. split; [reflexivity|].
  apply (no_self_accept [] 200 "alice" 0 (TaskPatch.accept "alice") st t);
    [reflexivity | reflexivity | discriminate].
Defined.

Lemma cancel_task_spec_witness :
  let t := Sample.task (Some "accepted") (Some "bob") in
  let st := Sample.store_with t in
  taskById st 0 = Some t
  /\ handle [] 200 "bob" (DeleteTask 0) st = (mkReply (Fail 403) [], st)
  /\ exists t',
       taskById (handle [] 200 "alice" (DeleteTask 0) st).2 0 = Some t'
       /\ Task.status t' = Some "cancelled".
Proof.
  intros t st. split; [reflexivity|]. split.
  - apply (proj1 (cancel_task_spec [] 200 "bob" 0 st t eq_refl)).
    discriminate.
  - destruct (cancel_task_spec [] 200 "alice" 0 st t eq_refl)
      as (_ & _ & Hok & _).
    destruct (Hok eq_refl (or_intror eq_refl)) as (t' & _ & H1 & H2 & _).
    exists t'. split; assumption.
Defined.

(** C7 as stated fails: carol, who neither wrote the task nor helps with
    it, creates its transaction. *)
Lemma stranger_creates_transaction :
  let t := Sample.task (Some "accepted") (Some "bob") in
  let st := Sample.store_with t in
  let out := handle [] 200 "carol" (PostTransaction 0) st in
  taskById st 0 = Some t
  /\ Task.authorId t <> "carol"
  /\ Task.helperId t <> Some "carol"
  /\ response out.1
     = Ok (JTransaction
             (Some (Transaction.mk 1 0 "alice" "bob" "15000.00" "pending"
                      false false false false 200 None)))
  /\ length (transactions out.2) = 1.
Proof. by repeat split. Qed.

Lemma create_transaction_spec_witness :
  let t := Sample.task (Some "open") None in
  let st := Sample.store_with t in
  taskById st 0 = Some t
  /\ handle [] 200 "alice" (PostTransaction 0) st
     = (mkReply (Fail 500) [], st).
Proof.
  intros t st. split; [reflexivity|].
  exact (create_transaction_spec [] 200 "alice" 0 st t eq_refl).
Defined.


(** At an exact tie the double decides: 9 / 8 = 1.125 is stored as 1.13,
    201 / 200 = 1.005 (a double just below it) as 1.00. *)
Example ties_follow_the_double :
  Number.toFixed2 (Number.div (Number.of_int 9) (Number.of_int 8)) = Some 113%Z
  /\ Number.toFixed2 (Number.div (Number.of_int 201) (Number.of_int 200))
     = Some 100%Z.
Proof. split; reflexivity. Qed.


(** * Further properties of the handshake, the conversations and the ratings *)

Lemma flags_grow_refl x : flags_grow x x.
Proof. unfold flags_grow. tauto. Qed.

Lemma flags_grow_trans x y z : flags_grow x y -> flags_grow y z -> flags_grow x z.
Proof. unfold flags_grow. intuition congruence. Qed.

Lemma startRequest_grows x sub updates userRole r :
  startRequestUpdates x sub = Some (updates, userRole) ->
  flags_grow r (setTransaction updates r).
Proof.
  intros Hu.
  destruct (decide (Transaction.payerId x = sub)) as [Hp|Hp];
    [rewrite (startRequestUpdates_payer _ _ Hp) in Hu
    |destruct (decide (Transaction.payeeId x = sub)) as [He|He];
     [rewrite (startRequestUpdates_payee _ _ Hp He) in Hu
     |by rewrite (startRequestUpdates_stranger _ _ Hp He) in Hu]].
  all: injection Hu as <- _; unfold flags_grow; simpl; tauto.
Qed.

Lemma confirm_grows now x sub updates r :
  confirmUpdates now x sub = Some updates ->
  flags_grow r (setTransaction updates r).
Proof.
  intros Hu.
  destruct (decide (Transaction.payerId x = sub)) as [Hp|Hp];
    [rewrite (confirmUpdates_payer _ _ _ Hp) in Hu
    |destruct (decide (Transaction.payeeId x = sub)) as [He|He];
     [rewrite (confirmUpdates_payee _ _ _ Hp He) in Hu
     |by rewrite (confirmUpdates_stranger _ _ _ Hp He) in Hu]].
  - injection Hu as <-. destruct (Transaction.payeeConfirmed x);
      unfold flags_grow; simpl; tauto.
  - injection Hu as <-. destruct (Transaction.payerConfirmed x);
      unfold flags_grow; simpl; tauto.
Qed.

Lemma Forall2_map_same {A} (R : A -> A -> Prop) (f : A -> A) (l : list A) :
  (forall a, R a (f a)) -> Forall2 R l (map f l).
Proof. intros Hf. induction l; simpl; constructor; auto. Qed.

Lemma handle_flags_grow clients now sub req st :
  exists kept added,
    transactions (handle clients now sub req st).2 = kept ++ added
    /\ Forall2 flags_grow (transactions st) kept.
Proof.
  destruct (handle_transactions clients now sub req st) as [_ Hcases].
  destruct Hcases as [-> | [(x & -> & _) | (x & updates & _ & -> & Hupd)]].
  - exists (transactions st), []. rewrite app_nil_r. split; [done|].
    rewrite <- (map_id (transactions st)) at 2.
    apply Forall2_map_same, flags_grow_refl.
  - exists (transactions st), [x]. split; [done|].
    rewrite <- (map_id (transactions st)) at 2.
    apply Forall2_map_same, flags_grow_refl.
  - eexists _, []. rewrite app_nil_r. split; [reflexivity|]. simpl.
    apply Forall2_map_same. intros a.
    destruct (bool_decide (Transaction.id a = Transaction.id x));
      [|apply flags_grow_refl].
    destruct Hupd as [[userRole Hu] | Hu].
    + eapply startRequest_grows; eauto.
    + eapply confirm_grows; eauto.
Qed.

(** X1.  Whatever list of requests is served, every transaction row that
    was in the store is still there, at the same place, with the same id,
    task, payer, payee and amount, and with every flag that was true still
    true: no request of the slice takes a start request or a confirmation
    back, and none removes a transaction. *)
Theorem handshake_flags_never_reset script st :
  exists kept added,
    transactions (serve script st) = kept ++ added
    /\ Forall2 flags_grow (transactions st) kept.
Proof.
  induction script as [|[[[clients now] sub] req] script IH] using rev_ind.
  - exists (transactions st), []. rewrite app_nil_r. split; [done|].
    rewrite <- (map_id (transactions st)) at 2.
    apply Forall2_map_same, flags_grow_refl.
  - rewrite serve_snoc.
    destruct IH as (kept & added & Heq & Hgrow).
    destruct (handle_flags_grow clients now sub req (serve script st))
      as (kept' & added' & Heq' & Hgrow').
    rewrite Heq in Hgrow'.
    apply Forall2_app_inv_l in Hgrow' as (k1 & k2 & Hk1 & Hk2 & ->).
    exists k1, (k2 ++ added'). rewrite Heq', <- app_assoc. split; [done|].
    clear - Hgrow Hk1. revert k1 Hk1.
    induction Hgrow as [|a b l1 l2 Hab _ IH]; intros k1 Hk1.
    + inversion Hk1. constructor.
    + inversion Hk1 as [|? c ? k1' Hbc Hrest]; subst. constructor.
      * eapply flags_grow_trans; eauto.
      * by apply IH.
Qed.

(** ** The handshake and the ratings, request by request *)




Lemma transactionOfTask_elem st taskId x :
  transactionOfTask st taskId = Some x ->
  x ∈ transactions st /\ Transaction.taskId x = taskId.
Proof.
  unfold transactionOfTask. intros H.
  apply head_filter_elem in H as [H1 H2]. split; [done|].
  by apply bool_decide_eq_true_1 in H2.
Qed.







(** * Further properties of the storage layer and of the routes *)

(** ** The cascade of [deleteCommunity] *)

Lemma filter_filter {A} (p q : A -> bool) (l : list A) :
  List.filter p (List.filter q l) = List.filter (fun a => q a && p a) l.
Proof.
  induction l as [|a l IH]; simpl; [done|].
  destruct (q a); simpl; [destruct (p a)|]; by rewrite IH.
Qed.

Lemma filter_ext_bool {A} (p q : A -> bool) (l : list A) :
  (forall a, a ∈ l -> p a = q a) -> List.filter p l = List.filter q l.
Proof.
  intros H. apply List.filter_ext_in. intros a Ha. apply H.
  by apply list_elem_of_In.
Qed.

Lemma existsb_false {A} (p : A -> bool) (l : list A) :
  existsb p l = false <-> forall a, a ∈ l -> p a = false.
Proof.
  induction l as [|a l IH]; simpl.
  - split; [|done]. intros _ a Ha. inversion Ha.
  - rewrite orb_false_iff, IH. split.
    + intros [Ha Hl] b Hb. inversion Hb; subst; auto.
    + intros H. split; [apply H; left|]. intros b Hb. apply H. by right.
Qed.

Lemma existsb_true {A} (p : A -> bool) (l : list A) :
  existsb p l = true <-> exists a, a ∈ l /\ p a = true.
Proof.
  split.
  - intros H. apply existsb_exists in H as (a & Ha & Hp).
    exists a. split; [by apply list_elem_of_In|done].
  - intros (a & Ha & Hp). apply existsb_exists. exists a.
    split; [by apply list_elem_of_In|done].
Qed.

Lemma elem_of_filter {A} (p : A -> bool) (l : list A) (a : A) :
  a ∈ List.filter p l <-> a ∈ l /\ p a = true.
Proof.
  split.
  - intros H. apply list_elem_of_In, filter_In in H as [H1 H2].
    split; [by apply list_elem_of_In|done].
  - intros [H1 H2]. apply list_elem_of_In, filter_In.
    split; [by apply list_elem_of_In|done].
Qed.

Lemma bool_eq_iff (a b : bool) : (a = true <-> b = true) -> a = b.
Proof. destruct a, b; intuition congruence. Qed.

(** The inner loop: the messages of the conversations listed. *)
Lemma delete_conversation_messages (cs : list Conversation.t) d :
  for_each cs (fun conversation =>
      delete_from messages_
        (fun m => bool_decide (Message.conversationId m
                               = Some (Conversation.id conversation)))
        unreferenced) d
  = (Some tt,
     mkDatabase (core d) (communities d) (communityMembers d)
       (List.filter
          (fun m => negb (existsb
                            (fun c => bool_decide (Message.conversationId m
                                                   = Some (Conversation.id c)))
                            cs))
          (messages d))).
Proof.
  revert d. induction cs as [|c cs IH]; intros d.
  - simpl. unfold qret. f_equal. destruct d as [st cm mb ms]; simpl. f_equal.
    induction ms; simpl; [done|]. by f_equal.
  - cbn [for_each]. unfold qbind at 1.
    unfold delete_from at 1. cbn [rows put messages_].
    assert (existsb (fun r => bool_decide (Message.conversationId r
                                           = Some (Conversation.id c))
                              && unreferenced d r) (messages d) = false) as ->.
    { apply existsb_false. intros m _. unfold unreferenced. apply andb_false_r. }
    rewrite IH. cbn [core communities communityMembers messages].
    f_equal. f_equal. rewrite filter_filter. apply filter_ext_bool.
    intros m _. cbn [existsb]. by rewrite negb_orb.
Qed.

Lemma filter_all {A} (p : A -> bool) (l : list A) :
  (forall a, a ∈ l -> p a = true) -> List.filter p l = l.
Proof.
  induction l as [|a l IH]; intros H; simpl; [done|].
  rewrite (H a) by left. f_equal. apply IH. intros b Hb. apply H. by right.
Qed.

Lemma for_each_run {A} (body : A -> Query unit)
    (after : A -> Database -> Database) (xs : list A) d :
  (forall x d, body x d = (Some tt, after x d)) ->
  for_each xs body d = (Some tt, fold_left (fun d x => after x d) xs d).
Proof.
  intros Hbody. revert d. induction xs as [|x xs IH]; intros d; [done|].
  cbn [for_each fold_left]. unfold qbind. rewrite Hbody. apply IH.
Qed.

Lemma without_tasks_nil d : without_tasks [] d = d.
Proof.
  destruct d as [[us ts cs xs rs n] cm mb ms].
  unfold without_tasks, about_tasks;
    cbn [core users tasks conversations transactions ratings nextId
         communities communityMembers messages existsb orb].
  assert (forall k : Uuid, negb (bool_decide (k ∈ @nil Uuid)) = true) as Hnil.
  { intros k. rewrite bool_decide_eq_false_2; [done|]. apply not_elem_of_nil. }
  rewrite (filter_all _ cs) by (intros; apply Hnil).
  rewrite (filter_all _ xs) by (intros; apply Hnil).
  rewrite (filter_all _ rs) by (intros; apply Hnil).
  rewrite (filter_all _ ms); [done|].
  intros m _. apply negb_true_iff, existsb_false. intros c _.
  specialize (Hnil (Conversation.taskId c)).
  apply negb_true_iff in Hnil. by rewrite Hnil.
Qed.

Lemma bool_decide_elem_app {A} `{EqDecision A} (k : A) (l1 l2 : list A) :
  bool_decide (k ∈ l1 ++ l2) = bool_decide (k ∈ l1) || bool_decide (k ∈ l2).
Proof.
  apply bool_eq_iff. rewrite orb_true_iff, !bool_decide_eq_true.
  apply elem_of_app.
Qed.

Lemma without_tasks_app ks1 ks2 d :
  without_tasks ks2 (without_tasks ks1 d) = without_tasks (ks1 ++ ks2) d.
Proof.
  unfold without_tasks; cbn [core users tasks conversations transactions
    ratings nextId communities communityMembers messages].
  rewrite !filter_filter. f_equal; [f_equal|].
  - apply filter_ext_bool. intros c _.
    by rewrite bool_decide_elem_app, negb_orb.
  - apply filter_ext_bool. intros c _.
    by rewrite bool_decide_elem_app, negb_orb.
  - apply filter_ext_bool. intros c _.
    by rewrite bool_decide_elem_app, negb_orb.
  - apply filter_ext_bool. intros m _.
    rewrite <- negb_orb. f_equal. apply bool_eq_iff.
    unfold about_tasks. cbn [core conversations].
    rewrite !orb_true_iff, !existsb_true. split.
    + intros [[(k & Hk & Hm) | (c & Hc & Hm)] | [(k & Hk & Hm) | (c & Hc & Hm)]].
      * left. exists k. split; [apply elem_of_app; by left|done].
      * right. exists c. split; [done|].
        apply andb_true_iff in Hm as [H1 H2]. rewrite H2, andb_true_r.
        apply bool_decide_eq_true in H1. apply bool_decide_eq_true.
        apply elem_of_app. by left.
      * left. exists k. split; [apply elem_of_app; by right|done].
      * apply elem_of_filter in Hc as [Hc _].
        right. exists c. split; [done|].
        apply andb_true_iff in Hm as [H1 H2]. rewrite H2, andb_true_r.
        apply bool_decide_eq_true in H1. apply bool_decide_eq_true.
        apply elem_of_app. by right.
    + intros [(k & Hk & Hm) | (c & Hc & Hm)].
      * apply elem_of_app in Hk as [Hk|Hk]; [left; left|right; left];
          by exists k.
      * apply andb_true_iff in Hm as [H1 H2].
        apply bool_decide_eq_true in H1.
        destruct (decide (Conversation.taskId c ∈ ks1)) as [Hin|Hout].
        -- left. right. exists c. split; [done|].
           by rewrite (bool_decide_eq_true_2 _ Hin), H2.
        -- right. right. exists c. split.
           ++ apply elem_of_filter. split; [done|].
              by rewrite (bool_decide_eq_false_2 _ Hout).
           ++ apply elem_of_app in H1 as [H1|H1]; [done|].
              by rewrite (bool_decide_eq_true_2 _ H1), H2.
Qed.

Lemma fold_without_tasks (ts : list Task.t) ks d :
  fold_left (fun d t => without_tasks [Task.id t] d) ts (without_tasks ks d)
  = without_tasks (ks ++ map Task.id ts) d.
Proof.
  revert ks. induction ts as [|t ts IH]; intros ks; simpl.
  - by rewrite app_nil_r.
  - rewrite without_tasks_app, IH, <- app_assoc. done.
Qed.

(** One round of the loop of [deleteCommunity]. *)
Lemma delete_task_rows (task : Task.t) d :
  (let+ taskConversations :=
     from conversations_
       (fun c => bool_decide (Conversation.taskId c = Task.id task)) in
   run for_each taskConversations (fun conversation =>
         delete_from messages_
           (fun m => bool_decide (Message.conversationId m
                                  = Some (Conversation.id conversation)))
           unreferenced) then
   run delete_from messages_
         (fun m => bool_decide (Message.taskId m = Some (Task.id task)))
         unreferenced then
   run delete_from conversations_
         (fun c => bool_decide (Conversation.taskId c = Task.id task))
         conversation_referenced then
   run delete_from transactions_
         (fun x => bool_decide (Transaction.taskId x = Task.id task))
         unreferenced then
   delete_from ratings_
     (fun r => bool_decide (Rating.taskId r = Task.id task))
     unreferenced) d
  = (Some tt, without_tasks [Task.id task] d).
Proof.
  unfold qbind at 1. unfold from at 1. cbn [rows conversations_ in_core].
  unfold qbind at 1. rewrite delete_conversation_messages.
  unfold qbind at 1. unfold delete_from at 1.
  cbn [rows put messages_ messages core communities communityMembers].
  match goal with |- context [existsb ?p ?l] =>
    assert (existsb p l = false) as ->
  end.
  { apply existsb_false. intros m _. apply andb_false_r. }
  unfold qbind at 1. unfold delete_from at 1.
  cbn [rows put conversations_ in_core messages core communities
       communityMembers].
  match goal with |- context [existsb ?p ?l] =>
    assert (existsb p l = false) as ->
  end.
  { apply existsb_false. intros c Hc.
    destruct (bool_decide (Conversation.taskId c = Task.id task)) eqn:Hct;
      [|done].
    cbn [andb]. unfold conversation_referenced. cbn [messages].
    apply existsb_false. intros m Hm.
    apply elem_of_filter in Hm as [Hm _].
    apply elem_of_filter in Hm as [_ Hm].
    apply negb_true_iff in Hm.
    apply bool_decide_eq_false_2. intros Heq.
    rewrite existsb_false in Hm.
    specialize (Hm c). rewrite (bool_decide_eq_true_2 _ Heq) in Hm.
    assert (true = false) by (apply Hm, elem_of_filter; by split). done. }
  unfold qbind at 1. unfold delete_from at 1.
  cbn [rows put transactions_ in_core messages core communities
       communityMembers].
  match goal with |- context [existsb ?p ?l] =>
    assert (existsb p l = false) as ->
  end.
  { apply existsb_false. intros m _. apply andb_false_r. }
  unfold delete_from.
  cbn [rows put ratings_ in_core messages core communities communityMembers].
  match goal with |- context [existsb ?p ?l] =>
    assert (existsb p l = false) as ->
  end.
  { apply existsb_false. intros m _. apply andb_false_r. }
  unfold without_tasks, set_conversations, set_transactions, set_ratings.
  cbn [snd core users tasks conversations transactions ratings nextId
       communities communityMembers messages].
  f_equal. f_equal; [f_equal|].
  - apply filter_ext_bool. intros c _. f_equal.
    apply bool_eq_iff. rewrite !bool_decide_eq_true, list_elem_of_singleton. done.
  - apply filter_ext_bool. intros c _. f_equal.
    apply bool_eq_iff. rewrite !bool_decide_eq_true, list_elem_of_singleton. done.
  - apply filter_ext_bool. intros c _. f_equal.
    apply bool_eq_iff. rewrite !bool_decide_eq_true, list_elem_of_singleton. done.
  - rewrite filter_filter. apply filter_ext_bool. intros m _.
    rewrite <- negb_orb. f_equal. unfold about_tasks.
    cbn [existsb]. rewrite orb_false_r, orb_comm. f_equal.
    clear. induction (conversations (core d)) as [|c cs IH]; [done|].
    cbn [List.filter existsb].
    destruct (decide (Conversation.taskId c = Task.id task)) as [Hc|Hc].
    + rewrite (bool_decide_eq_true_2 _ Hc). cbn [existsb].
      rewrite IH. f_equal.
      rewrite (bool_decide_eq_true_2 (Conversation.taskId c ∈ [Task.id task]));
        [done|]. rewrite Hc. apply list_elem_of_singleton. done.
    + rewrite (bool_decide_eq_false_2 _ Hc).
      rewrite (bool_decide_eq_false_2 (Conversation.taskId c ∈ [Task.id task])).
      * by rewrite IH.
      * by rewrite list_elem_of_singleton.
Qed.

Lemma deleteCommunity_run id d : deleteCommunity id d = (Some tt, purged id d).
Proof.
  unfold deleteCommunity.
  unfold qbind at 1. unfold delete_from at 1.
  cbn [rows put communityMembers_].
  match goal with |- context [existsb ?p ?l] =>
    assert (existsb p l = false) as ->
  end.
  { apply existsb_false. intros m _. apply andb_false_r. }
  unfold qbind at 1. unfold from at 1.
  cbn [rows tasks_ in_core core].
  unfold qbind at 1.
  rewrite (for_each_run _ (fun t => without_tasks [Task.id t]))
    by (intros; apply delete_task_rows).
  match goal with |- context [fold_left ?f ?l ?d0] =>
    rewrite <- (without_tasks_nil d0) at 1
  end.
  rewrite fold_without_tasks. cbn [app].
  fold (tasks_of id d).
  unfold qbind at 1. unfold delete_from at 1.
  cbn [rows put tasks_ in_core].
  match goal with |- context [existsb ?p ?l] =>
    assert (existsb p l = false) as ->
  end.
  { apply existsb_false. intros t Ht.
    destruct (bool_decide (Task.communityId t = id)) eqn:Hc; [|done].
    cbn [andb].
    assert (Task.id t ∈ tasks_of id d) as Hin.
    { unfold tasks_of. apply list_elem_of_fmap. exists t. split; [done|].
      apply elem_of_filter. split; [exact Ht|done]. }
    unfold task_referenced, without_tasks.
    cbn [core conversations transactions ratings messages].
    rewrite !orb_false_iff. split; [split; [split|]|]; apply existsb_false.
    - intros m Hm. apply elem_of_filter in Hm as [_ Hm].
      apply negb_true_iff in Hm. unfold about_tasks in Hm.
      apply orb_false_iff in Hm as [Hm _].
      rewrite existsb_false in Hm. by apply Hm.
    - intros c Hc'. apply elem_of_filter in Hc' as [_ Hc'].
      apply negb_true_iff, bool_decide_eq_false in Hc'.
      apply bool_decide_eq_false_2. congruence.
    - intros c Hc'. apply elem_of_filter in Hc' as [_ Hc'].
      apply negb_true_iff, bool_decide_eq_false in Hc'.
      apply bool_decide_eq_false_2. congruence.
    - intros c Hc'. apply elem_of_filter in Hc' as [_ Hc'].
      apply negb_true_iff, bool_decide_eq_false in Hc'.
      apply bool_decide_eq_false_2. congruence. }
  unfold delete_from. cbn [rows put communities_].
  match goal with |- context [existsb ?p ?l] =>
    assert (existsb p l = false) as ->
  end.
  { apply existsb_false. intros c Hc.
    destruct (bool_decide (Community.id c = id)) eqn:Hcid; [|done].
    apply bool_decide_eq_true in Hcid.
    cbn [andb]. unfold community_referenced, set_tasks, without_tasks.
    cbn [snd core tasks communityMembers].
    rewrite orb_false_iff. split; apply existsb_false.
    - intros m Hm. apply elem_of_filter in Hm as [_ Hm].
      apply negb_true_iff, bool_decide_eq_false in Hm.
      apply bool_decide_eq_false_2. congruence.
    - intros t Ht. apply elem_of_filter in Ht as [_ Ht].
      apply negb_true_iff, bool_decide_eq_false in Ht.
      apply bool_decide_eq_false_2. congruence. }
  reflexivity.
Qed.

Lemma elem_of_tasks_of id d k :
  k ∈ tasks_of id d
  <-> exists t, t ∈ tasks (core d) /\ Task.communityId t = id /\ Task.id t = k.
Proof.
  unfold tasks_of. rewrite list_elem_of_fmap. split.
  - intros (t & -> & Ht). apply elem_of_filter in Ht as [Ht Hc].
    apply bool_decide_eq_true in Hc. by exists t.
  - intros (t & Ht & Hc & <-). exists t. split; [done|].
    apply elem_of_filter. split; [done|]. by apply bool_decide_eq_true.
Qed.

(** X6.  [deleteCommunity] never fails on a foreign key, whatever the
    database holds, and removes exactly: the community, its memberships, its
    tasks, the conversations, transactions and ratings of these tasks, and
    the messages of these tasks and of their conversations.  Users, other
    communities and their rows stay as they are, in their order. *)
Theorem deleteCommunity_cascade id d :
  let of_community k :=
    exists t, t ∈ tasks (core d) /\ Task.communityId t = id /\ Task.id t = k in
  exists d',
    deleteCommunity id d = (Some tt, d')
    /\ users (core d') = users (core d)
    /\ communities d'
       = List.filter (fun c => negb (bool_decide (Community.id c = id)))
                     (communities d)
    /\ communityMembers d'
       = List.filter
           (fun m => negb (bool_decide (CommunityMember.communityId m = id)))
           (communityMembers d)
    /\ tasks (core d')
       = List.filter (fun t => negb (bool_decide (Task.communityId t = id)))
                     (tasks (core d))
    /\ (forall c, c ∈ conversations (core d')
                  <-> c ∈ conversations (core d)
                      /\ ~ of_community (Conversation.taskId c))
    /\ (forall x, x ∈ transactions (core d')
                  <-> x ∈ transactions (core d)
                      /\ ~ of_community (Transaction.taskId x))
    /\ (forall r, r ∈ ratings (core d')
                  <-> r ∈ ratings (core d)
                      /\ ~ of_community (Rating.taskId r))
    /\ (forall m, m ∈ messages d'
                  <-> m ∈ messages d
                      /\ ~ (exists k, of_community k
                                      /\ (Message.taskId m = Some k
                                          \/ exists c,
                                               c ∈ conversations (core d)
                                               /\ Conversation.taskId c = k
                                               /\ Message.conversationId m
                                                  = Some (Conversation.id c)))).
Proof.
  intros of_community. exists (purged id d).
  split; [apply deleteCommunity_run|].
  unfold purged, without_tasks.
  cbn [core users tasks conversations transactions ratings nextId
       communities communityMembers messages].
  do 4 (split; [reflexivity|]).
  assert (forall k, negb (bool_decide (k ∈ tasks_of id d)) = true
                    <-> ~ of_community k) as Hk.
  { intros k. rewrite negb_true_iff, bool_decide_eq_false, elem_of_tasks_of.
    done. }
  split; [|split; [|split]].
  - intros c. by rewrite elem_of_filter, Hk.
  - intros x. by rewrite elem_of_filter, Hk.
  - intros r. by rewrite elem_of_filter, Hk.
  - intros m. rewrite elem_of_filter.
    apply and_iff_compat_l.
    rewrite negb_true_iff, <- not_true_iff_false.
    apply not_iff_compat.
    unfold about_tasks. rewrite orb_true_iff, !existsb_true. split.
    + intros [(k & Hin & Hm) | (c & Hc & Hm)].
      * apply bool_decide_eq_true in Hm.
        exists k. split; [by apply elem_of_tasks_of|by left].
      * apply andb_true_iff in Hm as [H1 H2].
        apply bool_decide_eq_true in H1, H2.
        exists (Conversation.taskId c).
        split; [by apply elem_of_tasks_of|]. right. by exists c.
    + intros (k & Hof & [Hm | (c & Hc & Hck & Hm)]).
      * left. exists k. split; [by apply elem_of_tasks_of|].
        by apply bool_decide_eq_true.
      * right. exists c. split; [done|].
        apply andb_true_iff. split; apply bool_decide_eq_true; [|done].
        rewrite Hck. by apply elem_of_tasks_of.
Qed.

(** ** Communities and memberships *)

Lemma joinCommunity_run now userId communityId d :
  joinCommunity now userId communityId d
  = if user_exists d userId && community_exists d communityId
    then (Some (CommunityMember.mk (nextId (core d)) userId communityId now),
          joined now userId communityId d)
    else (None, bumped d).
Proof.
  unfold joinCommunity. unfold qbind at 1. unfold lift at 1.
  cbn [gen_random_uuid]. cbv beta iota.
  unfold qbind at 1. unfold insert_into at 1.
  change (user_exists (mkDatabase ?c _ _ _) userId) with (user_exists d userId).
  unfold user_exists, community_exists.
  cbn [core users communities rows put communityMembers_ communityMembers
       messages].
  fold (user_exists d userId). fold (community_exists d communityId).
  destruct (user_exists d userId && community_exists d communityId); [|done].
  unfold qbind at 1. unfold from at 1.
  cbn [rows communityMembers_ communityMembers].
  unfold qbind at 1. unfold update_where.
  cbn [rows put communities_ communities].
  rewrite (update_rows_total _ _
             (setMemberCount (length (List.filter
                (fun m => bool_decide (CommunityMember.communityId m = communityId))
                (communityMembers d ++
                   [CommunityMember.mk (nextId (core d)) userId communityId now])))))
    by done.
  reflexivity.
Qed.

Lemma isCommunityMember_run userId communityId d :
  exists b,
    isCommunityMember userId communityId d = (Some b, d)
    /\ (b = true <-> exists m, m ∈ communityMembers d
                               /\ CommunityMember.userId m = userId
                               /\ CommunityMember.communityId m = communityId).
Proof.
  unfold isCommunityMember, qbind, from, qret.
  cbn [rows communityMembers_].
  eexists. split; [reflexivity|].
  rewrite bool_decide_eq_true. split.
  - intros [m Hm]. apply head_filter_elem in Hm as [Hin Hp].
    apply andb_true_iff in Hp as [H1 H2].
    apply bool_decide_eq_true in H1, H2. by exists m.
  - intros (m & Hin & H1 & H2).
    destruct (head (List.filter _ (communityMembers d))) as [m'|] eqn:Hh;
      [by eexists|].
    assert (m ∈ List.filter
                  (fun m => bool_decide (CommunityMember.userId m = userId)
                            && bool_decide (CommunityMember.communityId m
                                            = communityId))
                  (communityMembers d)) as Hf.
    { apply elem_of_filter. split; [done|].
      by rewrite !bool_decide_eq_true_2. }
    destruct (List.filter _ (communityMembers d)); [inversion Hf|done].
Qed.

Lemma endpoint_run (h : Query Outcome) d o d' :
  h d = (Some o, d') -> endpoint h d = (o, d').
Proof. unfold endpoint. by intros ->. Qed.

Lemma endpoint_throw (h : Query Outcome) d d' :
  h d = (None, d') -> endpoint h d = (mkOutcome (Refused 500) [], d').
Proof. unfold endpoint. by intros ->. Qed.

(** X7.  [POST /api/communities/:id/join]: when the caller has a users row
    and the community exists, a membership of the caller is appended -- also
    when the caller is a member already -- the caller is a member afterwards,
    and every row of that community carries the new number of membership
    rows, one more than before.  Otherwise the insert is rejected, the
    answer is 500 and no table changes. *)
Theorem join_counts_rows clients now sub id d :
  let out := answer_call clients now sub (PostJoin id) d in
  if user_exists d sub && community_exists d id
  then
    exists membership,
      returned out.1 = Sent (BMembership membership)
      /\ CommunityMember.userId membership = sub
      /\ CommunityMember.communityId membership = id
      /\ communityMembers out.2 = communityMembers d ++ [membership]
      /\ (isCommunityMember sub id out.2).1 = Some true
      /\ length (membersOf out.2 id) = S (length (membersOf d id))
      /\ (forall c, c ∈ communities out.2 -> Community.id c = id ->
            Community.memberCount c = length (membersOf out.2 id))
      /\ map Community.id (communities out.2) = map Community.id (communities d)
  else
    returned out.1 = Refused 500
    /\ communities out.2 = communities d
    /\ communityMembers out.2 = communityMembers d.
Proof.
  cbv zeta. unfold answer_call, endpoint, post_join, qbind.
  rewrite joinCommunity_run.
  destruct (user_exists d sub && community_exists d id); [|done].
  cbn [reply qret fst snd returned].
  eexists. split; [reflexivity|]. split; [done|]. split; [done|].
  split; [done|]. split; [|split; [|split]].
  - destruct (isCommunityMember_run sub id (joined now sub id d))
      as (b & -> & Hb). cbn [fst]. f_equal. apply Hb.
    exists (CommunityMember.mk (nextId (core d)) sub id now).
    split; [|done].
    unfold joined; cbn [communityMembers].
    apply elem_of_app. right. by apply list_elem_of_singleton.
  - unfold membersOf, joined; cbn [communityMembers].
    rewrite List.filter_app, length_app. cbn [List.filter CommunityMember.communityId].
    rewrite (bool_decide_eq_true_2 (id = id) eq_refl). simpl. lia.
  - intros c Hc Hid. unfold joined in Hc; cbn [communities] in Hc.
    apply list_elem_of_fmap in Hc as (c0 & -> & Hc0).
    destruct (bool_decide (Community.id c0 = id)) eqn:Hc0id.
    + reflexivity.
    + apply bool_decide_eq_false in Hc0id. done.
  - unfold joined; cbn [communities]. rewrite map_map. apply map_ext.
    intros c. by destruct (bool_decide (Community.id c = id)).
Qed.

Lemma find_order_by_desc {A} (key : A -> Timestamp) (p : A -> bool)
    (l : list A) :
  match List.find p (order_by_desc key l) with
  | Some a => a ∈ l /\ p a = true
  | None => forall a, a ∈ l -> p a = false
  end.
Proof.
  unfold order_by_desc.
  destruct (List.find p _) as [a|] eqn:Hf.
  - apply find_some in Hf as [Hin Hp]. split; [|done].
    apply list_elem_of_In in Hin.
    by rewrite merge_sort_Permutation in Hin.
  - intros a Ha. apply (find_none _ _ Hf).
    apply list_elem_of_In. by rewrite merge_sort_Permutation.
Qed.

Lemma getCommunities_run d :
  getCommunities d
  = (Some (order_by_desc Community.createdAt
             (List.filter (fun _ => true) (communities d))), d).
Proof. reflexivity. Qed.

Lemma filter_true {A} (l : list A) : List.filter (fun _ => true) l = l.
Proof. induction l; simpl; congruence. Qed.

Lemma community_exists_true d id :
  community_exists d id = true
  <-> exists c, c ∈ communities d /\ Community.id c = id.
Proof.
  unfold community_exists. rewrite existsb_true.
  split; intros (c & Hc & Hid); exists c; split; auto.
  - by apply bool_decide_eq_true in Hid.
  - by apply bool_decide_eq_true.
Qed.

Lemma delete_community_run clients now sub id d :
  answer_call clients now sub (DeleteCommunity id) d
  = match List.find (fun c => bool_decide (Community.id c = id))
                    (order_by_desc Community.createdAt (communities d)) with
    | None => (mkOutcome (Refused 404) [], d)
    | Some community =>
        if bool_decide (Community.creatorId community = Some sub)
        then (mkOutcome (Sent BDeleted) [], purged id d)
        else (mkOutcome (Refused 403) [], d)
    end.
Proof.
  unfold answer_call, endpoint, delete_community.
  unfold qbind at 1. rewrite getCommunities_run, filter_true.
  destruct (List.find _ _) as [c|]; [|done].
  destruct (bool_decide (Community.creatorId c = Some sub)); [|done].
  cbn [negb]. unfold qbind. by rewrite deleteCommunity_run.
Qed.

Lemma getTasks_run communityId d :
  getTasks communityId d
  = (Some (map (withUsers d)
             (order_by_desc Task.createdAt
                (List.filter
                   (fun t => bool_decide (Task.communityId t = communityId)
                             && ne (Task.status t) "cancelled"
                             && ne (Task.status t) "completed")
                   (tasks (core d))))), d).
Proof. reflexivity. Qed.

Lemma filter_none {A} (p : A -> bool) (l : list A) :
  (forall a, a ∈ l -> p a = false) -> List.filter p l = [].
Proof.
  induction l as [|a l IH]; intros H; simpl; [done|].
  rewrite (H a) by left. apply IH. intros b Hb. apply H. by right.
Qed.

(** X8.  [DELETE /api/communities/:id]: 404 when no community has the id,
    403 when the caller is not its creator, both without a change; for the
    creator the cascade runs to its end, after which the community is gone,
    nobody is a member of it and its task list is empty. *)
Theorem delete_community_spec clients now sub id d :
  let out := answer_call clients now sub (DeleteCommunity id) d in
  (community_exists d id = false -> out = (mkOutcome (Refused 404) [], d))
  /\ (community_exists d id = true ->
      (forall c, c ∈ communities d -> Community.id c = id ->
                 Community.creatorId c <> Some sub) ->
      out = (mkOutcome (Refused 403) [], d))
  /\ (community_exists d id = true ->
      (forall c, c ∈ communities d -> Community.id c = id ->
                 Community.creatorId c = Some sub) ->
      returned out.1 = Sent BDeleted
      /\ deleteCommunity id d = (Some tt, out.2)
      /\ community_exists out.2 id = false
      /\ (forall u, (isCommunityMember u id out.2).1 = Some false)
      /\ (getTasks id out.2).1 = Some []).
Proof.
  cbv zeta. rewrite delete_community_run.
  pose proof (find_order_by_desc Community.createdAt
                (fun c => bool_decide (Community.id c = id)) (communities d))
    as Hfind.
  destruct (List.find _ _) as [c|].
  - destruct Hfind as [Hc Hid]. apply bool_decide_eq_true in Hid.
    assert (community_exists d id = true) as Hex.
    { apply community_exists_true. by exists c. }
    split; [by rewrite Hex|]. split.
    + intros _ Hcreator.
      by rewrite (bool_decide_eq_false_2 _ (Hcreator c Hc Hid)).
    + intros _ Hcreator.
      rewrite (bool_decide_eq_true_2 _ (Hcreator c Hc Hid)).
      cbn [fst snd returned]. split; [done|].
      split; [apply deleteCommunity_run|]. split; [|split].
      * unfold community_exists, purged; cbn [communities].
        apply existsb_false. intros c' Hc'.
        apply elem_of_filter in Hc' as [_ Hc'].
        by apply negb_true_iff in Hc'.
      * intros u.
        destruct (isCommunityMember_run u id (purged id d)) as (b & -> & Hb).
        cbn [fst]. f_equal. destruct b; [|done].
        destruct (proj1 Hb eq_refl) as (m & Hm & _ & Hmid).
        unfold purged in Hm; cbn [communityMembers] in Hm.
        apply elem_of_filter in Hm as [_ Hm].
        apply negb_true_iff, bool_decide_eq_false in Hm. done.
      * rewrite getTasks_run. cbn [fst]. f_equal.
        rewrite filter_none; [done|].
        intros t Ht. unfold purged in Ht; cbn [core tasks] in Ht.
        apply elem_of_filter in Ht as [_ Ht].
        apply negb_true_iff in Ht. by rewrite Ht.
  - assert (community_exists d id = false) as Hex.
    { apply not_true_iff_false. intros Hex.
      apply community_exists_true in Hex as (c & Hc & Hid).
      specialize (Hfind c Hc). apply bool_decide_eq_false in Hfind. done. }
    rewrite Hex. split; [done|]. split; intros; done.
Qed.


Lemma createCommunity_run now community d :
  createCommunity now community d
  = if if_set (user_exists d) (InsertCommunity.creatorId community)
    then (Some (newCommunity now (nextId (core d)) community),
          founded now community d)
    else (None, bumped d).
Proof.
  unfold createCommunity. unfold qbind at 1. unfold lift at 1.
  cbn [gen_random_uuid]. cbv beta iota.
  unfold qbind at 1. unfold insert_into at 1.
  match goal with |- context [if_set ?f ?r] =>
    change (if_set f r)
      with (if_set (user_exists d) (InsertCommunity.creatorId community))
  end.
  destruct (if_set _ _); reflexivity.
Qed.

Lemma post_community_run clients now sub body d :
  let communityData :=
    InsertCommunity.mk (CommunityBody.name body)
      (CommunityBody.description body)
      (CommunityBody.verificationMethod body)
      (CommunityBody.verificationData body)
      (CommunityBody.showRealNames body)
      (CommunityBody.showAddresses body) (Some sub) in
  answer_call clients now sub (PostCommunity body) d
  = if user_exists d sub
    then (mkOutcome
            (Sent (BCommunity (newCommunity now (nextId (core d)) communityData)))
            [],
          joined now sub (nextId (core d)) (founded now communityData d))
    else (mkOutcome (Refused 500) [], bumped d).
Proof.
  cbv zeta. unfold answer_call, endpoint, post_community.
  unfold qbind at 1. rewrite createCommunity_run.
  cbn [if_set InsertCommunity.creatorId].
  destruct (user_exists d sub) eqn:Hu; [|done].
  unfold qbind. cbn [newCommunity Community.id].
  rewrite joinCommunity_run.
  assert (user_exists (founded now
            (InsertCommunity.mk (CommunityBody.name body)
               (CommunityBody.description body)
               (CommunityBody.verificationMethod body)
               (CommunityBody.verificationData body)
               (CommunityBody.showRealNames body)
               (CommunityBody.showAddresses body) (Some sub)) d) sub = true)
    as ->.
  { exact Hu. }
  match goal with |- context [community_exists ?d0 ?k] =>
    assert (community_exists d0 k = true) as ->
  end.
  { apply community_exists_true. eexists. split.
    - unfold founded; cbn [communities]. apply elem_of_app. right.
      apply list_elem_of_singleton. reflexivity.
    - reflexivity. }
  reflexivity.
Qed.


Lemma createTask_run now task d :
  createTask now task d
  = if user_exists d (InsertTask.authorId task)
       && community_exists d (InsertTask.communityId task)
    then (Some (newTask now (nextId (core d)) task),
          with_task (newTask now (nextId (core d)) task) d)
    else (None, bumped d).
Proof.
  unfold createTask. unfold qbind at 1. unfold lift at 1.
  cbn [gen_random_uuid]. cbv beta iota.
  unfold qbind at 1. unfold insert_into at 1.
  match goal with |- context [user_exists ?d0 ?u && community_exists ?d1 ?c] =>
    change (user_exists d0 u && community_exists d1 c)
      with (user_exists d (InsertTask.authorId task)
            && community_exists d (InsertTask.communityId task))
  end.
  destruct (_ && _); reflexivity.
Qed.

Lemma createMessage_run now message d :
  createMessage now message d
  = if user_exists d (InsertMessage.senderId message)
       && if_set (task_exists d) (InsertMessage.taskId message)
       && if_set (conversation_exists d) (InsertMessage.conversationId message)
    then (Some (newMessage now (nextId (core d)) message),
          with_message (newMessage now (nextId (core d)) message) d)
    else (None, bumped d).
Proof.
  unfold createMessage. unfold qbind at 1. unfold lift at 1.
  cbn [gen_random_uuid]. cbv beta iota.
  unfold qbind at 1. unfold insert_into at 1.
  match goal with
  | |- context [user_exists ?d0 ?u && if_set (task_exists ?d1) ?t
                && if_set (conversation_exists ?d2) ?c] =>
    change (user_exists d0 u && if_set (task_exists d1) t
            && if_set (conversation_exists d2) c)
      with (user_exists d (InsertMessage.senderId message)
            && if_set (task_exists d) (InsertMessage.taskId message)
            && if_set (conversation_exists d)
                      (InsertMessage.conversationId message))
  end.
  destruct (_ && _ && _); reflexivity.
Qed.

Lemma reads_keep clients now sub call d :
  reads call = true -> (answer_call clients now sub call d).2 = d.
Proof.
  destruct call; try discriminate; intros _; unfold answer_call, endpoint.
  - reflexivity.
  - unfold get_communities, qbind. by rewrite getCommunities_run.
  - reflexivity.
  - unfold get_community_tasks, qbind.
    destruct (isCommunityMember_run sub id d) as (b & -> & _).
    destruct b; [|done]. cbn [negb]. by rewrite getTasks_run.
  - unfold get_task, qbind, getTaskWithUsers, qbind, lift.
    rewrite getTask_run. destruct d as [st cm mb ms]; cbn [core].
    destruct (taskById st id) as [t|]; [|done]. cbn [fmap option_fmap option_map].
    match goal with |- context [isCommunityMember ?u ?c ?d0] =>
      destruct (isCommunityMember_run u c d0) as (b & -> & _)
    end.
    by destruct b.
  - reflexivity.
  - reflexivity.
  - reflexivity.
  - unfold get_transaction, qbind, lift. rewrite getTaskTransaction_run.
    by destruct d.
  - reflexivity.
  - unfold get_chats, qbind.
    unfold getUserChats. cbv beta zeta.
    unfold getUserConversations, qbind, from. cbv beta zeta.
    by destruct (mapM _ _).
Qed.

(** ** What a request of the slice does to users, tasks and conversations *)

Lemma post_conversation_run clients now sub taskId authorId st :
  handle clients now sub (PostConversation taskId authorId) st
  = match head (List.filter
                  (fun c => bool_decide (conversation_key c
                                         = (taskId, authorId, sub)))
                  (conversations st)) with
    | Some c => (mkReply (Ok (JConversation c)) [], st)
    | None =>
        let c := Conversation.mk (nextId st) taskId authorId sub None now in
        (mkReply (Ok (JConversation c)) [],
         mkStore (users st) (tasks st) (conversations st ++ [c])
                 (transactions st) (ratings st) (S (nextId st)))
    end.
Proof.
  unfold handle, route, post_conversation, getOrCreateConversation, bind,
    select.
  assert (List.filter
            (fun c => bool_decide (Conversation.taskId c = taskId)
                      && bool_decide (Conversation.authorId c = authorId)
                      && bool_decide (Conversation.participantId c = sub))
            (conversations st)
          = List.filter
              (fun c => bool_decide (conversation_key c
                                     = (taskId, authorId, sub)))
              (conversations st)) as ->.
  { apply List.filter_ext. intros c. unfold conversation_key.
    apply bool_eq_iff.
    rewrite !andb_true_iff, !bool_decide_eq_true. split.
    - intros [[-> ->] ->]. done.
    - intros [= -> -> ->]. done. }
  by destruct (head _).
Qed.

Lemma handle_rows clients now sub req st :
  let st' := (handle clients now sub req st).2 in
  map User.id (users st') = map User.id (users st)
  /\ map Task.id (tasks st') = map Task.id (tasks st)
  /\ (conversations st' = conversations st
      \/ exists c,
           conversations st' = conversations st ++ [c]
           /\ conversation_key c ∉ map conversation_key (conversations st)).
Proof.
  cbv zeta. destruct req.
  - rewrite patch_task_run. destruct (taskById st id) as [t|]; [|by auto].
    repeat (match goal with
            | |- context [if ?b then _ else _] => destruct b
            end; [by auto|]).
    unfold tasks_patched; cbn [snd users tasks conversations].
    split; [done|]. split; [|by left].
    rewrite map_map. apply map_ext. intros t'.
    by destruct (bool_decide (Task.id t' = id)).
  - rewrite delete_task_run. destruct (taskById st id) as [t|]; [|by auto].
    repeat (match goal with
            | |- context [if ?b then _ else _] => destruct b
            end; [by auto|]).
    unfold tasks_patched; cbn [snd users tasks conversations].
    split; [done|]. split; [|by left].
    rewrite map_map. apply map_ext. intros t'.
    by destruct (bool_decide (Task.id t' = id)).
  - rewrite post_conversation_run.
    destruct (head _) as [c|] eqn:Hh; [by auto|].
    cbn [snd users tasks conversations]. split; [done|]. split; [done|].
    right. eexists. split; [reflexivity|].
    intros Hin. apply list_elem_of_fmap in Hin as (c & Hkey & Hc).
    assert (c ∈ List.filter
                  (fun c => bool_decide (conversation_key c
                                         = (taskId, authorId, sub)))
                  (conversations st)) as Hf.
    { apply elem_of_filter. split; [done|]. by apply bool_decide_eq_true. }
    destruct (List.filter _ (conversations st)); [inversion Hf|done].
  - rewrite post_transaction_run. destruct (taskById st id) as [t|]; [|by auto].
    destruct (Task.helperId t); by auto.
  - rewrite patch_start_request_run.
    destruct (transactionOfTask st taskId) as [x|]; [|by auto].
    destruct (startRequestUpdates x sub) as [[u r]|]; by auto.
  - rewrite patch_confirm_run.
    destruct (transactionOfTask st taskId) as [x|]; [|by auto].
    destruct (confirmUpdates now x sub) as [u|]; by auto.
  - rewrite post_rating_store. unfold rating_posted.
    cbn [users tasks conversations]. split; [|by auto].
    destruct (Number.toFixed2 _) as [n|]; [|done].
    destruct (Z.abs n <? 1000)%Z; [|done].
    rewrite map_map. apply map_ext. intros u.
    by destruct (bool_decide (User.id u = ratedId)).
Qed.

(** ** What every request preserves *)

Lemma serve_core_run clients now sub req d :
  (serve_core clients now sub req d).2 = core_served clients now sub req d.
Proof.
  unfold serve_core, core_served.
  by destruct (handle clients now sub req (core d)).
Qed.

Lemma post_task_run clients now sub body d :
  let taskData :=
    InsertTask.mk (InsertTask.title body) (InsertTask.description body)
      (InsertTask.category body) (InsertTask.reward body)
      (InsertTask.timeEstimate body) (InsertTask.location body)
      sub (InsertTask.communityId body) in
  answer_call clients now sub (PostTask body) d
  = if (isCommunityMember sub (InsertTask.communityId body) d).1
       is Some true
    then if user_exists d sub && community_exists d (InsertTask.communityId body)
         then (mkOutcome
                 (Sent (BNewTask (newTask now (nextId (core d)) taskData))) [],
               with_task (newTask now (nextId (core d)) taskData) d)
         else (mkOutcome (Refused 500) [], bumped d)
    else (mkOutcome (Refused 403) [], d).
Proof.
  cbv zeta. unfold answer_call, endpoint, post_task. unfold qbind at 1.
  destruct (isCommunityMember_run sub (InsertTask.communityId body) d)
    as (b & -> & _).
  cbn [fst]. destruct b; [|done]. cbn [negb].
  unfold qbind. rewrite createTask_run.
  cbn [InsertTask.authorId InsertTask.communityId].
  by destruct (_ && _).
Qed.

Lemma post_task_message_run clients now sub id body d :
  let messageData :=
    InsertMessage.mk (InsertMessage.content body) sub (Some id)
      (InsertMessage.conversationId body) (InsertMessage.messageType body) in
  let message := newMessage now (nextId (core d)) messageData in
  answer_call clients now sub (PostTaskMessage id body) d
  = if user_exists d sub && task_exists d id
       && if_set (conversation_exists d) (InsertMessage.conversationId body)
    then (mkOutcome (Sent (BMessage message))
            (broadcast_frame clients (NewTaskMessage id message)),
          with_message message d)
    else (mkOutcome (Refused 500) [], bumped d).
Proof.
  cbv zeta. unfold answer_call, endpoint, post_task_message, qbind.
  rewrite createMessage_run.
  cbn [InsertMessage.senderId InsertMessage.taskId InsertMessage.conversationId
       if_set].
  by destruct (_ && _ && _).
Qed.

Lemma post_conversation_message_run clients now sub id body d :
  let messageData :=
    InsertMessage.mk (InsertMessage.content body) sub
      (InsertMessage.taskId body) (Some id) (InsertMessage.messageType body) in
  let message := newMessage now (nextId (core d)) messageData in
  answer_call clients now sub (PostConversationMessage id body) d
  = if user_exists d sub && if_set (task_exists d) (InsertMessage.taskId body)
       && conversation_exists d id
    then (mkOutcome (Sent (BMessage message))
            (broadcast_frame clients (NewConversationMessage id message)),
          with_message message d)
    else (mkOutcome (Refused 500) [], bumped d).
Proof.
  cbv zeta. unfold answer_call, endpoint, post_conversation_message, qbind.
  rewrite createMessage_run.
  cbn [InsertMessage.senderId InsertMessage.taskId InsertMessage.conversationId
       if_set].
  by destruct (_ && _ && _).
Qed.

Lemma post_join_run clients now sub id d :
  answer_call clients now sub (PostJoin id) d
  = if user_exists d sub && community_exists d id
    then (mkOutcome
            (Sent (BMembership
                     (CommunityMember.mk (nextId (core d)) sub id now))) [],
          joined now sub id d)
    else (mkOutcome (Refused 500) [], bumped d).
Proof.
  unfold answer_call, endpoint, post_join, qbind. rewrite joinCommunity_run.
  by destruct (_ && _).
Qed.

(** What a call can do to the database. *)
Lemma answer_call_effect clients now sub call d :
  let d' := (answer_call clients now sub call d).2 in
  d' = d
  \/ d' = bumped d
  \/ (exists req, d' = core_served clients now sub req d)
  \/ (exists id,
        user_exists d sub = true /\ community_exists d id = true
        /\ d' = joined now sub id d)
  \/ (exists data,
        user_exists d sub = true
        /\ InsertCommunity.creatorId data = Some sub
        /\ d' = joined now sub (nextId (core d)) (founded now data d))
  \/ (exists id, d' = purged id d)
  \/ (exists t,
        Task.id t = nextId (core d)
        /\ user_exists d (Task.authorId t) = true
        /\ community_exists d (Task.communityId t) = true
        /\ d' = with_task t d)
  \/ (exists m,
        Message.id m = nextId (core d)
        /\ user_exists d (Message.senderId m) = true
        /\ if_set (task_exists d) (Message.taskId m) = true
        /\ if_set (conversation_exists d) (Message.conversationId m) = true
        /\ d' = with_message m d).
Proof.
  cbv zeta.
  destruct (reads call) eqn:Hreads;
    [left; by apply reads_keep|].
  destruct call; try discriminate.
  - right. right. left. exists req. apply serve_core_run.
  - rewrite post_community_run.
    destruct (user_exists d sub) eqn:Hu; [|by auto].
    do 4 right. left. eexists. split; [done|]. split; [|reflexivity]. done.
  - rewrite post_join_run.
    destruct (user_exists d sub) eqn:Hu; [|by auto].
    destruct (community_exists d id) eqn:Hc; [|by auto].
    do 3 right. left. exists id. done.
  - rewrite delete_community_run.
    destruct (List.find _ _) as [c|]; [|by auto].
    destruct (bool_decide _); [|by auto].
    do 5 right. left. by exists id.
  - rewrite post_task_run.
    destruct ((isCommunityMember _ _ _).1) as [[|]|]; [|by auto..].
    destruct (user_exists d sub) eqn:Hu; [|by auto].
    destruct (community_exists d _) eqn:Hc; [|by auto].
    do 6 right. left. eexists. split; [|split; [|split]]; [..|reflexivity];
      done.
  - rewrite post_conversation_message_run.
    destruct (user_exists d sub) eqn:Hu; [|by auto].
    destruct (if_set _ _) eqn:Ht; [|by auto].
    destruct (conversation_exists d id) eqn:Hc; [|by auto].
    do 7 right. eexists. split; [|split; [|split; [|split]]]; [..|reflexivity];
      done.
  - rewrite post_task_message_run.
    destruct (user_exists d sub) eqn:Hu; [|by auto].
    destruct (task_exists d id) eqn:Ht; [|by auto].
    destruct (if_set _ _) eqn:Hc; [|by auto].
    do 7 right. eexists. split; [|split; [|split; [|split]]]; [..|reflexivity];
      done.
Qed.


Lemma existsb_key {A K} `{EqDecision K} (key : A -> K) (k : K) (l : list A) :
  existsb (fun a => bool_decide (key a = k)) l = bool_decide (k ∈ map key l).
Proof.
  apply bool_eq_iff. rewrite existsb_true, bool_decide_eq_true.
  change (map key l) with (key <$> l). rewrite list_elem_of_fmap. split.
  - intros (a & Ha & Hk). apply bool_decide_eq_true in Hk. by exists a.
  - intros (a & -> & Ha). exists a. split; [done|].
    by apply bool_decide_eq_true.
Qed.

Lemma counts_ok_same d d' :
  communities d' = communities d ->
  communityMembers d' = communityMembers d ->
  counts_ok d -> counts_ok d'.
Proof.
  unfold counts_ok, membersOf. intros -> ->. done.
Qed.

Lemma counts_ok_joined now userId communityId d :
  (forall c, c ∈ communities d -> Community.id c <> communityId ->
     Community.memberCount c = length (membersOf d (Community.id c))) ->
  counts_ok (joined now userId communityId d).
Proof.
  intros Hd c Hc. unfold joined in Hc; cbn [communities] in Hc.
  apply list_elem_of_fmap in Hc as (c0 & -> & Hc0).
  unfold membersOf, joined; cbn [communityMembers].
  destruct (bool_decide (Community.id c0 = communityId)) eqn:Hid.
  - apply bool_decide_eq_true in Hid.
    cbn [setMemberCount Community.memberCount Community.id]. by rewrite Hid.
  - apply bool_decide_eq_false in Hid.
    rewrite (Hd c0 Hc0 Hid). unfold membersOf.
    rewrite List.filter_app, length_app.
    cbn [List.filter CommunityMember.communityId].
    rewrite bool_decide_eq_false_2 by congruence. simpl. lia.
Qed.

Lemma counts_ok_purged id d : counts_ok d -> counts_ok (purged id d).
Proof.
  intros Hd c Hc. unfold purged in Hc; cbn [communities] in Hc.
  apply elem_of_filter in Hc as [Hc Hid].
  apply negb_true_iff, bool_decide_eq_false in Hid.
  rewrite (Hd c Hc). unfold membersOf, purged; cbn [communityMembers].
  rewrite filter_filter. f_equal. apply filter_ext_bool. intros m _.
  destruct (bool_decide (CommunityMember.communityId m = Community.id c))
    eqn:Hm; [|by rewrite andb_false_r].
  apply bool_decide_eq_true in Hm.
  rewrite bool_decide_eq_false_2 by congruence. done.
Qed.

(** X9.  No request lets [memberCount] go stale: when every community row
    carries the number of its membership rows, it still does after any
    request, whoever sends it and however it is answered. *)
Theorem member_counts_stay_exact clients now sub call d :
  counts_ok d -> counts_ok (answer_call clients now sub call d).2.
Proof.
  intros Hd.
  destruct (answer_call_effect clients now sub call d)
    as [-> | [-> | [(req & ->) | [(id & _ & _ & ->) | [(data & _ & _ & ->)
       | [(id & ->) | [(t & _ & _ & _ & ->) | (m & _ & _ & _ & _ & ->)]]]]]]];
    try (by apply (counts_ok_same d)).
  - apply counts_ok_joined. intros c Hc _. by apply Hd.
  - apply counts_ok_joined. intros c Hc Hid.
    unfold founded in Hc; cbn [communities] in Hc.
    apply elem_of_app in Hc as [Hc|Hc].
    + by apply Hd.
    + apply list_elem_of_singleton in Hc. subst c. done.
  - by apply counts_ok_purged.
Qed.

Lemma if_set_mono {K} (f g : K -> bool) (r : option K) :
  (forall k, f k = true -> g k = true) ->
  if_set f r = true -> if_set g r = true.
Proof. destruct r; simpl; auto. Qed.

Lemma references_ok_step d d' :
  references_ok d ->
  (forall u, user_exists d u = true -> user_exists d' u = true) ->
  (forall c, community_exists d c = true -> community_exists d' c = true) ->
  (forall t, task_exists d t = true -> task_exists d' t = true) ->
  (forall c, conversation_exists d c = true -> conversation_exists d' c = true) ->
  (forall m, m ∈ communityMembers d' ->
     m ∈ communityMembers d
     \/ (user_exists d' (CommunityMember.userId m) = true
         /\ community_exists d' (CommunityMember.communityId m) = true)) ->
  (forall m, m ∈ messages d' ->
     m ∈ messages d
     \/ (user_exists d' (Message.senderId m) = true
         /\ if_set (task_exists d') (Message.taskId m) = true
         /\ if_set (conversation_exists d') (Message.conversationId m) = true)) ->
  (forall c, c ∈ communities d' ->
     (exists c0, c0 ∈ communities d
                 /\ Community.creatorId c = Community.creatorId c0)
     \/ if_set (user_exists d') (Community.creatorId c) = true) ->
  references_ok d'.
Proof.
  intros (Hmb & Hms & Hcm) Hu Hc Ht Hcv Hmb' Hms' Hcm'.
  split; [|split].
  - intros m Hm. destruct (Hmb' m Hm) as [Hold|Hnew]; [|done].
    destruct (Hmb m Hold). auto.
  - intros m Hm. destruct (Hms' m Hm) as [Hold|Hnew]; [|done].
    destruct (Hms m Hold) as (H1 & H2 & H3).
    split; [auto|]. split; eapply if_set_mono; eauto.
  - intros c Hc'. destruct (Hcm' c Hc') as [(c0 & Hc0 & Heq)|Hnew]; [|done].
    rewrite Heq. eapply if_set_mono; [|by apply Hcm]. done.
Qed.

Lemma references_ok_joined now userId communityId d :
  user_exists d userId = true -> community_exists d communityId = true ->
  references_ok d -> references_ok (joined now userId communityId d).
Proof.
  intros Hu Hc Hd.
  assert (forall c, community_exists (joined now userId communityId d) c
                    = community_exists d c) as Hcs.
  { intros c. unfold community_exists, joined; cbn [communities].
    rewrite !existsb_key, map_map.
    rewrite (map_ext _ Community.id); [done|].
    intros c0. by destruct (bool_decide (Community.id c0 = communityId)). }
  apply (references_ok_step d); try done.
  - intros c. by rewrite Hcs.
  - intros m Hm. unfold joined in Hm; cbn [communityMembers] in Hm.
    apply elem_of_app in Hm as [Hm|Hm]; [by left|].
    apply list_elem_of_singleton in Hm. subst m. right.
    cbn [CommunityMember.userId CommunityMember.communityId].
    rewrite Hcs. done.
  - intros m Hm. by left.
  - intros c Hc'. left. unfold joined in Hc'; cbn [communities] in Hc'.
    apply list_elem_of_fmap in Hc' as (c0 & -> & Hc0). exists c0.
    split; [done|]. by destruct (bool_decide (Community.id c0 = communityId)).
Qed.

Lemma references_ok_founded now data d :
  if_set (user_exists d) (InsertCommunity.creatorId data) = true ->
  references_ok d -> references_ok (founded now data d).
Proof.
  intros Hu Hd. apply (references_ok_step d); try done.
  - intros c. unfold community_exists, founded; cbn [communities].
    rewrite existsb_app. intros ->. done.
  - intros m Hm. by left.
  - intros m Hm. by left.
  - intros c Hc. unfold founded in Hc; cbn [communities] in Hc.
    apply elem_of_app in Hc as [Hc|Hc]; [left; by exists c|].
    apply list_elem_of_singleton in Hc. subst c. right. exact Hu.
Qed.

Lemma references_ok_purged id d : references_ok d -> references_ok (purged id d).
Proof.
  intros (Hmb & Hms & Hcm). split; [|split].
  - intros m Hm. unfold purged in Hm; cbn [communityMembers] in Hm.
    apply elem_of_filter in Hm as [Hm Hid].
    apply negb_true_iff, bool_decide_eq_false in Hid.
    destruct (Hmb m Hm) as [Hu Hc]. split; [exact Hu|].
    apply community_exists_true in Hc as (c & Hc & Hcid).
    apply community_exists_true. exists c. split; [|done].
    unfold purged; cbn [communities]. apply elem_of_filter. split; [done|].
    apply negb_true_iff, bool_decide_eq_false. congruence.
  - intros m Hm. unfold purged, without_tasks in Hm; cbn [messages] in Hm.
    apply elem_of_filter in Hm as [Hm Habout].
    apply negb_true_iff in Habout. unfold about_tasks in Habout.
    apply orb_false_iff in Habout as [Htask Hconv].
    rewrite existsb_false in Htask. rewrite existsb_false in Hconv.
    destruct (Hms m Hm) as (Hu & Ht & Hc). split; [exact Hu|]. split.
    + destruct (Message.taskId m) as [k|] eqn:Hk; [|done]. cbn [if_set] in *.
      unfold task_exists in Ht. apply existsb_true in Ht as (t & Ht & Htk).
      apply bool_decide_eq_true in Htk.
      unfold task_exists. apply existsb_true. exists t.
      split; [|by apply bool_decide_eq_true].
      unfold purged, without_tasks; cbn [core tasks].
      apply elem_of_filter. split; [done|].
      apply negb_true_iff, bool_decide_eq_false. intros Hcid.
      assert (k ∈ tasks_of id d) as Hin.
      { apply elem_of_tasks_of. by exists t. }
      specialize (Htask k Hin). by apply bool_decide_eq_false in Htask.
    + destruct (Message.conversationId m) as [k|] eqn:Hk; [|done].
      cbn [if_set] in *.
      unfold conversation_exists in Hc.
      apply existsb_true in Hc as (c & Hc & Hck).
      apply bool_decide_eq_true in Hck.
      unfold conversation_exists. apply existsb_true. exists c.
      split; [|by apply bool_decide_eq_true].
      unfold purged, without_tasks; cbn [core conversations].
      apply elem_of_filter. split; [done|].
      apply negb_true_iff, bool_decide_eq_false. intros Hin.
      specialize (Hconv c Hc).
      rewrite (bool_decide_eq_true_2 _ Hin) in Hconv. cbn [andb] in Hconv.
      apply bool_decide_eq_false in Hconv. congruence.
  - intros c Hc. unfold purged in Hc; cbn [communities] in Hc.
    apply elem_of_filter in Hc as [Hc _]. by apply Hcm.
Qed.

Lemma exists_after_core clients now sub req d :
  let d' := core_served clients now sub req d in
  (forall u, user_exists d' u = user_exists d u)
  /\ (forall t, task_exists d' t = task_exists d t)
  /\ (forall c, conversation_exists d c = true ->
                conversation_exists d' c = true).
Proof.
  cbv zeta.
  destruct (handle_rows clients now sub req (core d)) as (Hu & Ht & Hc).
  split; [|split].
  - intros u. unfold user_exists, core_served; cbn [core].
    by rewrite !existsb_key, Hu.
  - intros t. unfold task_exists, core_served; cbn [core].
    by rewrite !existsb_key, Ht.
  - intros c. unfold conversation_exists, core_served; cbn [core].
    destruct Hc as [-> | (c0 & -> & _)]; [done|].
    rewrite existsb_app. intros ->. done.
Qed.

(** X10.  No request leaves a dangling reference in [communityMembers],
    [messages] or [communities]: when every membership points to a user and
    a community that exist, every message to a sender and, where set, a task
    and a conversation that exist, and every community to its creator, the
    same holds after any request -- the cascade of a community deletion
    included. *)
Theorem references_stay_valid clients now sub call d :
  references_ok d -> references_ok (answer_call clients now sub call d).2.
Proof.
  intros Hd.
  destruct (answer_call_effect clients now sub call d)
    as [-> | [-> | [(req & ->) | [(id & Hu & Hc & ->) | [(data & Hu & Hcr & ->)
       | [(id & ->) | [(t & _ & _ & _ & ->) | (m & _ & Hm1 & Hm2 & Hm3 & ->)]]]]]]].
  - done.
  - apply (references_ok_step d); try done; intros; by left + (left; eauto).
  - destruct (exists_after_core clients now sub req d) as (Hu & Ht & Hc).
    apply (references_ok_step d); try done.
    + intros u. by rewrite Hu.
    + intros t. by rewrite Ht.
    + intros m Hm. by left.
    + intros m Hm. by left.
    + intros c Hc'. left. by exists c.
  - by apply references_ok_joined.
  - apply references_ok_joined.
    + exact Hu.
    + apply community_exists_true. eexists. split.
      * unfold founded; cbn [communities]. apply elem_of_app. right.
        apply list_elem_of_singleton. reflexivity.
      * reflexivity.
    + apply references_ok_founded; [|done]. by rewrite Hcr.
  - by apply references_ok_purged.
  - apply (references_ok_step d); try done.
    + intros k. unfold task_exists, with_task; cbn [core tasks].
      rewrite existsb_app. intros ->. done.
    + intros m Hm. by left.
    + intros m Hm. by left.
    + intros c Hc. left. by exists c.
  - apply (references_ok_step d); try done.
    + intros m' Hm'. by left.
    + intros m' Hm'. unfold with_message in Hm'; cbn [messages] in Hm'.
      apply elem_of_app in Hm' as [Hm'|Hm']; [by left|].
      apply list_elem_of_singleton in Hm'. subst m'. right. done.
    + intros c Hc. left. by exists c.
Qed.

Lemma NoDup_map_filter {A B} (f : A -> B) (p : A -> bool) (l : list A) :
  NoDup (map f l) -> NoDup (map f (List.filter p l)).
Proof.
  induction l as [|a l IH]; simpl; [done|].
  intros Hnd. apply NoDup_cons in Hnd as [Ha Hl].
  destruct (p a); simpl; [|by apply IH].
  apply NoDup_cons. split; [|by apply IH].
  intros Hin. apply Ha.
  change (f a ∈ f <$> List.filter p l) in Hin.
  apply list_elem_of_fmap in Hin as (b & Hb & Hin).
  apply elem_of_filter in Hin as [Hin _].
  change (f a ∈ f <$> l). apply list_elem_of_fmap. by exists b.
Qed.

(** X11.  No request makes a second conversation for the same task, author
    and participant: when the triples of the conversations are pairwise
    distinct, they still are after any request. *)
Theorem conversations_stay_unique clients now sub call d :
  NoDup (map conversation_key (conversations (core d))) ->
  NoDup (map conversation_key
             (conversations (core (answer_call clients now sub call d).2))).
Proof.
  intros Hd.
  destruct (answer_call_effect clients now sub call d)
    as [-> | [-> | [(req & ->) | [(id & _ & _ & ->) | [(data & _ & _ & ->)
       | [(id & ->) | [(t & _ & _ & _ & ->) | (m & _ & _ & _ & _ & ->)]]]]]]];
    try done.
  - destruct (handle_rows clients now sub req (core d)) as (_ & _ & Hc).
    unfold core_served; cbn [core].
    destruct Hc as [-> | (c & -> & Hfresh)]; [done|].
    rewrite map_app. apply NoDup_app. split; [done|]. split.
    + intros k Hk Hk'. apply list_elem_of_singleton in Hk'. by subst k.
    + apply NoDup_singleton.
  - unfold purged, without_tasks; cbn [core conversations].
    by apply NoDup_map_filter.
Qed.

(** ** The listings *)

Lemma later_total {A} (key : A -> Timestamp) : Total (later key).
Proof. intros a b. unfold later. lia. Qed.

Lemma later_trans {A} (key : A -> Timestamp) : Transitive (later key).
Proof. intros a b c. unfold later. lia. Qed.

Lemma earlier_total {A} (key : A -> Timestamp) : Total (earlier key).
Proof. intros a b. unfold earlier. lia. Qed.

Lemma earlier_trans {A} (key : A -> Timestamp) : Transitive (earlier key).
Proof. intros a b c. unfold earlier. lia. Qed.

Lemma order_by_desc_perm {A} (key : A -> Timestamp) (l : list A) :
  order_by_desc key l ≡ₚ l.
Proof. apply merge_sort_Permutation. Qed.

Lemma order_by_desc_sorted {A} (key : A -> Timestamp) (l : list A) :
  StronglySorted (later key) (order_by_desc key l).
Proof.
  apply StronglySorted_merge_sort; [apply later_trans|apply later_total].
Qed.

Lemma order_by_perm {A} (key : A -> Timestamp) (l : list A) :
  order_by key l ≡ₚ l.
Proof. apply merge_sort_Permutation. Qed.

Lemma order_by_sorted {A} (key : A -> Timestamp) (l : list A) :
  StronglySorted (earlier key) (order_by key l).
Proof.
  apply StronglySorted_merge_sort; [apply earlier_trans|apply earlier_total].
Qed.

Lemma ne_true column s :
  ne column s = true <-> exists v, column = Some v /\ v <> s.
Proof.
  unfold ne. destruct column as [v|].
  - rewrite negb_true_iff, bool_decide_eq_false. split.
    + intros H. by exists v.
    + intros (v' & [= <-] & H). done.
  - split; [done|]. intros (v & H & _). done.
Qed.

Lemma StronglySorted_map {A B} (R : B -> B -> Prop) (f : A -> B) (l : list A) :
  StronglySorted (fun a b => R (f a) (f b)) l -> StronglySorted R (map f l).
Proof.
  induction 1 as [|a l Hl IH Ha]; simpl; constructor; [done|].
  apply Forall_forall. intros b Hb.
  change (b ∈ f <$> l) in Hb.
  apply list_elem_of_fmap in Hb as (a' & -> & Ha').
  rewrite Forall_forall in Ha. by apply Ha.
Qed.

Lemma getTasks_elem communityId d t :
  t ∈ order_by_desc Task.createdAt
        (List.filter
           (fun t => bool_decide (Task.communityId t = communityId)
                     && ne (Task.status t) "cancelled"
                     && ne (Task.status t) "completed")
           (tasks (core d)))
  <-> t ∈ tasks (core d)
      /\ Task.communityId t = communityId
      /\ exists s, Task.status t = Some s
                   /\ s <> "cancelled" /\ s <> "completed".
Proof.
  rewrite order_by_desc_perm, elem_of_filter.
  rewrite !andb_true_iff, bool_decide_eq_true, !ne_true. split.
  - intros (Ht & (Hc & (s & Hs & Hs1)) & (s' & Hs' & Hs2)).
    split; [done|]. split; [done|]. exists s.
    rewrite Hs in Hs'. injection Hs' as <-. done.
  - intros (Ht & Hc & s & Hs & Hs1 & Hs2).
    split; [done|]. split; [split; [done|]|]; by exists s.
Qed.

Lemma getTasks_tasks communityId d :
  map TaskWithUsers.task
      (map (withUsers d)
           (order_by_desc Task.createdAt
              (List.filter
                 (fun t => bool_decide (Task.communityId t = communityId)
                           && ne (Task.status t) "cancelled"
                           && ne (Task.status t) "completed")
                 (tasks (core d)))))
  = order_by_desc Task.createdAt
      (List.filter
         (fun t => bool_decide (Task.communityId t = communityId)
                   && ne (Task.status t) "cancelled"
                   && ne (Task.status t) "completed")
         (tasks (core d))).
Proof. rewrite map_map. apply map_id. Qed.

(** X12.  The task list of a community: every task of the community whose
    status is set and is neither cancelled nor completed, each row once,
    newest first; a task whose status is null is never listed.  Each entry
    carries the first users row of its author. *)
Theorem getTasks_listing communityId d :
  exists listed,
    getTasks communityId d = (Some listed, d)
    /\ map TaskWithUsers.task listed
       ≡ₚ List.filter
            (fun t => bool_decide (Task.communityId t = communityId)
                      && ne (Task.status t) "cancelled"
                      && ne (Task.status t) "completed")
            (tasks (core d))
    /\ (forall t, t ∈ map TaskWithUsers.task listed
                  <-> t ∈ tasks (core d)
                      /\ Task.communityId t = communityId
                      /\ exists s, Task.status t = Some s
                                   /\ s <> "cancelled" /\ s <> "completed")
    /\ StronglySorted (fun a b => (Task.createdAt b <= Task.createdAt a)%Z)
                      (map TaskWithUsers.task listed)
    /\ Forall (fun w => TaskWithUsers.author w
                        = head (List.filter
                                  (fun u => bool_decide
                                              (User.id u
                                               = Task.authorId
                                                   (TaskWithUsers.task w)))
                                  (users (core d))))
              listed.
Proof.
  eexists. split; [apply getTasks_run|].
  rewrite getTasks_tasks.
  split; [apply order_by_desc_perm|]. split; [|split].
  - intros t. apply getTasks_elem.
  - apply (order_by_desc_sorted Task.createdAt).
  - apply Forall_forall. intros w Hw.
    match type of Hw with w ∈ map ?f ?l => change (w ∈ f <$> l) in Hw end.
    apply list_elem_of_fmap in Hw as (t & -> & _). reflexivity.
Qed.

Lemma filter_unique {A K} `{EqDecision K} (key : A -> K) (k : K) (l : list A) :
  NoDup (map key l) -> k ∈ map key l ->
  exists a, List.filter (fun a => bool_decide (k = key a)) l = [a].
Proof.
  induction l as [|a l IH]; simpl; intros Hnd Hin; [inversion Hin|].
  apply NoDup_cons in Hnd as [Ha Hl].
  destruct (decide (k = key a)) as [->|Hne].
  - rewrite (bool_decide_eq_true_2 _ eq_refl). exists a. f_equal.
    apply filter_none. intros b Hb. apply bool_decide_eq_false_2.
    intros Heq. apply Ha. rewrite Heq.
    change (key b ∈ key <$> l). apply list_elem_of_fmap. by exists b.
  - rewrite (bool_decide_eq_false_2 _ Hne). apply IH; [done|].
    inversion Hin; subst; [done|done].
Qed.

Lemma elem_of_joinSender d ms w :
  w ∈ joinSender d ms
  <-> MessageWithSender.message w ∈ ms
      /\ MessageWithSender.sender w ∈ users (core d)
      /\ User.id (MessageWithSender.sender w)
         = Message.senderId (MessageWithSender.message w).
Proof.
  unfold joinSender. split.
  - intros H. apply list_elem_of_In, in_flat_map in H as (m & Hm & Hw).
    apply list_elem_of_In in Hm, Hw.
    change (w ∈ MessageWithSender.mk m <$>
                List.filter (fun u => bool_decide (Message.senderId m = User.id u))
                            (users (core d))) in Hw.
    apply list_elem_of_fmap in Hw as (u & -> & Hu).
    apply elem_of_filter in Hu as [Hu Hid].
    apply bool_decide_eq_true in Hid. done.
  - intros (Hm & Hu & Hid). destruct w as [m u]; simpl in *.
    apply list_elem_of_In, in_flat_map.
    exists m. split; [by apply list_elem_of_In|].
    apply list_elem_of_In.
    change (MessageWithSender.mk m u ∈ MessageWithSender.mk m <$>
              List.filter (fun u => bool_decide (Message.senderId m = User.id u))
                          (users (core d))).
    apply list_elem_of_fmap. exists u. split; [done|].
    apply elem_of_filter. split; [done|]. by apply bool_decide_eq_true.
Qed.

Lemma joinSender_once d ms :
  NoDup (map User.id (users (core d))) ->
  (forall m, m ∈ ms -> user_exists d (Message.senderId m) = true) ->
  map MessageWithSender.message (joinSender d ms) = ms.
Proof.
  intros Hnd Hex. unfold joinSender.
  induction ms as [|m ms IH]; [done|].
  cbn [flat_map]. rewrite map_app, IH.
  2:{ intros m' Hm'. apply Hex. by right. }
  assert (user_exists d (Message.senderId m) = true) as Hm
    by (apply Hex; left).
  unfold user_exists in Hm. rewrite existsb_key in Hm.
  apply bool_decide_eq_true in Hm.
  destruct (filter_unique User.id (Message.senderId m) (users (core d)) Hnd Hm)
    as [u ->].
  done.
Qed.

Lemma message_listing (p : Message.t -> bool) d :
  let listed :=
    order_by (fun ms => Message.createdAt (MessageWithSender.message ms))
             (joinSender d (List.filter p (messages d))) in
  StronglySorted
    (fun a b => (Message.createdAt (MessageWithSender.message a)
                 <= Message.createdAt (MessageWithSender.message b))%Z)
    listed
  /\ (forall w, w ∈ listed
                <-> MessageWithSender.message w ∈ messages d
                    /\ p (MessageWithSender.message w) = true
                    /\ MessageWithSender.sender w ∈ users (core d)
                    /\ User.id (MessageWithSender.sender w)
                       = Message.senderId (MessageWithSender.message w))
  /\ (NoDup (map User.id (users (core d))) ->
      (forall m, m ∈ messages d -> user_exists d (Message.senderId m) = true) ->
      map MessageWithSender.message listed ≡ₚ List.filter p (messages d)).
Proof.
  cbv zeta. split; [|split].
  - apply (order_by_sorted
             (fun ms => Message.createdAt (MessageWithSender.message ms))).
  - intros w. rewrite order_by_perm, elem_of_joinSender, elem_of_filter.
    tauto.
  - intros Hnd Hex.
    rewrite order_by_perm.
    rewrite joinSender_once; [done|done|].
    intros m Hm. apply elem_of_filter in Hm as [Hm _]. by apply Hex.
Qed.

(** X13.  The messages of a task and the messages of a conversation are
    listed oldest first; a message is listed with every users row of its
    sender and not at all when there is none; when the user ids are distinct
    and every sender exists, the listing is the messages of the task (of the
    conversation), each once. *)
Theorem messages_listing id d :
  let sorted :=
    StronglySorted
      (fun a b => (Message.createdAt (MessageWithSender.message a)
                   <= Message.createdAt (MessageWithSender.message b))%Z) in
  let joined p listed :=
    forall w, w ∈ listed
              <-> MessageWithSender.message w ∈ messages d
                  /\ p (MessageWithSender.message w)
                  /\ MessageWithSender.sender w ∈ users (core d)
                  /\ User.id (MessageWithSender.sender w)
                     = Message.senderId (MessageWithSender.message w) in
  let complete (p : Message.t -> bool) listed :=
    NoDup (map User.id (users (core d))) ->
    (forall m, m ∈ messages d -> user_exists d (Message.senderId m) = true) ->
    map MessageWithSender.message listed ≡ₚ List.filter p (messages d) in
  (exists listed,
     getTaskMessages id d = (Some listed, d)
     /\ sorted listed
     /\ joined (fun m => Message.taskId m = Some id) listed
     /\ complete (fun m => bool_decide (Message.taskId m = Some id)) listed)
  /\ (exists listed,
        getConversationMessages id d = (Some listed, d)
        /\ sorted listed
        /\ joined (fun m => Message.conversationId m = Some id) listed
        /\ complete (fun m => bool_decide (Message.conversationId m = Some id))
                    listed).
Proof.
  cbv zeta. split.
  - destruct (message_listing
                (fun m => bool_decide (Message.taskId m = Some id)) d)
      as (Hs & Hj & Hc).
    eexists. split; [reflexivity|]. split; [exact Hs|]. split; [|exact Hc].
    intros w. rewrite Hj, bool_decide_eq_true. done.
  - destruct (message_listing
                (fun m => bool_decide (Message.conversationId m = Some id)) d)
      as (Hs & Hj & Hc).
    eexists. split; [reflexivity|]. split; [exact Hs|]. split; [|exact Hc].
    intros w. rewrite Hj, bool_decide_eq_true. done.
Qed.

Lemma lastMessageOf_spec d (p : Message.t -> bool) :
  match lastMessageOf d p with
  | Some m =>
      m ∈ messages d /\ p m = true
      /\ forall m', m' ∈ messages d -> p m' = true ->
                    (Message.createdAt m' <= Message.createdAt m)%Z
  | None => forall m', m' ∈ messages d -> p m' = false
  end.
Proof.
  unfold lastMessageOf.
  pose proof (order_by_desc_perm Message.createdAt
                (List.filter p (messages d))) as Hperm.
  pose proof (order_by_desc_sorted Message.createdAt
                (List.filter p (messages d))) as Hsorted.
  destruct (order_by_desc Message.createdAt (List.filter p (messages d)))
    as [|m rest]; cbn [head].
  - intros m' Hm'. apply not_true_iff_false. intros Hp.
    assert (m' ∈ @nil Message.t) as Hin.
    { rewrite Hperm. apply elem_of_filter. by split. }
    inversion Hin.
  - assert (m ∈ List.filter p (messages d)) as Hm.
    { rewrite <- Hperm. left. }
    apply elem_of_filter in Hm as [Hm Hp]. split; [done|]. split; [done|].
    intros m' Hm' Hp'.
    assert (m' ∈ m :: rest) as Hin.
    { rewrite Hperm. apply elem_of_filter. by split. }
    apply StronglySorted_inv in Hsorted as [_ Hall].
    rewrite Forall_forall in Hall.
    inversion Hin; subst; [lia|]. by apply Hall.
Qed.

Lemma getUserConversations_run userId d :
  exists listed,
    getUserConversations userId d = (Some listed, d)
    /\ map ConversationView.conversation listed
       = List.filter
           (fun c => bool_decide (Conversation.authorId c = userId)
                     || bool_decide (Conversation.participantId c = userId))
           (conversations (core d))
    /\ Forall
         (fun v =>
            ConversationView.task v
            = head (List.filter
                      (fun t => bool_decide
                                  (Task.id t
                                   = Conversation.taskId
                                       (ConversationView.conversation v)))
                      (tasks (core d)))
            /\ ConversationView.lastMessage v
               = lastMessageOf d
                   (fun m => bool_decide
                               (Message.conversationId m
                                = Some (Conversation.id
                                          (ConversationView.conversation v)))))
         listed.
Proof.
  eexists. split; [reflexivity|]. split.
  - rewrite map_map. apply map_id.
  - apply Forall_forall. intros v Hv.
    match type of Hv with v ∈ map ?f ?l => change (v ∈ f <$> l) in Hv end.
    apply list_elem_of_fmap in Hv as (c & -> & _). done.
Qed.

Lemma getUserChats_total userId d :
  exists listed, getUserChats userId d = (Some listed, d).
Proof. eexists. reflexivity. Qed.

(** X14.  The conversations of a user: one entry for each conversation in
    which the user is author or participant, in table order; the last
    message of an entry is a message of that conversation that none of its
    messages is later than, and is missing exactly when the conversation has
    no message. *)
Theorem getUserConversations_listing userId d :
  exists listed,
    getUserConversations userId d = (Some listed, d)
    /\ map ConversationView.conversation listed
       = List.filter
           (fun c => bool_decide (Conversation.authorId c = userId)
                     || bool_decide (Conversation.participantId c = userId))
           (conversations (core d))
    /\ Forall
         (fun v =>
            let of_conversation m :=
              Message.conversationId m
              = Some (Conversation.id (ConversationView.conversation v)) in
            match ConversationView.lastMessage v with
            | Some m =>
                m ∈ messages d /\ of_conversation m
                /\ forall m', m' ∈ messages d -> of_conversation m' ->
                     (Message.createdAt m' <= Message.createdAt m)%Z
            | None => forall m', m' ∈ messages d -> ~ of_conversation m'
            end)
         listed.
Proof.
  destruct (getUserConversations_run userId d) as (listed & Hrun & Hmap & Hall).
  exists listed. split; [exact Hrun|]. split; [exact Hmap|].
  eapply Forall_impl; [exact Hall|]. intros v [_ ->]. cbv zeta.
  pose proof (lastMessageOf_spec d
                (fun m => bool_decide
                            (Message.conversationId m
                             = Some (Conversation.id
                                       (ConversationView.conversation v)))))
    as Hlast.
  destruct (lastMessageOf d _) as [m|].
  - destruct Hlast as (Hm & Hp & Hle). apply bool_decide_eq_true in Hp.
    split; [done|]. split; [done|]. intros m' Hm' Hp'. apply Hle; [done|].
    by apply bool_decide_eq_true.
  - intros m' Hm' Hp'. specialize (Hlast m' Hm').
    by apply bool_decide_eq_false in Hlast.
Qed.

Lemma group_by_id_spec seen ts :
  NoDup (map Task.id (group_by_id seen ts))
  /\ (forall t, t ∈ group_by_id seen ts -> t ∈ ts /\ Task.id t ∉ seen)
  /\ (forall t, t ∈ ts -> Task.id t ∉ seen ->
                Task.id t ∈ map Task.id (group_by_id seen ts)).
Proof.
  revert seen. induction ts as [|t ts IH]; intros seen; cbn [group_by_id].
  - split; [constructor|]. split; intros t Ht; inversion Ht.
  - destruct (decide (Task.id t ∈ seen)) as [Hin|Hout].
    + rewrite (bool_decide_eq_true_2 _ Hin).
      destruct (IH seen) as (Hnd & Hsub & Hcov).
      split; [done|]. split.
      * intros t' Ht'. destruct (Hsub t' Ht'). split; [by right|done].
      * intros t' Ht' Hs. apply elem_of_cons in Ht' as [->|Ht']; [done|].
        by apply Hcov.
    + rewrite (bool_decide_eq_false_2 _ Hout).
      destruct (IH (Task.id t :: seen)) as (Hnd & Hsub & Hcov).
      cbn [map]. split; [|split].
      * apply NoDup_cons. split; [|done]. intros Hin.
        change (Task.id t ∈ Task.id <$> group_by_id (Task.id t :: seen) ts)
          in Hin.
        apply list_elem_of_fmap in Hin as (t' & Heq & Ht').
        destruct (Hsub t' Ht') as [_ Hs]. apply Hs. rewrite Heq. left.
      * intros t' Ht'. apply elem_of_cons in Ht' as [->|Ht'];
          [split; [left|done]|].
        destruct (Hsub t' Ht') as [H1 H2].
        split; [by right|]. intros Hs. apply H2. by right.
      * intros t' Ht' Hs.
        destruct (decide (Task.id t' = Task.id t)) as [->|Hne]; [left|].
        right. apply elem_of_cons in Ht' as [->|Ht']; [done|].
        apply Hcov; [done|]. intros Hin.
        apply elem_of_cons in Hin as [Hin|Hin]; done.
Qed.

(** X15.  The task chats of a user: one entry for each task id among the
    tasks the user wrote or helps with that have a message, most recently
    updated first; no entry carries a conversation id, and the last message
    of an entry is a message of its task that none of them is later than. *)
Theorem getUserChats_listing userId d :
  exists listed,
    getUserChats userId d = (Some listed, d)
    /\ NoDup (map Chat.id listed)
    /\ StronglySorted (fun a b => (Task.updatedAt b <= Task.updatedAt a)%Z)
                      (map Chat.task listed)
    /\ (forall k, k ∈ map Chat.id listed
                  <-> exists t, t ∈ tasks (core d) /\ Task.id t = k
                                /\ (Task.authorId t = userId
                                    \/ Task.helperId t = Some userId)
                                /\ exists m, m ∈ messages d
                                             /\ Message.taskId m = Some k)
    /\ Forall
         (fun chat =>
            Chat.conversationId chat = None
            /\ exists m,
                 Chat.lastMessage chat = Some m
                 /\ m ∈ messages d
                 /\ Message.taskId m = Some (Chat.id chat)
                 /\ forall m', m' ∈ messages d ->
                      Message.taskId m' = Some (Chat.id chat) ->
                      (Message.createdAt m' <= Message.createdAt m)%Z)
         listed.
Proof.
  eexists. split; [reflexivity|].
  set (joined := List.filter
        (fun t => (bool_decide (Task.authorId t = userId)
                   || bool_decide (Task.helperId t = Some userId))
                  && existsb (fun m => bool_decide (Message.taskId m
                                                    = Some (Task.id t)))
                             (messages d))
        (tasks (core d))).
  set (userTasks := order_by_desc Task.updatedAt (group_by_id [] joined)).
  destruct (group_by_id_spec [] joined) as (Hnd & Hsub & Hcov).
  assert (forall t, t ∈ joined
            <-> t ∈ tasks (core d)
                /\ (Task.authorId t = userId \/ Task.helperId t = Some userId)
                /\ exists m, m ∈ messages d
                             /\ Message.taskId m = Some (Task.id t)) as Hjoined.
  { intros t. unfold joined. rewrite elem_of_filter, andb_true_iff,
      orb_true_iff, !bool_decide_eq_true, existsb_true.
    split.
    - intros (Ht & Hu & m & Hm & Hmt). apply bool_decide_eq_true in Hmt.
      split; [done|]. split; [done|]. by exists m.
    - intros (Ht & Hu & m & Hm & Hmt). split; [done|]. split; [done|].
      exists m. split; [done|]. by apply bool_decide_eq_true. }
  assert (forall f : Task.t -> Chat.t,
            (forall t, Chat.task (f t) = t) ->
            map Chat.task (map f userTasks) = userTasks) as Htasks.
  { intros f Hf. rewrite map_map. rewrite (map_ext _ (fun t => t)); [|done].
    apply map_id. }
  assert (forall f : Task.t -> Chat.t,
            (forall t, Chat.task (f t) = t) ->
            map Chat.id (map f userTasks) = map Task.id userTasks) as Hids.
  { intros f Hf. rewrite map_map. apply map_ext. intros t. unfold Chat.id.
    by rewrite Hf. }
  split; [|split; [|split]].
  - rewrite Hids by done. unfold userTasks.
    rewrite order_by_desc_perm. exact Hnd.
  - rewrite Htasks by done. apply (order_by_desc_sorted Task.updatedAt).
  - intros k. rewrite Hids by done. unfold userTasks.
    rewrite order_by_desc_perm. split.
    + intros Hk. change (k ∈ Task.id <$> group_by_id [] joined) in Hk.
      apply list_elem_of_fmap in Hk as (t & -> & Ht).
      destruct (Hsub t Ht) as [Hj _]. apply Hjoined in Hj as (H1 & H2 & H3).
      by exists t.
    + intros (t & Ht & <- & Hu & Hm). apply Hcov; [|apply not_elem_of_nil].
      apply Hjoined. done.
  - apply Forall_forall. intros chat Hchat.
    match type of Hchat with chat ∈ map ?f ?l =>
      change (chat ∈ f <$> l) in Hchat end.
    apply list_elem_of_fmap in Hchat as (t & -> & Ht).
    unfold userTasks in Ht. rewrite order_by_desc_perm in Ht.
    destruct (Hsub t Ht) as [Hj _]. apply Hjoined in Hj as (_ & _ & m0 & Hm0 & Hm0t).
    cbn [Chat.conversationId Chat.lastMessage]. unfold Chat.id.
    cbn [Chat.task]. split; [done|].
    pose proof (lastMessageOf_spec d
                  (fun m => bool_decide (Message.taskId m = Some (Task.id t))))
      as Hlast.
    destruct (lastMessageOf d _) as [m|].
    + destruct Hlast as (Hm & Hp & Hle). apply bool_decide_eq_true in Hp.
      exists m. split; [done|]. split; [done|]. split; [done|].
      intros m' Hm' Hp'. apply Hle; [done|]. by apply bool_decide_eq_true.
    + specialize (Hlast m0 Hm0). apply bool_decide_eq_false in Hlast. done.
Qed.

(** ** The merge of [GET /api/chats] *)

Lemma map_set_keys k v m :
  map fst (map_set k v m)
  = if bool_decide (k ∈ map fst m) then map fst m else map fst m ++ [k].
Proof.
  induction m as [|[k' v'] m IH]; cbn [map_set map fst].
  - rewrite bool_decide_eq_false_2; [done|apply not_elem_of_nil].
  - destruct (decide (k' = k)) as [->|Hne].
    + rewrite (bool_decide_eq_true_2 (k = k) eq_refl).
      rewrite bool_decide_eq_true_2 by left. done.
    + rewrite (bool_decide_eq_false_2 _ Hne). cbn [map fst]. rewrite IH.
      destruct (decide (k ∈ map fst m)) as [Hin|Hout].
      * rewrite (bool_decide_eq_true_2 _ Hin).
        rewrite bool_decide_eq_true_2 by (by right). done.
      * rewrite (bool_decide_eq_false_2 _ Hout).
        rewrite bool_decide_eq_false_2; [done|].
        intros Hin. apply elem_of_cons in Hin as [Hin|Hin]; done.
Qed.

Lemma map_set_elem k v m kv :
  kv ∈ map_set k v m -> kv = (k, v) \/ kv ∈ m.
Proof.
  induction m as [|[k' v'] m IH]; cbn [map_set].
  - intros H. apply list_elem_of_singleton in H. by left.
  - destruct (bool_decide (k' = k)).
    + intros H. apply elem_of_cons in H as [H|H]; [by left|].
      right. by right.
    + intros H. apply elem_of_cons in H as [H|H]; [right; rewrite H; left|].
      destruct (IH H); [by left|]. right. by right.
Qed.

Lemma map_set_keyed k v m : Chat.id v = k -> keyed m -> keyed (map_set k v m).
Proof.
  intros Hv [Hnd Hk]. split.
  - rewrite map_set_keys. destruct (bool_decide _) eqn:Hin; [done|].
    apply bool_decide_eq_false in Hin.
    apply NoDup_app. split; [done|]. split; [|apply NoDup_singleton].
    intros x Hx Hx'. apply list_elem_of_singleton in Hx'. by subst x.
  - intros kv Hkv. destruct (map_set_elem _ _ _ _ Hkv) as [->|Hin];
      [done|by apply Hk].
Qed.

Lemma map_set_lookup k v m k' :
  NoDup (map fst m) ->
  List.filter (fun kv => bool_decide (kv.1 = k')) (map_set k v m)
  = if bool_decide (k = k') then [(k, v)]
    else List.filter (fun kv => bool_decide (kv.1 = k')) m.
Proof.
  induction m as [|[k0 v0] m IH]; intros Hnd; cbn [map_set].
  - cbn [List.filter fst]. by destruct (bool_decide (k = k')).
  - cbn [map fst] in Hnd. apply NoDup_cons in Hnd as [Hk0 Hnd].
    destruct (decide (k0 = k)) as [->|Hne].
    + rewrite (bool_decide_eq_true_2 (k = k) eq_refl).
      cbn [List.filter fst].
      destruct (bool_decide (k = k')) eqn:Hkk; [|done].
      apply bool_decide_eq_true in Hkk. subst k'. f_equal.
      apply filter_none. intros [k1 v1] Hin. apply bool_decide_eq_false_2.
      intros Heq. cbn [fst] in Heq. subst k1. apply Hk0.
      change (k ∈ fst <$> m). apply list_elem_of_fmap. by exists (k, v1).
    + rewrite (bool_decide_eq_false_2 _ Hne). cbn [List.filter fst].
      rewrite (IH Hnd).
      destruct (decide (k = k')) as [->|Hne'].
      * rewrite (bool_decide_eq_true_2 (k' = k') eq_refl).
        by rewrite (bool_decide_eq_false_2 _ Hne).
      * rewrite (bool_decide_eq_false_2 _ Hne'). done.
Qed.

Lemma set_all_keyed chats m : keyed m -> keyed (set_all chats m).
Proof.
  revert m. induction chats as [|c chats IH]; intros m Hm; [exact Hm|].
  unfold set_all. cbn [fold_left]. apply IH. by apply map_set_keyed.
Qed.

Lemma last_cons_filter {A} (a : A) (l : list A) :
  last (a :: l) = match last l with Some b => Some b | None => Some a end.
Proof.
  destruct l as [|b l]; [done|].
  change (last (a :: b :: l)) with (last (b :: l)).
  destruct (last (b :: l)) eqn:Hl; [done|].
  exfalso. revert b Hl. induction l as [|c l IH]; intros b Hl; [done|].
  by apply (IH c).
Qed.

Lemma set_all_lookup chats m k :
  keyed m ->
  List.filter (fun kv => bool_decide (kv.1 = k)) (set_all chats m)
  = match last_for k chats with
    | Some c => [(k, c)]
    | None => List.filter (fun kv => bool_decide (kv.1 = k)) m
    end.
Proof.
  revert m. induction chats as [|c chats IH]; intros m Hm; [reflexivity|].
  unfold set_all. cbn [fold_left].
  change (fold_left _ chats ?m0) with (set_all chats m0).
  rewrite IH by (by apply map_set_keyed).
  unfold last_for. cbn [List.filter].
  rewrite map_set_lookup by apply Hm.
  destruct (decide (Chat.id c = k)) as [Hc|Hc].
  - rewrite (bool_decide_eq_true_2 _ Hc), last_cons_filter.
    destruct (last _); [done|]. by rewrite Hc.
  - rewrite (bool_decide_eq_false_2 _ Hc). done.
Qed.

Lemma keyed_nil : keyed [].
Proof. split; [constructor|]. intros kv Hkv. inversion Hkv. Qed.

Lemma mergeChats_keys taskChats conversationChats :
  NoDup (map Chat.id (mergeChats taskChats conversationChats)).
Proof.
  unfold mergeChats.
  set (M := set_all conversationChats (set_all taskChats [])).
  assert (keyed M) as [Hnd Hk]
    by (do 2 apply set_all_keyed; apply keyed_nil).
  assert (map Chat.id (map snd M) = map fst M) as ->; [|done].
  rewrite map_map. apply map_ext_in. intros kv Hkv.
  apply Hk. by apply list_elem_of_In.
Qed.

Lemma mergeChats_lookup taskChats conversationChats k :
  List.filter (fun c => bool_decide (Chat.id c = k))
              (mergeChats taskChats conversationChats)
  = match last_for k conversationChats with
    | Some c => [c]
    | None =>
        match last_for k taskChats with
        | Some c => [c]
        | None => []
        end
    end.
Proof.
  unfold mergeChats.
  set (M := set_all conversationChats (set_all taskChats [])).
  assert (keyed M) as [Hnd Hk]
    by (do 2 apply set_all_keyed; apply keyed_nil).
  assert (List.filter (fun c => bool_decide (Chat.id c = k)) (map snd M)
          = map snd (List.filter (fun kv => bool_decide (kv.1 = k)) M)) as ->.
  { clear Hnd. induction M as [|kv M IH]; [done|].
    cbn [map List.filter].
    rewrite (Hk kv) by left.
    rewrite IH by (intros kv' Hkv'; apply Hk; by right).
    by destruct (bool_decide (kv.1 = k)). }
  unfold M. rewrite set_all_lookup by (apply set_all_keyed, keyed_nil).
  destruct (last_for k conversationChats); [done|].
  rewrite set_all_lookup by apply keyed_nil.
  by destruct (last_for k taskChats).
Qed.

(** X16.  The chat list merged in [GET /api/chats] has one entry for each
    task id; the entry is the last chat of that task among those made from
    conversations when there is one, and otherwise the last one among the
    task chats: a conversation chat always replaces the task chat of its
    task. *)
Theorem mergeChats_by_task taskChats conversationChats :
  let merged := mergeChats taskChats conversationChats in
  NoDup (map Chat.id merged)
  /\ forall k,
       List.filter (fun c => bool_decide (Chat.id c = k)) merged
       = match last_for k conversationChats with
         | Some c => [c]
         | None =>
             match last_for k taskChats with
             | Some c => [c]
             | None => []
             end
         end.
Proof.
  cbv zeta. split; [apply mergeChats_keys|]. intros k. apply mergeChats_lookup.
Qed.

(** ** The remaining routes *)

Lemma isCommunityMember_false userId communityId d :
  ~ is_member d userId communityId ->
  isCommunityMember userId communityId d = (Some false, d).
Proof.
  intros Hno. destruct (isCommunityMember_run userId communityId d)
    as (b & -> & Hb).
  destruct b; [|done]. exfalso. apply Hno. by apply Hb.
Qed.


(** X17.  The three routes that check membership -- the task list of a
    community, one task, and the creation of a task -- answer 403 to a
    caller who has no membership row for the community, change nothing and
    hand out no task. *)
Theorem strangers_are_refused clients now sub communityId d :
  ~ is_member d sub communityId ->
  answer_call clients now sub (GetCommunityTasks communityId) d
  = (mkOutcome (Refused 403) [], d)
  /\ (forall body,
        InsertTask.communityId body = communityId ->
        answer_call clients now sub (PostTask body) d
        = (mkOutcome (Refused 403) [], d))
  /\ (forall id t,
        taskById (core d) id = Some t -> Task.communityId t = communityId ->
        answer_call clients now sub (GetTask id) d
        = (mkOutcome (Refused 403) [], d)).
Proof.
  intros Hno. split; [|split].
  - unfold answer_call, endpoint, get_community_tasks, qbind.
    by rewrite (isCommunityMember_false _ _ _ Hno).
  - intros body Hbody. rewrite post_task_run, Hbody.
    by rewrite (isCommunityMember_false _ _ _ Hno).
  - intros id t Ht Hc.
    unfold answer_call, endpoint, get_task, qbind, getTaskWithUsers, qbind,
      lift.
    rewrite getTask_run, Ht. cbn [fmap option_fmap option_map].
    cbn [withUsers TaskWithUsers.task]. rewrite Hc.
    destruct d as [st cm mb ms].
    cbn [core communities communityMembers messages].
    by rewrite (isCommunityMember_false _ _ _ Hno).
Qed.


Lemma user_exists_true d id :
  user_exists d id = true <-> exists u, u ∈ users (core d) /\ User.id u = id.
Proof.
  unfold user_exists. rewrite existsb_true.
  split; intros (u & Hu & Hid); exists u; split; auto.
  - by apply bool_decide_eq_true in Hid.
  - by apply bool_decide_eq_true.
Qed.

Lemma message_is_listed (p : Message.t -> bool) d m :
  m ∈ messages d -> p m = true -> user_exists d (Message.senderId m) = true ->
  m ∈ map MessageWithSender.message
          (order_by (fun ms => Message.createdAt (MessageWithSender.message ms))
                    (joinSender d (List.filter p (messages d)))).
Proof.
  intros Hm Hp Hu. apply user_exists_true in Hu as (u & Hu & Hid).
  change (m ∈ MessageWithSender.message <$>
            order_by (fun ms => Message.createdAt (MessageWithSender.message ms))
                     (joinSender d (List.filter p (messages d)))).
  apply list_elem_of_fmap. exists (MessageWithSender.mk m u).
  split; [done|]. rewrite order_by_perm. apply elem_of_joinSender.
  cbn [MessageWithSender.message MessageWithSender.sender].
  split; [|done]. apply elem_of_filter. done.
Qed.

(** X19.  [POST /api/tasks/:id/messages]: any caller with a users row can
    write to any task that exists.  The message is stored as the last row
    with the caller as sender and the task of the path -- whatever
    [senderId] and [taskId] the body carries -- its [conversationId] is the
    one of the body, its type is text when the body has none; one frame goes
    to every open socket, and the message is in the listing of the task
    afterwards.  When the task, the caller or the conversation of the body
    is missing, the answer is 500, nothing is stored and nothing is sent. *)
Theorem post_task_message_spec clients now sub id body d :
  let out := answer_call clients now sub (PostTaskMessage id body) d in
  if user_exists d sub && task_exists d id
     && if_set (conversation_exists d) (InsertMessage.conversationId body)
  then
    exists m,
      returned out.1 = Sent (BMessage m)
      /\ messages out.2 = messages d ++ [m]
      /\ Message.senderId m = sub
      /\ Message.taskId m = Some id
      /\ Message.conversationId m = InsertMessage.conversationId body
      /\ Message.content m = InsertMessage.content body
      /\ Message.messageType m
         = match InsertMessage.messageType body with
           | absent => Some "text"
           | null => None
           | value s => Some s
           end
      /\ frames out.1
         = map (fun client => (client, NewTaskMessage id m))
               (List.filter (fun client => bool_decide (readyState client = OPEN))
                            clients)
      /\ exists listed,
           getTaskMessages id out.2 = (Some listed, out.2)
           /\ m ∈ map MessageWithSender.message listed
  else
    out.1 = mkOutcome (Refused 500) [] /\ messages out.2 = messages d.
Proof.
  cbv zeta. rewrite post_task_message_run.
  destruct (user_exists d sub) eqn:Hu; [|done].
  destruct (task_exists d id) eqn:Ht; [|done].
  destruct (if_set _ _) eqn:Hc; [|done].
  cbn [andb fst snd returned frames].
  eexists. split; [reflexivity|]. do 7 (split; [reflexivity|]).
  eexists. split; [reflexivity|].
  apply (message_is_listed
           (fun m => bool_decide (Message.taskId m = Some id))).
  - unfold with_message; cbn [messages]. apply elem_of_app. right.
    by apply list_elem_of_singleton.
  - by apply bool_decide_eq_true.
  - exact Hu.
Qed.

(** X20.  [POST /api/conversations/:id/messages]: the same for a
    conversation; [conversationId] is the one of the path, [taskId] the one
    of the body, so a message can carry both. *)
Theorem post_conversation_message_spec clients now sub id body d :
  let out := answer_call clients now sub (PostConversationMessage id body) d in
  if user_exists d sub && if_set (task_exists d) (InsertMessage.taskId body)
     && conversation_exists d id
  then
    exists m,
      returned out.1 = Sent (BMessage m)
      /\ messages out.2 = messages d ++ [m]
      /\ Message.senderId m = sub
      /\ Message.conversationId m = Some id
      /\ Message.taskId m = InsertMessage.taskId body
      /\ Message.content m = InsertMessage.content body
      /\ frames out.1
         = map (fun client => (client, NewConversationMessage id m))
               (List.filter (fun client => bool_decide (readyState client = OPEN))
                            clients)
      /\ exists listed,
           getConversationMessages id out.2 = (Some listed, out.2)
           /\ m ∈ map MessageWithSender.message listed
  else
    out.1 = mkOutcome (Refused 500) [] /\ messages out.2 = messages d.
Proof.
  cbv zeta. rewrite post_conversation_message_run.
  destruct (user_exists d sub) eqn:Hu; [|done].
  destruct (if_set _ _) eqn:Ht; [|done].
  destruct (conversation_exists d id) eqn:Hc; [|done].
  cbn [andb fst snd returned frames].
  eexists. split; [reflexivity|]. do 6 (split; [reflexivity|]).
  eexists. split; [reflexivity|].
  apply (message_is_listed
           (fun m => bool_decide (Message.conversationId m = Some id))).
  - unfold with_message; cbn [messages]. apply elem_of_app. right.
    by apply list_elem_of_singleton.
  - by apply bool_decide_eq_true.
  - exact Hu.
Qed.

(** X21.  [POST /api/communities] by a caller with a users row: the community
    is stored with the caller as creator and the caller is made a member in
    the same request.  The answer is the row as it was inserted, with
    [memberCount] 0, while the row stored by then counts the membership
    rows of the community, the creator's included.  Without a users row the
    insert is rejected: 500, and neither table changes. *)
Theorem post_community_spec clients now sub body d :
  let out := answer_call clients now sub (PostCommunity body) d in
  if user_exists d sub
  then
    exists c,
      returned out.1 = Sent (BCommunity c)
      /\ Community.id c = nextId (core d)
      /\ Community.name c = CommunityBody.name body
      /\ Community.creatorId c = Some sub
      /\ Community.memberCount c = 0
      /\ is_member out.2 sub (Community.id c)
      /\ setMemberCount (length (membersOf out.2 (Community.id c))) c
         ∈ communities out.2
      /\ 0 < length (membersOf out.2 (Community.id c))
      /\ length (communities out.2) = S (length (communities d))
  else
    returned out.1 = Refused 500
    /\ communities out.2 = communities d
    /\ communityMembers out.2 = communityMembers d.
Proof.
  cbv zeta. rewrite post_community_run.
  destruct (user_exists d sub); [|done].
  cbn [fst snd returned].
  eexists. split; [reflexivity|]. do 4 (split; [reflexivity|]).
  cbn [newCommunity Community.id].
  split; [|split; [|split]].
  - exists (CommunityMember.mk (S (nextId (core d))) sub (nextId (core d)) now).
    split; [|done].
    unfold joined; cbn [communityMembers]. apply elem_of_app. right.
    by apply list_elem_of_singleton.
  - unfold membersOf, joined, founded;
      cbn [communities communityMembers core].
    rewrite map_app. apply elem_of_app. right. cbn [map Community.id newCommunity].
    rewrite (bool_decide_eq_true_2 (nextId (core d) = nextId (core d)) eq_refl).
    apply list_elem_of_singleton. reflexivity.
  - unfold membersOf, joined; cbn [communityMembers].
    rewrite List.filter_app, length_app.
    cbn [List.filter CommunityMember.communityId].
    rewrite (bool_decide_eq_true_2 (nextId (core d) = nextId (core d)) eq_refl).
    simpl. lia.
  - unfold joined, founded; cbn [communities].
    rewrite length_map, length_app. simpl. lia.
Qed.


Lemma serve_core_full clients now sub req d :
  serve_core clients now sub req d
  = (mkOutcome
       (match response (handle clients now sub req (core d)).1 with
        | Ok body => Sent (BCore body)
        | Fail code => Refused code
        end)
       (map (fun '(client, ev) => (client, StartRequestFrame ev))
            (sent (handle clients now sub req (core d)).1)),
     core_served clients now sub req d).
Proof.
  unfold serve_core, core_served.
  by destruct (handle clients now sub req (core d)).
Qed.

(** X23.  After [DELETE /api/tasks/:id] went through, the task is in the task
    list of no community, and cancelling it again is refused -- with 403 for
    another caller, with 400 for the author -- and changes nothing. *)
Theorem cancelled_task_is_delisted clients now sub id d :
  let out := answer_call clients now sub (Core (DeleteTask id)) d in
  (exists body, returned out.1 = Sent body) ->
  (forall communityId listed,
     getTasks communityId out.2 = (Some listed, out.2) ->
     id ∉ map (fun w => Task.id (TaskWithUsers.task w)) listed)
  /\ (forall clients' now' sub',
        let again :=
          answer_call clients' now' sub' (Core (DeleteTask id)) out.2 in
        again.2 = out.2
        /\ returned again.1
           = Refused (if bool_decide (sub' = sub) then 400 else 403)).
Proof.
  cbv zeta. unfold answer_call. rewrite serve_core_full.
  unfold core_served. rewrite delete_task_run.
  destruct (taskById (core d) id) as [t|] eqn:Ht;
    [|intros [body Hb]; discriminate].
  destruct (bool_decide (Task.authorId t = sub)) eqn:Hauthor;
    [|intros [body Hb]; discriminate].
  apply bool_decide_eq_true in Hauthor. cbn [negb].
  destruct (negb _ && negb _) eqn:Hstatus; [intros [body Hb]; discriminate|].
  intros _. cbn [fst snd].
  set (d' := mkDatabase _ _ _ _).
  split.
  - intros communityId listed Hlisted Hin.
    rewrite getTasks_run in Hlisted. injection Hlisted as <-.
    rewrite <- (map_map TaskWithUsers.task Task.id), getTasks_tasks in Hin.
    match type of Hin with id ∈ map ?f ?l => change (id ∈ f <$> l) in Hin end.
    apply list_elem_of_fmap in Hin as (t' & Hid & Ht').
    apply getTasks_elem in Ht' as (Ht' & _ & s & Hs & Hs1 & _).
    unfold d', tasks_patched in Ht'; cbn [core tasks] in Ht'.
    apply list_elem_of_fmap in Ht' as (t0 & -> & _).
    destruct (bool_decide (Task.id t0 = id)) eqn:Ht0.
    + cbn in Hs. injection Hs as <-. done.
    + apply bool_decide_eq_false in Ht0. done.
  - intros clients' now' sub'. rewrite serve_core_full.
    unfold core_served, d'. cbn [core communities communityMembers messages].
    rewrite delete_task_run, taskById_patched, Ht.
    cbn [fmap option_fmap option_map].
    apply taskById_elem in Ht as [_ Hid].
    rewrite (bool_decide_eq_true_2 _ Hid).
    cbn [patched Task.authorId Task.status TaskPatch.only_status
         TaskPatch.authorId TaskPatch.status overwrite set_nullable].
    rewrite Hauthor.
    destruct (decide (sub' = sub)) as [->|Hne].
    + rewrite !(bool_decide_eq_true_2 (sub = sub) eq_refl). cbn [negb fst snd].
      done.
    + rewrite (bool_decide_eq_false_2 (sub = sub')) by congruence.
      rewrite (bool_decide_eq_false_2 _ Hne). done.
Qed.


Lemma last_elem {A} (l : list A) (a : A) : last l = Some a -> a ∈ l.
Proof.
  intros H. apply last_Some in H as [l' ->]. apply elem_of_app. right. left.
Qed.

Lemma last_is_Some {A} (l : list A) (a : A) : a ∈ l -> is_Some (last l).
Proof.
  intros Ha. destruct (last l) eqn:Hl; [by eexists|].
  apply last_None in Hl. subst l. inversion Ha.
Qed.

(** X25.  [GET /api/chats] changes nothing.  It answers 500 when one of the
    caller's conversations has no task row.  Otherwise it answers with a
    list that has one entry for each task id, and for every conversation of
    the caller the entry of its task carries a conversation id: it was made
    from a conversation, not from the messages of the task. *)
Theorem get_chats_spec clients now sub d :
  let out := answer_call clients now sub GetChats d in
  let mine c := Conversation.authorId c = sub
                \/ Conversation.participantId c = sub in
  out.2 = d
  /\ ((exists c, c ∈ conversations (core d) /\ mine c
                 /\ task_exists d (Conversation.taskId c) = false) ->
      returned out.1 = Refused 500)
  /\ ((forall c, c ∈ conversations (core d) -> mine c ->
                 task_exists d (Conversation.taskId c) = true) ->
      exists chats,
        returned out.1 = Sent (BChats chats)
        /\ NoDup (map Chat.id chats)
        /\ forall c, c ∈ conversations (core d) -> mine c ->
             exists chat, chat ∈ chats
                          /\ Chat.id chat = Conversation.taskId c
                          /\ is_Some (Chat.conversationId chat)).
Proof.
  cbv zeta. split; [by apply reads_keep|].
  destruct (getUserChats_total sub d) as (taskChats & HtaskChats).
  destruct (getUserConversations_run sub d)
    as (views & Hviews & Hconvs & Hjoined).
  unfold answer_call, endpoint, get_chats, qbind.
  rewrite HtaskChats, Hviews.
  assert (forall c, c ∈ map ConversationView.conversation views
                    <-> c ∈ conversations (core d)
                        /\ (Conversation.authorId c = sub
                            \/ Conversation.participantId c = sub)) as Hmine.
  { intros c. rewrite Hconvs, elem_of_filter, orb_true_iff,
      !bool_decide_eq_true. done. }
  assert (forall v, v ∈ views ->
            ConversationView.task v
            = head (List.filter
                      (fun t => bool_decide
                                  (Task.id t
                                   = Conversation.taskId
                                       (ConversationView.conversation v)))
                      (tasks (core d)))) as Htask.
  { intros v Hv. rewrite Forall_forall in Hjoined.
    by destruct (Hjoined v Hv). }
  split.
  - intros (c & Hc & Hmy & Hmissing).
    assert (mapM (conversationChat sub) views = None) as ->; [|done].
    apply mapM_None, Exists_exists.
    assert (c ∈ map ConversationView.conversation views) as Hin
      by (by apply Hmine).
    change (c ∈ ConversationView.conversation <$> views) in Hin.
    apply list_elem_of_fmap in Hin as (v & -> & Hv).
    exists v. split; [done|].
    unfold conversationChat. rewrite (Htask v Hv).
    unfold task_exists in Hmissing. rewrite existsb_false in Hmissing.
    rewrite filter_none; [done|]. exact Hmissing.
  - intros Hall.
    destruct (mapM (conversationChat sub) views) as [conversationChats|]
      eqn:HmapM.
    2:{ apply mapM_None, Exists_exists in HmapM as (v & Hv & Hnone).
        exfalso. unfold conversationChat in Hnone.
        rewrite (Htask v Hv) in Hnone.
        assert (ConversationView.conversation v
                ∈ map ConversationView.conversation views) as Hin.
        { change (ConversationView.conversation v
                  ∈ ConversationView.conversation <$> views).
          apply list_elem_of_fmap. by exists v. }
        apply Hmine in Hin as [Hc Hmy].
        specialize (Hall _ Hc Hmy). unfold task_exists in Hall.
        apply existsb_true in Hall as (t & Ht & Hid).
        assert (t ∈ List.filter
                      (fun t => bool_decide
                                  (Task.id t
                                   = Conversation.taskId
                                       (ConversationView.conversation v)))
                      (tasks (core d))) as Hf
          by (apply elem_of_filter; by split).
        destruct (List.filter _ (tasks (core d))); [inversion Hf|done]. }
    apply mapM_Some in HmapM.
    pose proof (mergeChats_lookup taskChats conversationChats) as Hlook.
    eexists. split; [reflexivity|]. split; [apply mergeChats_keys|].
    intros c Hc Hmy.
    assert (c ∈ map ConversationView.conversation views) as Hin
      by (by apply Hmine).
    change (c ∈ ConversationView.conversation <$> views) in Hin.
    apply list_elem_of_fmap in Hin as (v & -> & Hv).
    apply list_elem_of_lookup in Hv as [i Hi].
    destruct (Forall2_lookup_l _ _ _ _ _ HmapM Hi) as (chat0 & Hchat0 & Hconv).
    assert (Chat.id chat0
            = Conversation.taskId (ConversationView.conversation v)
            /\ forall chat, chat ∈ conversationChats ->
                 is_Some (Chat.conversationId chat)) as [Hid0 Hset].
    { split.
      - unfold conversationChat in Hconv.
        pose proof (Htask v (list_elem_of_lookup_2 _ _ _ Hi)) as Htv.
        destruct (ConversationView.task v) as [t|] eqn:Htaskv; [|done].
        cbn in Hconv. injection Hconv as <-. unfold Chat.id. cbn [Chat.task].
        symmetry in Htv. apply head_filter_elem in Htv as [_ Htid].
        by apply bool_decide_eq_true in Htid.
      - intros chat Hchat. apply list_elem_of_lookup in Hchat as [j Hj].
        destruct (Forall2_lookup_r _ _ _ _ _ HmapM Hj) as (v' & _ & Hv').
        unfold conversationChat in Hv'.
        destruct (ConversationView.task v'); [|done].
        cbn in Hv'. injection Hv' as <-. by eexists. }
    set (k := Conversation.taskId (ConversationView.conversation v)) in *.
    assert (is_Some (last_for k conversationChats)) as [chat Hlast].
    { apply last_is_Some with chat0. apply elem_of_filter.
      split; [by apply list_elem_of_lookup_2 in Hchat0|].
      by apply bool_decide_eq_true. }
    specialize (Hlook k). rewrite Hlast in Hlook.
    assert (chat ∈ List.filter (fun c => bool_decide (Chat.id c = k))
                               (mergeChats taskChats conversationChats)) as Hm
      by (rewrite Hlook; left).
    apply elem_of_filter in Hm as [Hm Hk]. apply bool_decide_eq_true in Hk.
    exists chat. split; [done|]. split; [done|].
    apply Hset. apply last_elem in Hlast.
    by apply elem_of_filter in Hlast as [? _].
Qed.

(** ** The properties on the sample data *)

Lemma Village_references_ok : references_ok Village.db.
Proof.
  split; [|split]; apply Forall_forall; repeat constructor.
Qed.

Lemma Village_counts_ok : counts_ok Village.db.
Proof.
  intros c Hc. apply list_elem_of_singleton in Hc. by subst c.
Qed.




Lemma delete_community_spec_witness :
  let out := answer_call [] 300 "alice" (DeleteCommunity 7) Village.db in
  returned out.1 = Sent BDeleted
  /\ community_exists out.2 7 = false
  /\ tasks (core out.2) = []
  /\ messages out.2 = [].
Proof.
  intros out.
  assert (forall c, c ∈ communities Village.db -> Community.id c = 7 ->
                    Community.creatorId c = Some "alice") as Hcreator.
  { intros c Hc _. apply list_elem_of_singleton in Hc. by subst c. }
  destruct (proj2 (proj2 (delete_community_spec [] 300 "alice" 7 Village.db))
              eq_refl Hcreator) as (Hsent & _ & Hgone & _).
  split; [exact Hsent|]. split; [exact Hgone|]. split; reflexivity.
Defined.

Lemma member_counts_stay_exact_witness :
  counts_ok (answer_call [] 300 "carol" (PostJoin 7) Village.db).2.
Proof.
  apply member_counts_stay_exact. exact Village_counts_ok.
Defined.

Lemma references_stay_valid_witness :
  references_ok (answer_call [] 300 "alice" (DeleteCommunity 7) Village.db).2.
Proof.
  apply references_stay_valid. exact Village_references_ok.
Defined.

Lemma conversations_stay_unique_witness :
  NoDup (map conversation_key
             (conversations
                (core (answer_call [] 300 "bob" (Core (PostConversation 0 "alice"))
                                   Village.db).2))).
Proof.
  apply conversations_stay_unique. apply NoDup_singleton.
Defined.

Lemma messages_listing_witness :
  exists listed,
    getTaskMessages 0 Village.db = (Some listed, Village.db)
    /\ map MessageWithSender.message listed
       ≡ₚ [Message.mk 11 "Can you come at noon?" "alice" (Some 0) None
                      (Some "text") 106].
Proof.
  destruct (proj1 (messages_listing 0 Village.db))
    as (listed & Hrun & _ & _ & Hcomplete).
  exists listed. split; [exact Hrun|]. apply Hcomplete.
  - apply (bool_decide_unpack _). reflexivity.
  - apply Forall_forall. repeat constructor.
Defined.

Lemma strangers_are_refused_witness :
  answer_call [] 300 "carol" (GetCommunityTasks 7) Village.db
  = (mkOutcome (Refused 403) [], Village.db)
  /\ answer_call [] 300 "carol" (GetTask 0) Village.db
     = (mkOutcome (Refused 403) [], Village.db).
Proof.
  assert (~ is_member Village.db "carol" 7) as Hno.
  { assert (Forall (fun m => CommunityMember.userId m <> "carol")
                   (communityMembers Village.db)) as Hall
      by (repeat constructor; discriminate).
    intros (m & Hm & Hu & _). rewrite Forall_forall in Hall.
    exact (Hall m Hm Hu). }
  destruct (strangers_are_refused [] 300 "carol" 7 Village.db Hno)
    as (Hlist & _ & Hone).
  split; [exact Hlist|].
  exact (Hone 0 (Sample.task (Some "open") None) eq_refl eq_refl).
Defined.



Lemma cancelled_task_is_delisted_witness :
  let out := answer_call [] 300 "alice" (Core (DeleteTask 0)) Village.db in
  let again := answer_call [] 310 "bob" (Core (DeleteTask 0)) out.2 in
  again.2 = out.2 /\ returned again.1 = Refused 403.
Proof.
  intros out again.
  assert (exists body, returned out.1 = Sent body) as Hsent
    by (eexists; reflexivity).
  destruct (cancelled_task_is_delisted [] 300 "alice" 0 Village.db Hsent)
    as [_ Hagain].
  exact (Hagain [] 310%Z "bob").
Defined.

Lemma get_chats_spec_witness :
  exists chats,
    returned (answer_call [] 300 "alice" GetChats Village.db).1
    = Sent (BChats chats)
    /\ NoDup (map Chat.id chats).
Proof.
  destruct (get_chats_spec [] 300 "alice" Village.db) as (_ & _ & Hlist).
  destruct Hlist as (chats & Hsent & Hnd & _).
  { intros c Hc _. apply list_elem_of_singleton in Hc. by subst c. }
  exists chats. done.
Defined.
